(** * Medical-IDP: a shallow embedding of the extraction, scoring,
    aggregation, citation and orchestration code, with the properties its
    specification states, and of the summary statistics and the demo agent
    that consume the scores.

    Conventions of the embedding.
    - Python [str] is [string]; the text is taken to be ASCII, so that
      [str.lower], [str.title] and [str.strip] act on single bytes.
    - Python [int] is [Z]; [len] yields a [nat] that is injected into [Z]
      where the code does arithmetic with it.
    - A number is the rational in [Q] that it denotes. A Python [float] is
      an IEEE 754 double: module [PyFloat] rounds the weighted capability
      score and the averages over facilities to the nearest double, ties to
      even, and a decimal literal that enters such an operation stands for
      the double nearest to it. A literal that is only stored and compared
      (a confidence, a bound of a test) is written as the decimal itself,
      which compares alike; a float sum of a few whole numbers, and the
      elapsed time that a run merely reports, are written with the exact
      operations. A number field that the code fills with an [int] holds a
      whole number; sums of ints are exact. Infinities and NaN are outside
      the model. Module [Binary64] runs the same operations on primitive
      floats, and [pyfloat_agrees_with_binary64] compares the two.
    - A function that can raise returns [result]; exceptions are instances of
      Python's [Exception] class (interpreter signals such as
      [KeyboardInterrupt] are not part of the model).
    - A function takes arguments of the types that its signature declares,
      and a record of the facility table holds cells of the types that the
      model classes declare; what Python does with a value of another type
      is modelled only for the fields that are given the type [pyval].
    - Wall-clock readings ([time.time()], [datetime.now()]) are passed in as
      arguments. *)

From Stdlib Require Import ZArith QArith Qminmax String Ascii List Lia Lqa.
From Stdlib Require Import Qround Qpower.
From Stdlib Require Import Sorted.
From Stdlib Require Import PrimFloat Uint63 FloatOps SpecFloat.
From stdpp Require Import base list strings pretty gmap.

Open Scope string_scope.
Open Scope list_scope.
Open Scope Z_scope.

(** ** Python values, exceptions and results *)

(** A JSON-like universe for the values that the code keeps in
    [Dict[str, Any]] snapshots and in loosely typed fields. *)
#[warnings="-register-all"]
Inductive pyval : Type :=
| PNone
| PBool (b : bool)
| PInt (n : Z)
| PFloat (q : Q)
| PStr (s : string)
| PList (l : list pyval)
| PDict (d : list (string * pyval)).

(** An insertion-ordered [Dict[str, Any]]. *)
Definition pydict : Type := list (string * pyval).

(** An instance of a subclass of [Exception]: its class name and [str(e)]. *)
Record PyException : Type := mkExn {
  exn_class : string;
  exn_msg : string
}.

Inductive result (A : Type) : Type :=
| Ok (a : A)
| Raise (e : PyException).
Arguments Ok {A} a.
Arguments Raise {A} e.

(** Sequencing of computations that can raise, with stdpp's notation
    [x ← m; k]. *)
#[global] Instance result_ret : MRet result := fun A a => Ok a.
#[global] Instance result_bind : MBind result := fun A B k m =>
  match m with
  | Ok a => k a
  | Raise e => Raise e
  end.

(** [try: m  except Exception as e: h e] *)
Definition try_except {A : Type} (m : result A) (h : PyException -> result A)
  : result A :=
  match m with
  | Ok a => Ok a
  | Raise e => h e
  end.

(** A loop or comprehension whose body can raise: the results in order, or
    the first exception. *)
Fixpoint traverse {A B : Type} (f : A -> result B) (l : list A)
  : result (list B) :=
  match l with
  | [] => Ok []
  | x :: r => y ← f x; ys ← traverse f r; Ok (y :: ys)
  end.

(** ** String primitives of Python used by the code *)
Module PyStr.

Definition is_upper (c : ascii) : bool :=
  let n := nat_of_ascii c in (65 <=? n)%nat && (n <=? 90)%nat.

Definition is_lower (c : ascii) : bool :=
  let n := nat_of_ascii c in (97 <=? n)%nat && (n <=? 122)%nat.

Definition is_digit (c : ascii) : bool :=
  let n := nat_of_ascii c in (48 <=? n)%nat && (n <=? 57)%nat.

(** [str.isspace] on one ASCII character: tab, line feed, vertical tab, form
    feed, carriage return, the four separators 0x1c-0x1f, and space. *)
Definition is_space (c : ascii) : bool :=
  let n := nat_of_ascii c in
  ((9 <=? n)%nat && (n <=? 13)%nat) || ((28 <=? n)%nat && (n <=? 32)%nat).

Definition lower_char (c : ascii) : ascii :=
  if is_upper c then ascii_of_nat (nat_of_ascii c + 32) else c.

Definition upper_char (c : ascii) : ascii :=
  if is_lower c then ascii_of_nat (nat_of_ascii c - 32) else c.

(** [s.lower()] *)
Fixpoint lower (s : string) : string :=
  match s with
  | EmptyString => EmptyString
  | String c r => String (lower_char c) (lower r)
  end.

(** [s.upper()] *)
Fixpoint upper (s : string) : string :=
  match s with
  | EmptyString => EmptyString
  | String c r => String (upper_char c) (upper r)
  end.

(** [s.title()]: the first letter of every run of letters is upper-cased and
    the other letters of the run are lower-cased. *)
Fixpoint title_from (prev_cased : bool) (s : string) : string :=
  match s with
  | EmptyString => EmptyString
  | String c r =>
      if is_lower c then
        String (if prev_cased then c else upper_char c) (title_from true r)
      else if is_upper c then
        String (if prev_cased then lower_char c else c) (title_from true r)
      else String c (title_from false r)
  end.

Definition title (s : string) : string := title_from false s.

(** [len(s)] *)
Definition len (s : string) : nat := String.length s.

(** [s.startswith(p)] *)
Fixpoint startswith (p s : string) : bool :=
  match p, s with
  | EmptyString, _ => true
  | String a p', String b s' => if Ascii.eqb a b then startswith p' s' else false
  | String _ _, EmptyString => false
  end.

(** [sub in s] *)
Fixpoint contains (sub s : string) : bool :=
  startswith sub s ||
  match s with
  | EmptyString => false
  | String _ r => contains sub r
  end.

(** [s.find(sub)], with [None] for Python's -1. *)
Fixpoint find_from (pos : nat) (sub s : string) : option nat :=
  if startswith sub s then Some pos
  else match s with
       | EmptyString => None
       | String _ r => find_from (S pos) sub r
       end.

Definition find (sub s : string) : option nat := find_from 0 sub s.

(** [s[a:b]] for [0 <= a] and [0 <= b]; an end before the start gives the
    empty string, an end beyond the string is cut at its length. *)
Definition slice (s : string) (a b : nat) : string :=
  String.substring a (b - a) (String.substring 0 (Nat.min b (len s)) s).

Fixpoint lstrip (s : string) : string :=
  match s with
  | EmptyString => EmptyString
  | String c r => if is_space c then lstrip r else s
  end.

Fixpoint rstrip (s : string) : string :=
  match s with
  | EmptyString => EmptyString
  | String c r =>
      match rstrip r with
      | EmptyString => if is_space c then EmptyString else String c EmptyString
      | r' => String c r'
      end
  end.

(** [s.strip()] *)
Definition strip (s : string) : string := rstrip (lstrip s).

(** [s.split(sep)] for a one-character separator: always at least one
    piece, empty pieces are kept. *)
Fixpoint split_acc (sep : ascii) (cur : string) (s : string) : list string :=
  match s with
  | EmptyString => [String.rev cur]
  | String c r =>
      if Ascii.eqb c sep then String.rev cur :: split_acc sep EmptyString r
      else split_acc sep (String c cur) r
  end.

Definition split (sep : ascii) (s : string) : list string :=
  split_acc sep EmptyString s.

(** [sep.join(parts)] *)
Fixpoint join (sep : string) (parts : list string) : string :=
  match parts with
  | [] => EmptyString
  | [p] => p
  | p :: rest => p +:+ sep +:+ join sep rest
  end.

(** [template.format] applied to positional arguments, for templates whose only fields are [{}]:
    fields are filled from left to right, surplus arguments are ignored.
    A field without an argument raises [IndexError]. *)
Fixpoint format (template : string) (args : list string) : result string :=
  match template with
  | String "{" (String "}" r) =>
      match args with
      | a :: args' =>
          match format r args' with
          | Ok t => Ok (a +:+ t)
          | Raise e => Raise e
          end
      | [] => Raise (mkExn "IndexError"
                "Replacement index out of range for positional args tuple")
      end
  | String c r =>
      match format r args with
      | Ok t => Ok (String c t)
      | Raise e => Raise e
      end
  | EmptyString => Ok EmptyString
  end.

(** [s * n] *)
Fixpoint repeat (s : string) (n : nat) : string :=
  match n with
  | O => EmptyString
  | S n' => s +:+ repeat s n'
  end.

(** The line feed. *)
Definition newline : string := String "010"%char EmptyString.

(** [str(n)] for an integer. *)
Definition of_int (n : Z) : string := pretty n.

(** [x in xs] for a list of strings. *)
Definition mem (x : string) (xs : list string) : bool :=
  existsb (String.eqb x) xs.

End PyStr.

(** ** The fragment of Python's [re] that the code uses

    Patterns are matched by backtracking with Python's priorities: the
    alternatives of a choice are tried from left to right, a greedy
    repetition tries the longest run first and a lazy one the shortest, and
    [search] returns the match with the leftmost start. Repetition is only
    applied to one-character matchers, as in every pattern of the code. *)
Module Regex.

(** One-character matchers. *)
Inductive cset : Type :=
| CChar (c : ascii)          (* a literal character *)
| CAny                       (* [.]: any character but a line feed *)
| CDigit                     (* [\d] *)
| CSpace                     (* [\s] *)
| CSet (cs : list ascii).    (* a bracketed set of characters *)

Inductive regex : Type :=
| REps
| RChr (c : cset)
| RSeq (r1 r2 : regex)
| RAlt (r1 r2 : regex)               (* [r1|r2] *)
| RStar (greedy : bool) (c : cset)   (* [c*] and [c*?] *)
| ROpt (r : regex)                   (* [r?] *)
| RGroup (i : nat) (r : regex).      (* capturing group number [i] *)

(** A literal string. *)
Fixpoint RLit (s : string) : regex :=
  match s with
  | EmptyString => REps
  | String c EmptyString => RChr (CChar c)
  | String c r => RSeq (RChr (CChar c)) (RLit r)
  end.

(** [c+] *)
Definition RPlus (greedy : bool) (c : cset) : regex :=
  RSeq (RChr c) (RStar greedy c).

Fixpoint RSeqs (rs : list regex) : regex :=
  match rs with
  | [] => REps
  | [r] => r
  | r :: rest => RSeq r (RSeqs rest)
  end.

(** Number of capturing groups, the length of [match.groups()]. *)
Fixpoint ngroups (r : regex) : nat :=
  match r with
  | REps | RChr _ | RStar _ _ => 0
  | RSeq r1 r2 | RAlt r1 r2 => ngroups r1 + ngroups r2
  | ROpt r => ngroups r
  | RGroup _ r => S (ngroups r)
  end.

(** Does the character [x] of the text match [c]? [ic] is [re.IGNORECASE]. *)
Definition match_char (ic : bool) (c : cset) (x : ascii) : bool :=
  match c with
  | CChar a =>
      if ic then Ascii.eqb (PyStr.lower_char a) (PyStr.lower_char x)
      else Ascii.eqb a x
  | CAny => negb (Ascii.eqb x "010")
  | CDigit => PyStr.is_digit x
  | CSpace => PyStr.is_space x
  | CSet cs =>
      existsb (fun a =>
                 if ic then Ascii.eqb (PyStr.lower_char a) (PyStr.lower_char x)
                 else Ascii.eqb a x) cs
  end.

(** Captured groups: the most recent capture of a group comes first. *)
Definition captures : Type := list (nat * string).

Record Match : Type := mkMatch {
  m_start : nat;
  m_end : nat;
  m_text : string;          (* [group(0)] *)
  m_groups : captures
}.

(** [match.group(i)] for [i >= 1]; [None] when the group took no part. *)
Definition group (i : nat) (m : Match) : option string :=
  snd <$> List.find (fun g => Nat.eqb (fst g) i) (m_groups m).

Section Matcher.
Context {A : Type}.
Variable ic : bool.

(** A continuation receives the rest of the text, the position reached and
    the groups captured so far. *)
Definition cont : Type := string -> nat -> captures -> option A.

Fixpoint star_lazy (c : cset) (s : string) (pos : nat) (cp : captures)
    (k : cont) : option A :=
  match k s pos cp with
  | Some a => Some a
  | None =>
      match s with
      | String x r =>
          if match_char ic c x then star_lazy c r (S pos) cp k else None
      | EmptyString => None
      end
  end.

Fixpoint star_greedy (c : cset) (s : string) (pos : nat) (cp : captures)
    (k : cont) : option A :=
  match s with
  | String x r =>
      if match_char ic c x then
        match star_greedy c r (S pos) cp k with
        | Some a => Some a
        | None => k s pos cp
        end
      else k s pos cp
  | EmptyString => k s pos cp
  end.

Fixpoint run (r : regex) (s : string) (pos : nat) (cp : captures)
    (k : cont) : option A :=
  match r with
  | REps => k s pos cp
  | RChr c =>
      match s with
      | String x s' => if match_char ic c x then k s' (S pos) cp else None
      | EmptyString => None
      end
  | RSeq r1 r2 => run r1 s pos cp (fun s' pos' cp' => run r2 s' pos' cp' k)
  | RAlt r1 r2 =>
      match run r1 s pos cp k with
      | Some a => Some a
      | None => run r2 s pos cp k
      end
  | RStar true c => star_greedy c s pos cp k
  | RStar false c => star_lazy c s pos cp k
  | ROpt r1 =>
      match run r1 s pos cp k with
      | Some a => Some a
      | None => k s pos cp
      end
  | RGroup i r1 =>
      run r1 s pos cp
        (fun s' pos' cp' =>
           k s' pos' ((i, String.substring 0 (pos' - pos) s) :: cp'))
  end.

End Matcher.

(** A match that starts exactly at the head of [s], which is at offset
    [pos] of the whole text. *)
Definition match_at (ic : bool) (r : regex) (s : string) (pos : nat)
  : option Match :=
  run ic r s pos []
    (fun _ pos' cp =>
       Some (mkMatch pos pos' (String.substring 0 (pos' - pos) s) cp)).

(** The leftmost match in [s], the suffix of the text at offset [pos]. *)
Fixpoint search_from (ic : bool) (r : regex) (s : string) (pos : nat)
  : option Match :=
  match match_at ic r s pos with
  | Some m => Some m
  | None =>
      match s with
      | String _ s' => search_from ic r s' (S pos)
      | EmptyString => None
      end
  end.

(** [re.search(r, s)] *)
Definition search (ic : bool) (r : regex) (s : string) : option Match :=
  search_from ic r s 0.

(** The truth value of the result of [re.search]. *)
Definition found (m : option Match) : bool :=
  match m with
  | Some _ => true
  | None => false
  end.

(** The successive non-overlapping matches, from left to right: the scan
    tries a match at every position that the previous match does not cover
    ([skip] counts the characters of the text still covered), so that each
    search resumes where the previous match ended. The patterns of the
    code never match the empty string; after an empty match the scan moves
    one character on. *)
Fixpoint scan (ic : bool) (r : regex) (s : string) (pos skip : nat)
  : list Match :=
  match skip with
  | S skip' =>
      match s with
      | String _ s' => scan ic r s' (S pos) skip'
      | EmptyString => []
      end
  | O =>
      match match_at ic r s pos with
      | Some m =>
          m :: match s with
               | String _ s' =>
                   scan ic r s' (S pos) (m_end m - S (m_start m))
               | EmptyString => []
               end
      | None =>
          match s with
          | String _ s' => scan ic r s' (S pos) 0
          | EmptyString => []
          end
      end
  end.

(** [re.finditer(r, s)] *)
Definition finditer (ic : bool) (r : regex) (s : string) : list Match :=
  scan ic r s 0 0.

End Regex.

(** ** citation_tracker.py *)
Module Ledger.

Record Citation : Type := mkCitation {
  source_type : string;
  facility_id : option string;
  facility_name : option string;
  field_name : option string;
  field_value : option string;
  row_number : option Z;
  confidence : Q
}.

Record AgentStep : Type := mkAgentStep {
  step_number : Z;
  step_name : string;
  step_description : string;
  input_data : pydict;
  output_data : pydict;
  citations : list Citation;
  timestamp : string;
  duration_ms : option Q
}.

Record CitationTracker : Type := mkTracker {
  steps : list AgentStep;
  current_step_number : Z
}.

(** [CitationTracker.__init__] *)
Definition init : CitationTracker :=
  {| steps := []; current_step_number := 0 |}.

(** [start_step]: the counter is incremented, a step with empty output and no
    citations is appended, and the new counter value is returned. [now] is
    the reading of [datetime.now().isoformat()]. *)
Definition start_step (name description : string) (input : pydict)
    (now : string) (t : CitationTracker) : CitationTracker * Z :=
  let n := current_step_number t + 1 in
  let step := {| step_number := n;
                 step_name := name;
                 step_description := description;
                 input_data := input;
                 output_data := [];
                 citations := [];
                 timestamp := now;
                 duration_ms := None |} in
  ({| steps := steps t ++ [step]; current_step_number := n |}, n).

(** [_get_step]: the first step of the list with that number. *)
Definition _get_step (n : Z) (t : CitationTracker) : option AgentStep :=
  List.find (fun s => step_number s =? n) (steps t).

(** The step object returned by [_get_step] is the one stored in
    [self.steps]; an assignment to one of its attributes is an update, in
    place, of the first list element with that number. *)
Fixpoint update_first (n : Z) (f : AgentStep -> AgentStep)
    (l : list AgentStep) : list AgentStep :=
  match l with
  | [] => []
  | s :: r => if step_number s =? n then f s :: r
              else s :: update_first n f r
  end.

Definition set_output (out : pydict) (dur : option Q) (s : AgentStep)
  : AgentStep :=
  {| step_number := step_number s;
     step_name := step_name s;
     step_description := step_description s;
     input_data := input_data s;
     output_data := out;
     citations := citations s;
     timestamp := timestamp s;
     duration_ms := dur |}.

(** [AgentStep.add_citation] *)
Definition add_citation (c : Citation) (s : AgentStep) : AgentStep :=
  {| step_number := step_number s;
     step_name := step_name s;
     step_description := step_description s;
     input_data := input_data s;
     output_data := output_data s;
     citations := citations s ++ [c];
     timestamp := timestamp s;
     duration_ms := duration_ms s |}.

(** [end_step] *)
Definition end_step (n : Z) (out : pydict) (dur : option Q)
    (t : CitationTracker) : CitationTracker :=
  match _get_step n t with
  | Some _ =>
      {| steps := update_first n (set_output out dur) (steps t);
         current_step_number := current_step_number t |}
  | None => t
  end.

(** [add_citation_to_step] *)
Definition add_citation_to_step (n : Z) (c : Citation)
    (t : CitationTracker) : CitationTracker :=
  match _get_step n t with
  | Some _ =>
      {| steps := update_first n (add_citation c) (steps t);
         current_step_number := current_step_number t |}
  | None => t
  end.

(** [add_facility_citation] *)
Definition add_facility_citation (n : Z) (fid fname field value : string)
    (row : Z) (conf : Q) (t : CitationTracker) : CitationTracker :=
  add_citation_to_step n
    {| source_type := "facility_row";
       facility_id := Some fid;
       facility_name := Some fname;
       field_name := Some field;
       field_value := Some value;
       row_number := Some row;
       confidence := conf |} t.

(** [get_all_citations] *)
Definition get_all_citations (t : CitationTracker) : list Citation :=
  List.concat (List.map citations (steps t)).

(** [get_citations_by_facility] *)
Definition get_citations_by_facility (fid : string) (t : CitationTracker)
  : list Citation :=
  List.filter
    (fun c => match facility_id c with
              | Some f => String.eqb f fid
              | None => false
              end)
    (get_all_citations t).

Definition opt_str (o : option string) : pyval :=
  match o with Some s => PStr s | None => PNone end.

(** [Citation.to_dict] *)
Definition citation_to_dict (c : Citation) : pyval :=
  PDict [("source_type", PStr (source_type c));
         ("facility_id", opt_str (facility_id c));
         ("facility_name", opt_str (facility_name c));
         ("field_name", opt_str (field_name c));
         ("field_value", opt_str (field_value c));
         ("row_number", match row_number c with
                        | Some n => PInt n | None => PNone end);
         ("confidence", PFloat (confidence c))].

(** [AgentStep.to_dict] *)
Definition step_to_dict (s : AgentStep) : pyval :=
  PDict [("step_number", PInt (step_number s));
         ("step_name", PStr (step_name s));
         ("step_description", PStr (step_description s));
         ("input_data", PDict (input_data s));
         ("output_data", PDict (output_data s));
         ("citations", PList (List.map citation_to_dict (citations s)));
         ("timestamp", PStr (timestamp s));
         ("duration_ms", match duration_ms s with
                         | Some d => PFloat d | None => PNone end)].

(** [CitationTracker.to_dict] *)
Definition to_dict (t : CitationTracker) : pyval :=
  PDict [("total_steps", PInt (Z.of_nat (length (steps t))));
         ("steps", PList (List.map step_to_dict (steps t)));
         ("total_citations",
          PInt (Z.of_nat (length (get_all_citations t))))].

Section Report.

(** [json.dumps(value, indent=2)] and the format [:.2f] of the standard
    library. *)
Variable json_dumps : pyval -> result string.
Variable format_2f : Q -> string.

(** [to_json] *)
Definition to_json (t : CitationTracker) : result string :=
  json_dumps (to_dict t).

(** [str(x)] of an optional string inside an f-string. *)
Definition str_opt (o : option string) : string :=
  match o with Some s => s | None => "None" end.

(** The truth value of an optional string: [None] and the empty string are
    false. *)
Definition truthy (o : option string) : bool :=
  match o with Some s => negb (String.eqb s "") | None => false end.

(** The report lines of the citation number [i] of a step. *)
Definition citation_lines (i : nat) (c : Citation) : result (list string) :=
  let head :=
    ["  [" +:+ PyStr.of_int (Z.of_nat i) +:+ "] " +:+ source_type c] in
  let facility :=
    if truthy (facility_name c)
    then ["      Facility: " +:+ str_opt (facility_name c) +:+ " ("
          +:+ str_opt (facility_id c) +:+ ")"]
    else [] in
  field ←
    (if truthy (field_name c) then
       match field_value c with
       | Some v =>
           Ok ["      Field: " +:+ str_opt (field_name c);
               "      Value: " +:+ PyStr.slice v 0 100 +:+ "..."]
       | None => Raise (mkExn "TypeError"
                   "'NoneType' object is not subscriptable")
       end
     else Ok []);
  Ok (head ++ facility ++ field
      ++ ["      Confidence: " +:+ format_2f (confidence c)]).

Fixpoint citations_lines (i : nat) (cs : list Citation)
  : result (list string) :=
  match cs with
  | [] => Ok []
  | c :: rest =>
      ls ← citation_lines i c;
      more ← citations_lines (S i) rest;
      Ok (ls ++ more)
  end.

Definition rule (c : string) : string := PyStr.repeat c 80.

(** The report lines of one step. *)
Definition step_lines (s : AgentStep) : result (list string) :=
  let duration :=
    match duration_ms s with
    | Some d => if Qeq_bool d 0 then []
                else ["Duration: " +:+ format_2f d +:+ "ms"]
    | None => []
    end in
  input ← json_dumps (PDict (input_data s));
  output ← json_dumps (PDict (output_data s));
  cited ←
    match citations s with
    | [] => Ok [PyStr.newline +:+ "No citations for this step"]
    | cs =>
        ls ← citations_lines 1 cs;
        Ok ((PyStr.newline +:+ "Citations ("
             +:+ PyStr.of_int (Z.of_nat (length cs)) +:+ "):") :: ls)
    end;
  Ok ([PyStr.newline +:+ rule "─";
       "Step " +:+ PyStr.of_int (step_number s) +:+ ": " +:+ step_name s;
       rule "─";
       "Description: " +:+ step_description s;
       "Timestamp: " +:+ timestamp s]
      ++ duration
      ++ [PyStr.newline +:+ "Input: " +:+ input;
          PyStr.newline +:+ "Output: " +:+ output]
      ++ cited).

(** [generate_citation_report] *)
Definition generate_citation_report (t : CitationTracker) : result string :=
  body ← traverse step_lines (steps t);
  Ok (PyStr.join PyStr.newline
        ([rule "="; "AGENT EXECUTION TRACE WITH CITATIONS"; rule "=";
          PyStr.newline +:+ "Total Steps: "
            +:+ PyStr.of_int (Z.of_nat (length (steps t)));
          "Total Citations: "
            +:+ PyStr.of_int (Z.of_nat (length (get_all_citations t)))
            +:+ PyStr.newline]
         ++ List.concat body
         ++ [PyStr.newline +:+ rule "=" +:+ PyStr.newline])).

End Report.

(** A run of the ledger: the calls a client makes on one instance. *)
Inductive call : Type :=
| CallStart (name description : string) (input : pydict) (now : string)
| CallEnd (n : Z) (out : pydict) (dur : option Q)
| CallCite (n : Z) (c : Citation)
| CallFacilityCite (n : Z) (fid fname field value : string) (row : Z)
    (conf : Q).

(** One call: the new ledger and, for [start_step], the number returned. *)
Definition step_call (c : call) (t : CitationTracker)
  : CitationTracker * option Z :=
  match c with
  | CallStart name description input now =>
      let '(t', n) := start_step name description input now t in
      (t', Some n)
  | CallEnd n out dur => (end_step n out dur t, None)
  | CallCite n c => (add_citation_to_step n c t, None)
  | CallFacilityCite n fid fname field value row conf =>
      (add_facility_citation n fid fname field value row conf t, None)
  end.

(** A sequence of calls: the final ledger and the numbers [start_step]
    returned, in call order. *)
Fixpoint run (cs : list call) (t : CitationTracker)
  : CitationTracker * list Z :=
  match cs with
  | [] => (t, [])
  | c :: rest =>
      let '(t1, r) := step_call c t in
      let '(t2, ids) := run rest t1 in
      (t2, match r with Some n => n :: ids | None => ids end)
  end.

End Ledger.

(** ** Python floats: IEEE 754 doubles, rounded to nearest, ties to even

    A finite double is modelled by the rational that it denotes, and an
    operation on floats yields the double nearest to its exact result. The
    scores are far below the largest double, so that no operation
    overflows. *)
Module PyFloat.

(** The integer nearest to a rational, the even one of two that are equally
    near. *)
Definition rne (x : Q) : Z :=
  let f := Qfloor x in
  match (x - inject_Z f ?= 1 # 2)%Q with
  | Lt => f
  | Gt => f + 1
  | Eq => if Z.even f then f else f + 1
  end.

(** The integer part of the binary logarithm of a positive rational. *)
Definition ilog2 (x : Q) : Z :=
  let k := Z.log2 (Qnum x) - Z.log2 (Z.pos (Qden x)) in
  if Qle_bool (2 ^ k) x then k else k - 1.

(** The exponent of the last place of the doubles around a positive
    rational: 53 significant bits, and no exponent below that of the
    subnormal numbers. *)
Definition exponent (x : Q) : Z := Z.max (-1074) (ilog2 x - 52).

Definition nearest_pos (x : Q) : Q :=
  let e := exponent x in
  Qred (inject_Z (rne (x / 2 ^ e)) * 2 ^ e).

(** The double nearest to a rational, as a reduced fraction. It is also the
    value of a decimal literal of the source. *)
Definition nearest (x : Q) : Q :=
  match Qnum x with
  | Z0 => 0
  | Zpos _ => nearest_pos x
  | Zneg _ => - nearest_pos (- x)
  end.

(** [float(n)], the conversion that Python applies to an [int] operand of an
    operation on floats. *)
Definition of_int (n : Z) : Q := nearest (inject_Z n).

(** [x + y] and [x * y] on floats. *)
Definition add (x y : Q) : Q := nearest (x + y).
Definition mul (x y : Q) : Q := nearest (x * y).

(** The additions of a loop [total += x], or of [sum(xs)], over floats: from
    left to right, starting from the integer 0. (From CPython 3.12 on,
    [sum] compensates the rounding errors of its float additions, which can
    change the last bit of its result; the loop is not affected.) *)
Definition sum (xs : list Q) : Q := List.fold_left add xs 0%Q.

(** [x / n] for a positive [int] [n]: the quotient of two ints is rounded
    once, and so is the quotient of a float by the float of [n]. *)
Definition truediv (x : Q) (n : Z) : Q := nearest (x / inject_Z n).

End PyFloat.

(** ** document_parser.py *)
Module Parser.

Module MedicalCapability.
Record t : Type := mk {
  capability_type : string;
  name : string;
  status : string;
  confidence : Q;
  source_text : string;
  facility_id : string
}.
End MedicalCapability.

Record FacilityProfile : Type := mkProfile {
  facility_id : string;
  facility_name : string;
  region : string;
  district : string;
  coordinates : Q * Q;
  facility_type : string;
  specialties : list string;
  equipment : list string;
  procedures : list string;
  gaps : list string;
  urgent_needs : list string;
  suspicious_claims : list string;
  capabilities : list MedicalCapability.t;
  capability_score : Q;      (* a float, or the int 100 of [min] *)
  desert_risk_score : Q      (* the int that [_compute_scores] stores *)
}.

(** One record of the facility table whose cells have the types that
    [FacilityProfile] declares for them: the lookups [row[...]] of
    [extract_capabilities] and the validation of the model class succeed on
    it. (A record without one of these columns, or with a cell that the
    model class rejects, ends the call with a [KeyError] or a
    [ValidationError] before any of the steps below.) The four text columns
    hold the value of [str(row.get(column, ''))]: a missing cell reads
    ["nan"]. *)
Record FacilityRow : Type := mkRow {
  row_facility_id : string;
  row_facility_name : string;
  row_region : string;
  row_district : string;
  row_latitude : Q;
  row_longitude : Q;
  row_facility_type : string;
  row_specialties : string;
  row_equipment : string;
  row_procedures : string;
  row_staff_notes : string
}.

(** Assignments to attributes of the profile. *)
Definition set_lists (sp eq pr : list string) (p : FacilityProfile)
  : FacilityProfile :=
  mkProfile (facility_id p) (facility_name p) (region p) (district p)
    (coordinates p) (facility_type p) sp eq pr (gaps p) (urgent_needs p)
    (suspicious_claims p) (capabilities p) (capability_score p)
    (desert_risk_score p).

Definition set_capabilities (cs : list MedicalCapability.t)
    (p : FacilityProfile) : FacilityProfile :=
  mkProfile (facility_id p) (facility_name p) (region p) (district p)
    (coordinates p) (facility_type p) (specialties p) (equipment p)
    (procedures p) (gaps p) (urgent_needs p) (suspicious_claims p) cs
    (capability_score p) (desert_risk_score p).

Definition set_issues (g u sc : list string) (p : FacilityProfile)
  : FacilityProfile :=
  mkProfile (facility_id p) (facility_name p) (region p) (district p)
    (coordinates p) (facility_type p) (specialties p) (equipment p)
    (procedures p) g u sc (capabilities p) (capability_score p)
    (desert_risk_score p).

Definition set_scores (cap risk : Q) (p : FacilityProfile)
  : FacilityProfile :=
  mkProfile (facility_id p) (facility_name p) (region p) (district p)
    (coordinates p) (facility_type p) (specialties p) (equipment p)
    (procedures p) (gaps p) (urgent_needs p) (suspicious_claims p)
    (capabilities p) cap risk.

Import Regex.

(** The vocabularies of [IntelligentDocumentParser.__init__]. *)
Definition specialty_patterns : list regex :=
  [RLit "cardiology"; RLit "neurosurgery"; RLit "oncology";
   RLit "pediatrics"; RLit "orthopedics"; RLit "obstetrics";
   RLit "internal medicine"; RLit "emergency"; RLit "ophthalmology";
   RLit "dentistry"; RLit "general medicine"; RLit "surgery"].

Definition equipment_patterns : list regex :=
  [RLit "MRI";
   RSeqs [RLit "CT "; RChr (CSet ["S"%char; "s"%char]); RLit "canner"];
   RSeqs [RLit "X-"; RChr (CSet ["R"%char; "r"%char]); RLit "ay"];
   RSeqs [RChr (CSet ["U"%char; "u"%char]); RLit "ltrasound"];
   RLit "ventilator"; RLit "ICU"; RLit "operating theater";
   RLit "catheterization lab"; RLit "blood bank"; RLit "laboratory";
   RLit "ambulance"].

Definition procedure_patterns : list regex :=
  [RLit "surgery"; RLit "cesarean"; RLit "chemotherapy"; RLit "dialysis";
   RLit "trauma care"; RLit "intensive care"; RLit "delivery";
   RLit "deliveries"; RLit "immunization"; RLit "vaccination";
   RLit "transplant"].

(** The capabilities of one structured column: every comma-separated item,
    stripped, with status [available] and confidence 0.95. *)
Definition structured_items (field : string) : list string :=
  List.map PyStr.strip (PyStr.split "," field).

Definition structured_capabilities (kind field fid : string)
  : list MedicalCapability.t :=
  List.map (fun item => MedicalCapability.mk kind item "available" 0.95%Q
                          field fid)
    (structured_items field).

(** [_extract_structured_fields]: a column is parsed when its text is not
    empty. *)
Definition _extract_structured_fields (p : FacilityProfile)
    (sp_text eq_text pr_text : string) (fid : string) : FacilityProfile :=
  let nonempty (t : string) := negb (String.eqb t "") in
  let sp := if nonempty sp_text then structured_items sp_text
            else specialties p in
  let eq := if nonempty eq_text then structured_items eq_text
            else equipment p in
  let pr := if nonempty pr_text then structured_items pr_text
            else procedures p in
  let caps :=
    capabilities p
    ++ (if nonempty sp_text
        then structured_capabilities "specialty" sp_text fid else [])
    ++ (if nonempty eq_text
        then structured_capabilities "equipment" eq_text fid else [])
    ++ (if nonempty pr_text
        then structured_capabilities "procedure" pr_text fid else []) in
  set_capabilities caps (set_lists sp eq pr p).

(** The specialties found in the notes: one capability per match whose text
    is not the lower-cased name of a structured specialty. *)
Definition note_specialties (p : FacilityProfile) (notes fid : string)
  : list MedicalCapability.t :=
  let notes_lower := PyStr.lower notes in
  List.flat_map
    (fun pattern =>
       List.flat_map
         (fun m =>
            let specialty := m_text m in
            if PyStr.mem specialty (List.map PyStr.lower (specialties p))
            then []
            else [MedicalCapability.mk "specialty" (PyStr.title specialty)
                    "mentioned" 0.7%Q notes fid])
         (finditer true pattern notes_lower))
    specialty_patterns.

(** The equipment found in the notes: one capability per match, with a
    status read from the 50 characters on each side of the match. *)
Definition note_equipment (notes fid : string) : list MedicalCapability.t :=
  let notes_lower := PyStr.lower notes in
  List.flat_map
    (fun pattern =>
       List.map
         (fun m =>
            let equipment := m_text m in
            let context_start := (m_start m - 50)%nat in
            let context_end := Nat.min (PyStr.len notes) (m_end m + 50) in
            let context :=
              PyStr.lower (PyStr.slice notes context_start context_end) in
            let status :=
              if PyStr.contains "broke" context
                 || PyStr.contains "broken" context
                 || PyStr.contains "not working" context
              then "broken"
              else if PyStr.contains ("no " +:+ PyStr.lower equipment)
                        context
              then "unavailable"
              else "available" in
            MedicalCapability.mk "equipment" equipment status 0.8%Q context
              fid)
         (finditer true pattern notes_lower))
    equipment_patterns.

(** [_extract_from_notes] *)
Definition _extract_from_notes (p : FacilityProfile) (notes fid : string)
  : FacilityProfile :=
  if String.eqb notes "" || String.eqb notes "nan" then p
  else set_capabilities
         (capabilities p ++ note_specialties p notes fid
            ++ note_equipment notes fid) p.

(** The local table of [_detect_gaps]. *)
Definition shortage_indicators : list (regex * string) :=
  [(RSeqs [RLit "short on "; RGroup 1 (RStar false CAny);
           RChr (CSet ["."%char; ","%char])],
    "Staff shortage: {}");
   (RSeqs [RLit "need more "; RGroup 1 (RStar false CAny);
           RChr (CSet ["."%char; ","%char])],
    "Urgent need: {}");
   (RSeqs [RLit "no "; RGroup 1 (RStar false CAny); RLit " available"],
    "Missing: {}");
   (RSeqs [RLit "no "; RGroup 1 (RStar false CAny); RLit " on ";
           ROpt (RGroup 2 (RLit "permanent ")); RLit "staff"],
    "No {} on staff");
   (RSeqs [RLit "only "; RGroup 1 (RPlus true CDigit); RLit " ";
           RGroup 2 (RStar false CAny); RLit " on staff"],
    "Limited {}: only {} available")].

(** [g.strip()] on a group that may be [None]. *)
Definition strip_group (g : option string) : result string :=
  match g with
  | Some s => Ok (PyStr.strip s)
  | None => Raise (mkExn "AttributeError"
              "'NoneType' object has no attribute 'strip'")
  end.

(** [str(g)] of a group, as [format] renders it. *)
Definition str_group (g : option string) : string :=
  match g with
  | Some s => s
  | None => "None"
  end.

(** The gap string of one match of a shortage pattern. *)
Definition shortage_gap (pattern : regex) (template : string) (m : Match)
  : result string :=
  if Nat.eqb (ngroups pattern) 1 then
    g1 ← strip_group (group 1 m);
    PyStr.format template [g1]
  else
    g2 ← strip_group (group 2 m);
    PyStr.format template [g2; str_group (group 1 m)].

Definition shortage_gaps (text_lower : string) : result (list string) :=
  ls ← traverse
         (fun pt : regex * string =>
            traverse (shortage_gap (fst pt) (snd pt))
              (finditer false (fst pt) text_lower))
         shortage_indicators;
  Ok (List.concat ls).

Definition critical_equipment : list string :=
  ["CT scanner"; "MRI"; "ICU"; "operating theater"].

(** Gaps for critical equipment that the text negates or reports broken. *)
Definition critical_gaps_of (text_lower : string) : list string :=
  List.flat_map
    (fun equip =>
       let equip_lower := PyStr.lower equip in
       if PyStr.contains equip_lower text_lower then
         if found (search false (RSeq (RLit "no ") (RLit equip_lower))
                     text_lower)
         then ["No " +:+ equip]
         else if found
                   (search false
                      (RSeqs [RLit equip_lower; RStar false CAny;
                              RLit "broke"])
                      text_lower)
         then [equip +:+ " broken/awaiting repair"]
         else []
       else [])
    critical_equipment.

Definition advanced_equipment : list string :=
  ["MRI"; "CT Scanner"; "Cardiac Catheterization"].

(** [any(needle.lower() in e.lower() for e in items)] *)
Definition any_contains (needle : string) (items : list string) : bool :=
  existsb (fun e => PyStr.contains (PyStr.lower needle) (PyStr.lower e))
    items.

Definition suspicious_of (p : FacilityProfile) : list string :=
  if String.eqb (facility_type p) "District Hospital" then
    List.flat_map
      (fun eq =>
         if any_contains eq (equipment p)
         then ["District hospital claims " +:+ eq +:+ " - verify accuracy"]
         else [])
      advanced_equipment
  else [].

(** [_detect_gaps] *)
Definition _detect_gaps (p : FacilityProfile) (text fid : string)
  : result FacilityProfile :=
  let text_lower := PyStr.lower text in
  shortages ← shortage_gaps text_lower;
  Ok (set_issues
        (gaps p ++ shortages ++ critical_gaps_of text_lower)
        (urgent_needs p ++ shortages)
        (suspicious_claims p ++ suspicious_of p)
        p).

(** [min(a, b)] of Python: [b] when it is smaller than [a], else [a]. *)
Definition py_min (a b : Q) : Q := if Qlt_le_dec b a then b else a.

(** [a < b] on floats. *)
Definition Qltb (a b : Q) : bool := negb (Qle_bool b a).

(** The dictionary [type_weights]; each weight is the double that its
    literal denotes. *)
Definition type_weights : gmap string Q :=
  <["Teaching Hospital" := PyFloat.nearest 1.0]>
    (<["Regional Hospital" := PyFloat.nearest 0.7]>
       (<["District Hospital" := PyFloat.nearest 0.4]>
          (<["Mission Hospital" := PyFloat.nearest 0.5]> ∅))).

Definition critical_missing : list string :=
  ["CT Scanner"; "MRI"; "ICU"; "Operating Theater"].

(** The capability score computed by [_compute_scores]: the weighted count
    is an [int], its product with the weight is a float. *)
Definition compute_capability_score (p : FacilityProfile) : Q :=
  let specialty_count := Z.of_nat (length (specialties p)) in
  let equipment_count := Z.of_nat (length (equipment p)) in
  let procedure_count := Z.of_nat (length (procedures p)) in
  let base_weight :=
    default (PyFloat.nearest 0.3) (type_weights !! facility_type p) in
  py_min 100
    (PyFloat.mul
       (PyFloat.of_int (specialty_count * 5 + equipment_count * 3
                        + procedure_count * 2))
       base_weight).

(** The running total [desert_factors] of [_compute_scores], given the
    capability score just stored in the profile. *)
Definition compute_desert_factors (score : Q) (p : FacilityProfile) : Z :=
  let desert_factors := 0 in
  let desert_factors :=
    if Qltb score 30 then desert_factors + 30
    else if Qltb score 50 then desert_factors + 15
    else desert_factors in
  let desert_factors :=
    desert_factors + Z.min 30 (Z.of_nat (length (gaps p)) * 5) in
  List.fold_left
    (fun acc critical =>
       if negb (any_contains critical (equipment p)) then acc + 10 else acc)
    critical_missing desert_factors.

(** [_compute_scores] *)
Definition _compute_scores (p : FacilityProfile) : FacilityProfile :=
  let score := compute_capability_score p in
  set_scores score (inject_Z (Z.min 100 (compute_desert_factors score p))) p.

(** [extract_capabilities] *)
Definition extract_capabilities (row : FacilityRow) : result FacilityProfile :=
  let fid := row_facility_id row in
  let profile :=
    mkProfile fid (row_facility_name row) (row_region row)
      (row_district row) (row_latitude row, row_longitude row)
      (row_facility_type row) [] [] [] [] [] [] [] 0.0%Q 0.0%Q in
  let combined_text :=
    PyStr.join " " [row_specialties row; row_equipment row;
                    row_procedures row; row_staff_notes row] in
  let profile :=
    _extract_structured_fields profile (row_specialties row)
      (row_equipment row) (row_procedures row) fid in
  let profile := _extract_from_notes profile (row_staff_notes row) fid in
  profile ← _detect_gaps profile combined_text fid;
  Ok (_compute_scores profile).

Module DesertEntry.
Record t : Type := mk {
  region : string;
  desert_risk_score : Q;
  avg_capability_score : Q;
  facility_count : nat;
  total_gaps : nat;
  facilities : list string;
  critical_gaps : gset string   (* [list(set(...))]: the order is not fixed *)
}.
End DesertEntry.

(** [region_data[region].append(profile)], creating the entry at the end of
    the dictionary when the region is new. *)
Fixpoint region_append (r : string) (p : FacilityProfile)
    (d : list (string * list FacilityProfile))
  : list (string * list FacilityProfile) :=
  match d with
  | [] => [(r, [p])]
  | (r', ps) :: rest =>
      if String.eqb r' r then (r', ps ++ [p]) :: rest
      else (r', ps) :: region_append r p rest
  end.

Definition group_by_region (profiles : list FacilityProfile)
  : list (string * list FacilityProfile) :=
  List.fold_left (fun d p => region_append (region p) p d) profiles [].

(** [sum(xs)] when the items are ints: the sum is exact. *)
Definition Qsum (xs : list Q) : Q := List.fold_left Qplus xs 0%Q.

(** [sum(f.desert_risk_score for f in fs) / len(fs)]: the scores are ints,
    and the quotient of their sum by their number is a float. *)
Definition average_risk (fs : list FacilityProfile) : Q :=
  PyFloat.truediv (Qsum (List.map desert_risk_score fs))
    (Z.of_nat (length fs)).

(** [sum(f.capability_score for f in fs) / len(fs)]: the scores are
    floats. *)
Definition average_capability (fs : list FacilityProfile) : Q :=
  PyFloat.truediv (PyFloat.sum (List.map capability_score fs))
    (Z.of_nat (length fs)).

(** The entries appended to [deserts], in the order of the regions. *)
Definition desert_entries (threshold : Q)
    (region_data : list (string * list FacilityProfile))
  : list DesertEntry.t :=
  List.flat_map
    (fun rf : string * list FacilityProfile =>
       let '(r, fs) := rf in
       let avg_desert_score := average_risk fs in
       let avg_capability := average_capability fs in
       let total_gaps :=
         list_sum (List.map (fun f => length (gaps f)) fs) in
       if Qle_bool threshold avg_desert_score then
         [DesertEntry.mk r avg_desert_score avg_capability (length fs)
            total_gaps (List.map facility_name fs)
            (list_to_set (List.flat_map gaps fs))]
       else [])
    region_data.

(** [sorted(deserts, key=desert_risk_score, reverse=True)]: a stable sort,
    entries with equal scores keep their order. *)
Fixpoint insert_desc (d : DesertEntry.t) (l : list DesertEntry.t)
  : list DesertEntry.t :=
  match l with
  | [] => [d]
  | x :: r =>
      if Qle_bool (DesertEntry.desert_risk_score x)
           (DesertEntry.desert_risk_score d)
      then d :: x :: r
      else x :: insert_desc d r
  end.

Definition sorted_desc (l : list DesertEntry.t) : list DesertEntry.t :=
  List.fold_right insert_desc [] l.

(** [identify_medical_deserts] *)
Definition identify_medical_deserts (profiles : list FacilityProfile)
    (threshold : Q) : list DesertEntry.t :=
  sorted_desc (desert_entries threshold (group_by_region profiles)).

Definition default_threshold : Q := 60.0%Q.

End Parser.

(** ** The standalone demo (medical_desert_agent/demo.py)

    [SimpleDocumentParser] is the simplified flavour of the parser: the same
    capability score, a desert-risk score with 10 points per gap and no term
    for critical equipment. *)
Module SimpleParser.

Record FacilityProfile : Type := mkProfile {
  facility_id : string;
  facility_name : string;
  region : string;
  district : string;
  coordinates : Q * Q;
  facility_type : string;
  specialties : list string;
  equipment : list string;
  procedures : list string;
  gaps : list string;
  urgent_needs : list string;
  capabilities : list Parser.MedicalCapability.t;
  capability_score : Q;
  desert_risk_score : Q
}.

Definition set_gaps (g : list string) (p : FacilityProfile)
  : FacilityProfile :=
  mkProfile (facility_id p) (facility_name p) (region p) (district p)
    (coordinates p) (facility_type p) (specialties p) (equipment p)
    (procedures p) g (urgent_needs p) (capabilities p)
    (capability_score p) (desert_risk_score p).

Definition set_scores (cap risk : Q) (p : FacilityProfile)
  : FacilityProfile :=
  mkProfile (facility_id p) (facility_name p) (region p) (district p)
    (coordinates p) (facility_type p) (specialties p) (equipment p)
    (procedures p) (gaps p) (urgent_needs p) (capabilities p) cap risk.

(** [_extract_gaps] *)
Definition _extract_gaps (p : FacilityProfile) (notes : string)
  : FacilityProfile :=
  let notes_lower := PyStr.lower notes in
  let has (w : string) := PyStr.contains w notes_lower in
  let shortages :=
    if has "no " || has "need more" then
      (if has "no surgeon" || has "no neurosurgeon"
       then ["Missing surgeon"] else [])
      ++ (if has "need more" then ["Staff shortage"] else [])
      ++ (if has "broke down" || has "broken"
          then ["Broken equipment"] else [])
    else [] in
  let limited :=
    if has "limited" || has "only" then ["Limited resources"] else [] in
  set_gaps (gaps p ++ shortages ++ limited) p.

Definition type_multipliers : gmap string Q :=
  <["Teaching Hospital" := PyFloat.nearest 1.0]>
    (<["Regional Hospital" := PyFloat.nearest 0.7]>
       (<["District Hospital" := PyFloat.nearest 0.4]>
          (<["Mission Hospital" := PyFloat.nearest 0.5]> ∅))).

(** [_compute_scores] *)
Definition _compute_scores (p : FacilityProfile) : FacilityProfile :=
  let base_score :=
    Z.of_nat (length (specialties p)) * 5
    + Z.of_nat (length (equipment p)) * 3
    + Z.of_nat (length (procedures p)) * 2 in
  let type_multiplier :=
    default (PyFloat.nearest 0.3) (type_multipliers !! facility_type p) in
  let score :=
    Parser.py_min 100
      (PyFloat.mul (PyFloat.of_int base_score) type_multiplier) in
  let risk := 0 in
  let risk :=
    if Parser.Qltb score 30 then risk + 30
    else if Parser.Qltb score 50 then risk + 15
    else risk in
  let risk := risk + Z.min 30 (Z.of_nat (length (gaps p)) * 10) in
  set_scores score (inject_Z (Z.min 100 risk)) p.

End SimpleParser.

(** ** extraction_agent.py *)
Module Extraction.
Import Regex.

(** The dataclass annotates [name], [details] and [quantity] as [str],
    [Optional[str]] and [Optional[int]], but the procedures suggested by the
    provider store whatever the decoded JSON holds in these fields: they are
    dynamically typed values here. *)
Record ExtractedCapability : Type := mkCap {
  capability_type : string;
  name : pyval;
  details : pyval;
  quantity : pyval;
  status : option string;
  confidence : Q
}.

(** The reply of [client.messages.create]: a list of content blocks, of which
    only text blocks have a [text] attribute. *)
Inductive ContentBlock : Type :=
| TextBlock (text : string)
| OtherBlock.

Record Message : Type := mkMessage { content : list ContentBlock }.

(** The state of an [ExtractionAgent]. The provider is a function of the text
    interpolated into the fixed prompt (the model, token limit and
    temperature of the request are constants); it returns a message or
    raises. The keyword sets are listed in the order in which the run
    iterates them, which Python leaves unspecified for a [set]. *)
Record Agent : Type := mkAgent {
  client : string -> result Message;
  procedure_keywords : list string;
  equipment_keywords : list string;
  specialty_keywords : list string
}.

(** [ExtractionAgent.__init__], with the sets in source order. *)
Definition init (client : string -> result Message) : Agent :=
  {| client := client;
     procedure_keywords :=
       ["cardiac surgery"; "neurosurgery"; "transplantation"; "cesarean";
        "appendectomy"; "hernia repair"; "fracture management";
        "laparoscopic"; "cataract surgery"; "joint replacement"; "bypass";
        "valve replacement"; "cleft repair"; "orthopedic"; "trauma surgery"];
     equipment_keywords :=
       ["mri"; "ct scanner"; "x-ray"; "ultrasound"; "ventilator";
        "operating theater"; "icu"; "dialysis"; "catheterization lab";
        "blood bank"; "mammography"; "endoscopy"; "autoclave"];
     specialty_keywords :=
       ["cardiology"; "neurology"; "orthopedics"; "obstetrics";
        "gynecology"; "pediatrics"; "oncology"; "nephrology";
        "emergency medicine"; "ophthalmology"; "surgery";
        "internal medicine"] |}.

(** What a run of the agent does besides returning: calls to the provider
    and lines printed. *)
Inductive event : Type :=
| ProviderCall (text : string)
| Print (line : string).

(** The record passed to [extract_from_facility], with three texts of the
    type [str] that [_extract_procedures], [_extract_equipment] and
    [_extract_specialties] declare for their argument; a missing text key
    reads as the empty string. (The dictionary is not typed: a text that is
    not a [str] and not empty ends the call with the [AttributeError] of
    its method [lower].) *)
Record FacilityData : Type := mkFacilityData {
  fd_facility_id : string;
  fd_facility_name : string;
  procedures_free_text : string;
  equipment_free_text : string;
  specialties_free_text : string
}.

(** The dictionary returned by [extract_from_facility]. *)
Record Extracted : Type := mkExtracted {
  facility_id : string;
  facility_name : string;
  procedures : list ExtractedCapability;
  equipment : list ExtractedCapability;
  specialties : list ExtractedCapability;
  anomalies : list string;
  capability_score : Q
}.

(** The type name that Python prints in an attribute or type error. *)
Definition type_name (v : pyval) : string :=
  match v with
  | PNone => "NoneType"
  | PBool _ => "bool"
  | PInt _ => "int"
  | PFloat _ => "float"
  | PStr _ => "str"
  | PList _ => "list"
  | PDict _ => "dict"
  end.

(** [v.lower()]: only a [str] has the method. *)
Definition py_lower (v : pyval) : result string :=
  match v with
  | PStr s => Ok (PyStr.lower s)
  | _ => Raise (mkExn "AttributeError"
           ("'" +:+ type_name v +:+ "' object has no attribute 'lower'"))
  end.

(** [for p in v] *)
Fixpoint chars (s : string) : list pyval :=
  match s with
  | EmptyString => []
  | String c r => PStr (String c EmptyString) :: chars r
  end.

Definition py_iter (v : pyval) : result (list pyval) :=
  match v with
  | PList l => Ok l
  | PDict d => Ok (List.map (fun kv => PStr (fst kv)) d)
  | PStr s => Ok (chars s)
  | _ => Raise (mkExn "TypeError"
           ("'" +:+ type_name v +:+ "' object is not iterable"))
  end.

Definition dict_find (key : string) (d : list (string * pyval))
  : option pyval :=
  snd <$> List.find (fun kv => String.eqb (fst kv) key) d.

(** [v[key]] for a string key. *)
Definition py_getitem (v : pyval) (key : string) : result pyval :=
  match v with
  | PDict d =>
      match dict_find key d with
      | Some x => Ok x
      | None => Raise (mkExn "KeyError" ("'" +:+ key +:+ "'"))
      end
  | PStr _ => Raise (mkExn "TypeError"
                "string indices must be integers, not 'str'")
  | PList _ => Raise (mkExn "TypeError"
                 "list indices must be integers or slices, not str")
  | _ => Raise (mkExn "TypeError"
           ("'" +:+ type_name v +:+ "' object is not subscriptable"))
  end.

(** [v.get(key)] *)
Definition py_get (v : pyval) (key : string) : result pyval :=
  match v with
  | PDict d => Ok (default PNone (dict_find key d))
  | _ => Raise (mkExn "AttributeError"
           ("'" +:+ type_name v +:+ "' object has no attribute 'get'"))
  end.

(** [_extract_context] *)
Definition _extract_context (text keyword : string) (window : nat)
  : string :=
  let text_lower := PyStr.lower text in
  let keyword_lower := PyStr.lower keyword in
  match PyStr.find keyword_lower text_lower with
  | None => ""
  | Some pos =>
      let start := (pos - window)%nat in
      let stop :=
        Nat.min (PyStr.len text) (pos + PyStr.len keyword + window) in
      PyStr.strip (PyStr.slice text start stop)
  end.

(** [int(s)] for a string of decimal digits. *)
Definition int_of_digits (s : string) : Z :=
  List.fold_left
    (fun acc c => 10 * acc + Z.of_nat (nat_of_ascii c - 48))
    (list_ascii_of_string s) 0.

Definition group_int (m : Match) : pyval :=
  match group 1 m with
  | Some ds => PInt (int_of_digits ds)
  | None => PNone
  end.

(** [(\d+)\s*(?:major\s+)?(?:surgeries|procedures|operations)] *)
Definition volume_pattern : regex :=
  RSeqs [RGroup 1 (RPlus true CDigit); RStar true CSpace;
         ROpt (RSeq (RLit "major") (RPlus true CSpace));
         RAlt (RLit "surgeries")
           (RAlt (RLit "procedures") (RLit "operations"))].

(** [_extract_volume] *)
Definition _extract_volume (text procedure : string) : pyval :=
  let context := _extract_context text procedure 100 in
  match search false volume_pattern (PyStr.lower context) with
  | Some m => group_int m
  | None => PNone
  end.

(** [(\d+)\s*(?:tesla\s+)?] followed by the escaped equipment name. *)
Definition qty_pattern (equipment : string) : regex :=
  RSeqs [RGroup 1 (RPlus true CDigit); RStar true CSpace;
         ROpt (RSeq (RLit "tesla") (RPlus true CSpace)); RLit equipment].

(** The escaped equipment name followed by
    [\s*\((\d+)\s*(?:units?|machines?)?\)]. *)
Definition alt_pattern (equipment : string) : regex :=
  RSeqs [RLit equipment; RStar true CSpace; RLit "(";
         RGroup 1 (RPlus true CDigit); RStar true CSpace;
         ROpt (RAlt (RSeq (RLit "unit") (ROpt (RLit "s")))
                 (RSeq (RLit "machine") (ROpt (RLit "s"))));
         RLit ")"].

(** [_extract_quantity] *)
Definition _extract_quantity (text equipment : string) : pyval :=
  let context := _extract_context text equipment 30 in
  match search false (qty_pattern equipment) (PyStr.lower context) with
  | Some m => group_int m
  | None =>
      match search false (alt_pattern equipment) (PyStr.lower context) with
      | Some m => group_int m
      | None => PNone
      end
  end.

(** [_extract_status] *)
Definition _extract_status (text equipment : string) : option string :=
  let context := PyStr.lower (_extract_context text equipment 60) in
  if existsb (fun word => PyStr.contains word context)
       ["broken"; "not working"; "non-functional"; "out of order"]
  then Some "broken"
  else if existsb (fun word => PyStr.contains word context)
            ["claimed"; "claims to have"; "not verified"]
  then Some "claimed"
  else Some "operational".

(** The dictionary [seen] of [_deduplicate_capabilities], in insertion
    order. *)
Definition seen_dict : Type := list (string * ExtractedCapability).

Definition seen_get (key : string) (seen : seen_dict)
  : option ExtractedCapability :=
  snd <$> List.find (fun kv => String.eqb (fst kv) key) seen.

(** [seen[key] = cap]: an existing key keeps its place, a new one goes to
    the end. *)
Fixpoint seen_set (key : string) (cap : ExtractedCapability)
    (seen : seen_dict) : seen_dict :=
  match seen with
  | [] => [(key, cap)]
  | (k, c) :: rest =>
      if String.eqb k key then (k, cap) :: rest
      else (k, c) :: seen_set key cap rest
  end.

Fixpoint dedup_loop (capabilities : list ExtractedCapability)
    (seen : seen_dict) : result seen_dict :=
  match capabilities with
  | [] => Ok seen
  | cap :: rest =>
      key ← py_lower (name cap);
      dedup_loop rest
        (match seen_get key seen with
         | None => seen_set key cap seen
         | Some kept =>
             if Parser.Qltb (confidence kept) (confidence cap)
             then seen_set key cap seen
             else seen
         end)
  end.

(** [_deduplicate_capabilities] *)
Definition _deduplicate_capabilities
    (capabilities : list ExtractedCapability)
  : result (list ExtractedCapability) :=
  seen ← dedup_loop capabilities [];
  Ok (List.map snd seen).

(** The rule-based candidates of [_extract_procedures]. *)
Definition rule_procedures (self : Agent) (text : string)
  : list ExtractedCapability :=
  let text_lower := PyStr.lower text in
  List.flat_map
    (fun procedure =>
       if PyStr.contains procedure text_lower then
         let details := _extract_context text procedure 50 in
         let volume := _extract_volume text procedure in
         [mkCap "procedure" (PStr (PyStr.title procedure)) (PStr details)
            volume None 0.9%Q]
       else [])
    (procedure_keywords self).

(** The candidates of [_extract_equipment]. *)
Definition rule_equipment (self : Agent) (text : string)
  : list ExtractedCapability :=
  let text_lower := PyStr.lower text in
  List.flat_map
    (fun equip =>
       if PyStr.contains equip text_lower then
         let quantity := _extract_quantity text equip in
         let status := _extract_status text equip in
         [mkCap "equipment"
            (PStr (if (PyStr.len equip <=? 3)%nat then PyStr.upper equip
                   else PyStr.title equip))
            PNone quantity
            (match status with
             | Some st => if String.eqb st "" then Some "operational"
                          else Some st
             | None => Some "operational"
             end)
            0.85%Q]
       else [])
    (equipment_keywords self).

(** The candidates of [_extract_specialties]. *)
Definition rule_specialties (self : Agent) (text : string)
  : list ExtractedCapability :=
  let text_lower := PyStr.lower text in
  List.flat_map
    (fun specialty =>
       if PyStr.contains specialty text_lower then
         let details := _extract_context text specialty 50 in
         [mkCap "specialty" (PStr (PyStr.title specialty)) (PStr details)
            PNone None 0.9%Q]
       else [])
    (specialty_keywords self).

(** [_extract_equipment] *)
Definition _extract_equipment (self : Agent) (text : string)
  : result (list ExtractedCapability) :=
  if String.eqb text "" then Ok []
  else _deduplicate_capabilities (rule_equipment self text).

(** [_extract_specialties] *)
Definition _extract_specialties (self : Agent) (text : string)
  : result (list ExtractedCapability) :=
  if String.eqb text "" then Ok []
  else _deduplicate_capabilities (rule_specialties self text).

(** [e.status == st] *)
Definition has_status (st : string) (e : ExtractedCapability) : bool :=
  match status e with
  | Some s => String.eqb s st
  | None => false
  end.

(** [_calculate_capability_score]: float additions of whole numbers, which
    are exact. *)
Definition _calculate_capability_score
    (procedures equipment specialties : list ExtractedCapability) : Q :=
  let score := 0.0%Q in
  let operational_equipment :=
    List.filter (has_status "operational") equipment in
  let score :=
    (score + inject_Z (Z.of_nat (length operational_equipment) * 3))%Q in
  let score := (score + inject_Z (Z.of_nat (length procedures) * 5))%Q in
  let score := (score + inject_Z (Z.of_nat (length specialties) * 4))%Q in
  Parser.py_min 100.0 score.

(** [', '.join(names)] needs every name to be a [str]. *)
Definition join_names (names : list pyval) : result string :=
  strs ← traverse
           (fun v => match v with
                     | PStr s => Ok s
                     | _ => Raise (mkExn "TypeError"
                              ("sequence item: expected str instance, "
                               +:+ type_name v +:+ " found"))
                     end)
           names;
  Ok (PyStr.join ", " strs).

(** [any('cardio' in s.name.lower() for s in specialties)]: the scan stops
    at the first specialty that matches. *)
Fixpoint any_cardio (specialties : list ExtractedCapability) : result bool :=
  match specialties with
  | [] => Ok false
  | sp :: rest =>
      n ← py_lower (name sp);
      if PyStr.contains "cardio" n then Ok true else any_cardio rest
  end.

(** [_detect_anomalies] *)
Definition _detect_anomalies
    (procedures equipment specialties : list ExtractedCapability)
  : result (list string) :=
  let anomalies := [] in
  procedure_names ← traverse (fun p => py_lower (name p)) procedures;
  equipment_names ← traverse (fun e => py_lower (name e)) equipment;
  let cardiac := PyStr.mem "cardiac surgery" procedure_names in
  let anomalies :=
    if cardiac then
      let required := ["ct scanner"; "icu"] in
      let missing :=
        List.filter
          (fun r => negb (existsb (PyStr.contains r) equipment_names))
          required in
      match missing with
      | [] => anomalies
      | _ => anomalies ++ ["Claims cardiac surgery but missing: "
                           +:+ PyStr.join ", " missing]
      end
    else anomalies in
  let broken_equipment :=
    List.map name (List.filter (has_status "broken") equipment) in
  anomalies ←
    match broken_equipment with
    | [] => Ok anomalies
    | _ => names ← join_names broken_equipment;
           Ok (anomalies ++ ["Non-functional equipment: " +:+ names])
    end;
  let claimed :=
    List.map name (List.filter (has_status "claimed") equipment) in
  anomalies ←
    match claimed with
    | [] => Ok anomalies
    | _ => names ← join_names claimed;
           Ok (anomalies ++ ["Unverified claims: " +:+ names])
    end;
  if cardiac then
    listed ← any_cardio specialties;
    if (listed : bool) then Ok anomalies
    else Ok (anomalies
             ++ ["Claims cardiac surgery but no cardiology specialty listed"])
  else Ok anomalies.

Section WithJson.

(** [json.loads] of the standard library: the decoded value, or an
    exception for text that is not JSON. *)
Variable json_loads : string -> result pyval.

(** The text of the provider's reply: [message.content[0].text.strip()]. *)
Definition llm_response (self : Agent) (text : string) : result string :=
  message ← client self text;
  block ← match content message with
          | b :: _ => Ok b
          | [] => Raise (mkExn "IndexError" "list index out of range")
          end;
  match block with
  | TextBlock t => Ok (PyStr.strip t)
  | OtherBlock =>
      Raise (mkExn "AttributeError" "object has no attribute 'text'")
  end.

(** One element of the decoded reply as a capability. *)
Definition procedure_of_json (p : pyval) : result ExtractedCapability :=
  n ← py_getitem p "name";
  volume ← py_get p "volume";
  complexity ← py_get p "complexity";
  Ok (mkCap "procedure" n complexity volume None 0.8%Q).

(** The body of the inner [try]. *)
Definition parse_procedures (response_text : string)
  : result (list ExtractedCapability) :=
  procedures_data ← json_loads response_text;
  items ← py_iter procedures_data;
  traverse procedure_of_json items.

(** [_llm_extract_procedures]: the result and the events of the call. *)
Definition _llm_extract_procedures (self : Agent) (text : string)
  : result (list ExtractedCapability) * list event :=
  if String.eqb text "" || (PyStr.len text <? 20)%nat then (Ok [], [])
  else
    let attempt :=
      response_text ← llm_response self text;
      try_except (parse_procedures response_text) (fun _ => Ok []) in
    match attempt with
    | Ok l => (Ok l, [ProviderCall text])
    | Raise e =>
        (Ok [], [ProviderCall text;
                 Print ("LLM extraction error: " +:+ exn_msg e)])
    end.

(** [_extract_procedures] *)
Definition _extract_procedures (self : Agent) (text : string)
  : result (list ExtractedCapability) * list event :=
  if String.eqb text "" then (Ok [], [])
  else
    let procedures := rule_procedures self text in
    let '(llm, events) := _llm_extract_procedures self text in
    (llm_procedures ← llm;
     _deduplicate_capabilities (procedures ++ llm_procedures),
     events).

(** [extract_from_facility] *)
Definition extract_from_facility (self : Agent) (fd : FacilityData)
  : result Extracted * list event :=
  let '(procs, events) :=
    _extract_procedures self (procedures_free_text fd) in
  (procedures ← procs;
   equipment ← _extract_equipment self (equipment_free_text fd);
   specialties ← _extract_specialties self (specialties_free_text fd);
   anomalies ← _detect_anomalies procedures equipment specialties;
   Ok (mkExtracted (fd_facility_id fd) (fd_facility_name fd) procedures
         equipment specialties anomalies
         (_calculate_capability_score procedures equipment specialties)),
   events).

End WithJson.

End Extraction.

(** ** orchestrator.py *)
Module Orchestrator.

(** One record of [facilities_df.to_dict('records')]: the fields read by the
    extraction agent, and the original columns that are merged back onto
    the extracted result. *)
Record RawFacility : Type := mkRaw {
  raw_data : Extraction.FacilityData;
  raw_region : pyval;
  raw_district : pyval;
  raw_facility_type : pyval;
  raw_latitude : pyval;
  raw_longitude : pyval;
  raw_bed_capacity : pyval;
  raw_staff_count : pyval
}.

(** An extracted result after [extracted.update({...})]. *)
Record ExtractedFacility : Type := mkExtractedFacility {
  extracted : Extraction.Extracted;
  ef_region : pyval;
  ef_district : pyval;
  ef_facility_type : pyval;
  ef_latitude : pyval;
  ef_longitude : pyval;
  ef_bed_capacity : pyval;
  ef_staff_count : pyval
}.

(** [AgentState]. The matches and the analysis results are produced by
    [analysis_agent], which is not among the sources: they are kept as
    dynamically typed values. *)
Record AgentState : Type := mkState {
  query : string;
  raw_facilities_data : list RawFacility;
  intent : option string;
  entities : option pydict;
  extracted_facilities : list ExtractedFacility;
  analysis_results : option pyval;
  matching_facilities : list pyval;
  response : option string;
  visualizations : option pyval;
  citation_tracker : Ledger.CitationTracker;
  processing_time_ms : Q;
  errors : list string
}.

Definition set_tracker (t : Ledger.CitationTracker) (s : AgentState)
  : AgentState :=
  mkState (query s) (raw_facilities_data s) (intent s) (entities s)
    (extracted_facilities s) (analysis_results s) (matching_facilities s)
    (response s) (visualizations s) t (processing_time_ms s) (errors s).

Definition set_understanding (i : string) (e : pydict) (s : AgentState)
  : AgentState :=
  mkState (query s) (raw_facilities_data s) (Some i) (Some e)
    (extracted_facilities s) (analysis_results s) (matching_facilities s)
    (response s) (visualizations s) (citation_tracker s)
    (processing_time_ms s) (errors s).

Definition set_extracted (l : list ExtractedFacility) (s : AgentState)
  : AgentState :=
  mkState (query s) (raw_facilities_data s) (intent s) (entities s) l
    (analysis_results s) (matching_facilities s) (response s)
    (visualizations s) (citation_tracker s) (processing_time_ms s)
    (errors s).

Definition set_processing_time (ms : Q) (s : AgentState) : AgentState :=
  mkState (query s) (raw_facilities_data s) (intent s) (entities s)
    (extracted_facilities s) (analysis_results s) (matching_facilities s)
    (response s) (visualizations s) (citation_tracker s) ms (errors s).

(** A node of the graph. *)
Definition node : Type := AgentState -> result AgentState.

(** The part of [langgraph.StateGraph] that the code uses: named nodes, an
    entry point and one outgoing edge per node. *)
Record StateGraph : Type := mkGraph {
  nodes : list (string * node);
  entry_point : option string;
  edges : list (string * string)
}.

Definition END : string := "__end__".

Definition empty_graph : StateGraph := mkGraph [] None [].

Definition add_node (name : string) (f : node) (g : StateGraph)
  : StateGraph :=
  mkGraph (nodes g ++ [(name, f)]) (entry_point g) (edges g).

Definition set_entry_point (name : string) (g : StateGraph) : StateGraph :=
  mkGraph (nodes g) (Some name) (edges g).

Definition add_edge (src dst : string) (g : StateGraph) : StateGraph :=
  mkGraph (nodes g) (entry_point g) (edges g ++ [(src, dst)]).

Definition assoc {A : Type} (k : string) (l : list (string * A))
  : option A :=
  snd <$> List.find (fun kv => String.eqb (fst kv) k) l.

(** The walk of [graph.invoke]: run the current node on the state, then
    follow its edge, until [END]. The number of steps is bounded by the
    recursion limit of the library. *)
Fixpoint invoke_from (limit : nat) (g : StateGraph) (current : string)
    (state : AgentState) : result AgentState :=
  match limit with
  | O => Raise (mkExn "GraphRecursionError" "Recursion limit reached")
  | S limit' =>
      if String.eqb current END then Ok state
      else
        match assoc current (nodes g) with
        | None => Raise (mkExn "ValueError" ("Unknown node " +:+ current))
        | Some f =>
            state' ← f state;
            match assoc current (edges g) with
            | Some next => invoke_from limit' g next state'
            | None => Ok state'
            end
        end
  end.

Definition recursion_limit : nat := 25.

Definition invoke (g : StateGraph) (state : AgentState)
  : result AgentState :=
  match entry_point g with
  | Some start => invoke_from recursion_limit g start state
  | None => Raise (mkExn "ValueError" "Graph has no entry point")
  end.

(** The four node methods of the orchestrator. [_understand_query_node] and
    [_extract_capabilities_node] are defined below; the analysis and the
    response nodes work on the results of [analysis_agent], which is not
    among the sources, and an orchestrator is given by its four nodes. *)
Record Nodes : Type := mkNodes {
  understand_query : node;
  extract_capabilities : node;
  analyze_data : node;
  generate_response : node
}.

(** [_build_graph] *)
Definition _build_graph (self : Nodes) : StateGraph :=
  let workflow := empty_graph in
  let workflow := add_node "understand_query" (understand_query self)
                    workflow in
  let workflow := add_node "extract_capabilities"
                    (extract_capabilities self) workflow in
  let workflow := add_node "analyze_data" (analyze_data self) workflow in
  let workflow := add_node "generate_response" (generate_response self)
                    workflow in
  let workflow := set_entry_point "understand_query" workflow in
  let workflow := add_edge "understand_query" "extract_capabilities"
                    workflow in
  let workflow := add_edge "extract_capabilities" "analyze_data" workflow in
  let workflow := add_edge "analyze_data" "generate_response" workflow in
  let workflow := add_edge "generate_response" END workflow in
  workflow.

Definition opt_str (o : option string) : pyval :=
  match o with Some x => PStr x | None => PNone end.

Definition opt_val (o : option pyval) : pyval :=
  match o with Some x => x | None => PNone end.

Section Run.

(** [json.dumps] and the format [:.2f] of the standard library, which the
    citation report goes through. *)
Variable json_dumps : pyval -> result string.
Variable format_2f : Q -> string.

(** The reading of [datetime.now().isoformat()] when the step with a given
    number is started. *)
Variable timestamp : Z -> string.

Definition start_step (name description : string) (input : pydict)
    (t : Ledger.CitationTracker) : Ledger.CitationTracker * Z :=
  Ledger.start_step name description input
    (timestamp (Ledger.current_step_number t + 1)) t.

(** The intent rules of [_understand_query_node]. *)
Definition classify_intent (q : string) : string :=
  if existsb (fun word => PyStr.contains word q)
       ["which"; "what"; "find"; "show"; "list"]
  then
    if PyStr.contains "gap" q || PyStr.contains "missing" q
       || PyStr.contains "lack" q
    then "identify_gaps"
    else if PyStr.contains "desert" q then "find_medical_deserts"
    else "find_facilities"
  else if PyStr.contains "analyze" q || PyStr.contains "coverage" q
  then "analyze_coverage"
  else "general_query".

Definition regions : list string :=
  ["greater accra"; "ashanti"; "northern"; "western"; "volta"; "central";
   "eastern"; "upper east"; "upper west"].

Definition procedures : list string :=
  ["cardiac surgery"; "neurosurgery"; "cesarean"; "dialysis"; "transplant";
   "icu"; "ct scan"; "mri"].

(** The first word of the list that occurs in the query. *)
Definition first_in (words : list string) (q : string) : option string :=
  List.find (fun w => PyStr.contains w q) words.

Definition extract_entities (q : string) : pydict :=
  (match first_in regions q with
   | Some region => [("region", PStr (PyStr.title region))]
   | None => []
   end)
  ++ (match first_in procedures q with
      | Some proc => [("capability", PStr proc)]
      | None => []
      end).

(** [_understand_query_node] *)
Definition _understand_query_node : node := fun state =>
  let tracker := citation_tracker state in
  let '(tracker, step_id) :=
    start_step "query_understanding"
      "Parse natural language query to identify intent and extract entities"
      [("query", PStr (query state))] tracker in
  let q := PyStr.lower (query state) in
  let intent := classify_intent q in
  let entities := extract_entities q in
  let tracker :=
    Ledger.end_step step_id
      [("intent", PStr intent); ("entities", PDict entities)] None tracker in
  Ok (set_tracker tracker (set_understanding intent entities state)).

(** The citations that the extraction node adds for one facility: one per
    extracted procedure. *)
Definition cite_procedures (step_id : Z) (facility : RawFacility) (i : nat)
    (procs : list Extraction.ExtractedCapability)
    (tracker : Ledger.CitationTracker) : Ledger.CitationTracker :=
  List.fold_left
    (fun t proc =>
       Ledger.add_facility_citation step_id
         (Extraction.fd_facility_id (raw_data facility))
         (Extraction.fd_facility_name (raw_data facility))
         "procedures_free_text"
         (PyStr.slice (Extraction.procedures_free_text (raw_data facility))
            0 100)
         (Z.of_nat i + 1) (Extraction.confidence proc) t)
    procs tracker.

Section WithAgent.

Variable json_loads : string -> result pyval.
Variable extraction_agent : Extraction.Agent.

(** The loop of [_extract_capabilities_node] over the enumerated records. *)
Fixpoint extract_all (step_id : Z) (i : nat) (facilities : list RawFacility)
    (acc : list ExtractedFacility) (tracker : Ledger.CitationTracker)
  : result (list ExtractedFacility * Ledger.CitationTracker) :=
  match facilities with
  | [] => Ok (acc, tracker)
  | facility :: rest =>
      ex ← fst (Extraction.extract_from_facility json_loads extraction_agent
                  (raw_data facility));
      let merged :=
        mkExtractedFacility ex (raw_region facility) (raw_district facility)
          (raw_facility_type facility) (raw_latitude facility)
          (raw_longitude facility) (raw_bed_capacity facility)
          (raw_staff_count facility) in
      extract_all step_id (S i) rest (acc ++ [merged])
        (cite_procedures step_id facility i (Extraction.procedures ex)
           tracker)
  end.

(** [_extract_capabilities_node] *)
Definition _extract_capabilities_node : node := fun state =>
  let tracker := citation_tracker state in
  let '(tracker, step_id) :=
    start_step "capability_extraction"
      "Extract structured medical capabilities from unstructured facility text"
      [("facility_count",
        PInt (Z.of_nat (length (raw_facilities_data state))))] tracker in
  r ← extract_all step_id 0 (raw_facilities_data state) [] tracker;
  let '(extracted_facilities, tracker) := r in
  let count (f : Extraction.Extracted -> list Extraction.ExtractedCapability)
    := list_sum (List.map (fun e => length (f (extracted e)))
                   extracted_facilities) in
  let tracker :=
    Ledger.end_step step_id
      [("extracted_count", PInt (Z.of_nat (length extracted_facilities)));
       ("total_procedures", PInt (Z.of_nat (count Extraction.procedures)));
       ("total_equipment", PInt (Z.of_nat (count Extraction.equipment)))]
      None tracker in
  Ok (set_tracker tracker (set_extracted extracted_facilities state)).

End WithAgent.

(** [_format_output] *)
Definition _format_output (state : AgentState)
  : result (gmap string pyval) :=
  report ← Ledger.generate_citation_report json_dumps format_2f
             (citation_tracker state);
  Ok (<["query" := PStr (query state)]>
      (<["response" := opt_str (response state)]>
      (<["intent" := opt_str (intent state)]>
      (<["entities" := match entities state with
                       | Some d => PDict d
                       | None => PNone
                       end]>
      (<["matching_facilities" := PList (matching_facilities state)]>
      (<["analysis_results" := opt_val (analysis_results state)]>
      (<["citations" := Ledger.to_dict (citation_tracker state)]>
      (<["citation_report" := PStr report]>
      (<["processing_time_ms" := PFloat (processing_time_ms state)]>
      (<["errors" := PList (List.map PStr (errors state))]> ∅)))))))))).

Definition initial_state (q : string) (records : list RawFacility)
  : AgentState :=
  mkState q records None None [] None [] None None Ledger.init 0.0%Q [].

(** The dictionary returned by the handler of [process_query]. *)
Definition error_result (e : PyException) (q : string) (elapsed_ms : Q)
  : gmap string pyval :=
  <["error" := PStr (exn_msg e)]>
    (<["query" := PStr q]>
       (<["processing_time_ms" := PFloat elapsed_ms]> ∅)).

(** [process_query]. [start_time] is the reading of [time.time()] on entry,
    [end_time] the second reading, taken after the graph has run or in the
    handler. *)
Definition process_query (graph : StateGraph) (start_time end_time : Q)
    (q : string) (records : list RawFacility)
  : result (gmap string pyval) :=
  let elapsed_ms := ((end_time - start_time) * 1000)%Q in
  try_except
    (final_state ← invoke graph (initial_state q records);
     _format_output (set_processing_time elapsed_ms final_state))
    (fun e => Ok (error_result e q elapsed_ms)).

End Run.

(** An exception raised inside one of the four states, the earlier states
    having completed. *)
Inductive raises_in_state (self : Nodes) (s0 : AgentState)
    (e : PyException) : Prop :=
| raises_in_understand :
    understand_query self s0 = Raise e -> raises_in_state self s0 e
| raises_in_extract s1 :
    understand_query self s0 = Ok s1 ->
    extract_capabilities self s1 = Raise e -> raises_in_state self s0 e
| raises_in_analyze s1 s2 :
    understand_query self s0 = Ok s1 ->
    extract_capabilities self s1 = Ok s2 ->
    analyze_data self s2 = Raise e -> raises_in_state self s0 e
| raises_in_generate s1 s2 s3 :
    understand_query self s0 = Ok s1 ->
    extract_capabilities self s1 = Ok s2 ->
    analyze_data self s2 = Ok s3 ->
    generate_response self s3 = Raise e -> raises_in_state self s0 e.

(** The keys of the dictionary that [_format_output] returns. *)
Definition output_fields : list string :=
  ["query"; "response"; "intent"; "entities"; "matching_facilities";
   "analysis_results"; "citations"; "citation_report"; "processing_time_ms";
   "errors"].

End Orchestrator.

(** ** The scoring arithmetic on primitive floats

    [PyFloat] defines the rounding of a double by arithmetic on rationals.
    This module runs the operations of the scoring code on the primitive
    binary64 floats of the proof assistant, so that the two can be compared
    by computation. *)
Module Binary64.

(** The rational that a finite double denotes. *)
Definition to_Q (f : float) : option Q :=
  match Prim2SF f with
  | S754_zero _ => Some 0%Q
  | S754_finite s m e =>
      Some (Qred (inject_Z (if s then Z.neg m else Z.pos m) * 2 ^ e))
  | _ => None
  end.

(** The double [f] denotes the rational [q]. *)
Definition denotes (f : float) (q : Q) : bool :=
  match to_Q f with
  | Some x => Qeq_bool x q
  | None => false
  end.

(** [float(n)] for a count. *)
Definition of_count (n : Z) : float := PrimFloat.of_uint63 (Uint63.of_Z n).

(** The five weights, each as the decimal of the source and as the double
    that the literal denotes. *)
#[warnings="-inexact-float"]
Definition weights : list (Q * float) :=
  [(1.0%Q, 1.0%float); (0.7%Q, 0.7%float); (0.5%Q, 0.5%float);
   (0.4%Q, 0.4%float); (0.3%Q, 0.3%float)].

(** [min(100, total * weight)] in doubles. *)
Definition capability_score (total : Z) (weight : float) : float :=
  let x := PrimFloat.mul (of_count total) weight in
  if PrimFloat.ltb x 100%float then x else 100%float.

(** For one total and one weight: the literal of the weight, the product
    and the capped score are the same double in both computations. *)
Definition agrees (total : Z) (w : Q * float) : bool :=
  denotes (snd w) (PyFloat.nearest (fst w))
  && denotes (PrimFloat.mul (of_count total) (snd w))
       (PyFloat.mul (PyFloat.of_int total) (PyFloat.nearest (fst w)))
  && denotes (capability_score total (snd w))
       (Parser.py_min 100
          (PyFloat.mul (PyFloat.of_int total) (PyFloat.nearest (fst w)))).

Definition agrees_upto (bound : nat) : bool :=
  forallb (fun n => forallb (agrees (Z.of_nat n)) weights) (seq 0 bound).

(** [sum / len] in doubles, for scores that are whole numbers. *)
Definition average (total count : Z) : float :=
  PrimFloat.div (of_count total) (of_count count).

(** The quotients of every total up to [totals] by every count from 1 to
    [counts] are the same double in both computations. *)
Definition averages_agree_upto (totals counts : nat) : bool :=
  forallb
    (fun t =>
       forallb
         (fun c =>
            denotes (average (Z.of_nat t) (Z.of_nat c))
              (PyFloat.truediv (inject_Z (Z.of_nat t)) (Z.of_nat c)))
         (seq 1 counts))
    (seq 0 totals).

(** The sum of two doubles is the same double in both computations. *)
Definition sum_agrees (x y : float) : bool :=
  match to_Q x, to_Q y with
  | Some a, Some b => denotes (PrimFloat.add x y) (PyFloat.add a b)
  | _, _ => false
  end.

End Binary64.

(** ** Concrete inputs used by the examples and counterexamples *)
Module Scenario.
Import Parser.

(** A profile of which only the region, the name and the desert-risk score
    matter. *)
Definition scored_profile (fid name r : string) (risk : Q)
  : FacilityProfile :=
  mkProfile fid name r "" (0%Q, 0%Q) "District Hospital" [] [] [] [] [] []
    [] 0%Q risk.

(** A region with three facilities whose desert-risk scores are 80, 55 and
    40, and the same region with the second score raised to 60. *)
Definition region_below : list FacilityProfile :=
  [scored_profile "F1" "A" "Northern" 80; scored_profile "F2" "B" "Northern" 55;
   scored_profile "F3" "C" "Northern" 40].

Definition region_at : list FacilityProfile :=
  [scored_profile "F1" "A" "Northern" 80; scored_profile "F2" "B" "Northern" 60;
   scored_profile "F3" "C" "Northern" 40].

(** A district hospital whose equipment column lists an MRI and whose notes
    report it broken. *)
Definition mri_row : FacilityRow :=
  mkRow "FAC001" "Tamale Hospital" "Northern" "Tamale" 9.4%Q 0.8%Q
    "District Hospital" "Cardiology" "MRI" "Cesarean"
    "Our MRI broke down last month.".

(** The structured-only district hospital of the specification, and a
    profile with its lists and two gaps. *)
Definition district_row : FacilityRow :=
  mkRow "FAC002" "Bole Hospital" "Savannah" "Bole" 9.0%Q 2.5%Q
    "District Hospital" "Cardiology, General Surgery" "CT Scanner, ICU" ""
    "".

(** The same facility with the staff notes of the specification. *)
Definition noted_row : FacilityRow :=
  mkRow "FAC002" "Bole Hospital" "Savannah" "Bole" 9.0%Q 2.5%Q
    "District Hospital" "Cardiology, General Surgery" "CT Scanner, ICU" ""
    "We are short on neurosurgeons and our MRI broke down last month".

Definition district_profile : FacilityProfile :=
  mkProfile "FAC002" "Bole Hospital" "Savannah" "Bole" (9.0%Q, 2.5%Q)
    "District Hospital" ["Cardiology"; "General Surgery"]
    ["CT Scanner"; "ICU"] []
    ["Staff shortage: neurosurgeons"; "MRI broken/awaiting repair"] [] []
    [] 0.0%Q 0.0%Q.

(** Notes with the phrase [no ... on staff] and without [permanent]. *)
Definition unstaffed_row : FacilityRow :=
  mkRow "FAC003" "Wa Clinic" "Upper West" "Wa" 10.0%Q 2.5%Q
    "Mission Hospital" "Pediatrics" "Ultrasound" "Delivery"
    "There is no surgeon on staff since March".

(** Providers and a JSON decoder for the examples: a provider that is down,
    one that answers in prose, and a decoder that only knows the empty
    array. *)
Definition provider_down (text : string) : result Extraction.Message :=
  Raise (mkExn "APIConnectionError" "Connection error.").

Definition provider_prose (text : string) : result Extraction.Message :=
  Ok (Extraction.mkMessage
        [Extraction.TextBlock "I found no procedures in this text."]).

Definition json_loads_empty_array (s : string) : result pyval :=
  if String.eqb s "[]" then Ok (PList [])
  else Raise (mkExn "JSONDecodeError" "Expecting value: line 1 column 1").

Definition long_text : string :=
  "Advanced cardiac surgery including bypass and valve replacement".

(** Two candidates for the same name with different confidence. *)
Definition two_candidates : list Extraction.ExtractedCapability :=
  [Extraction.mkCap "procedure" (PStr "Bypass") PNone PNone None 0.8%Q;
   Extraction.mkCap "procedure" (PStr "bypass") (PStr "advanced") PNone None
     0.9%Q].

(** A run of the orchestrator in which the analysis state fails. The first
    two nodes are those of the code, over a provider that is down; the
    analysis node stands for a failing [analysis_agent]. *)
Definition clock (n : Z) : string := "2026-01-15T10:00:00".

Definition korle_bu_data : Extraction.FacilityData :=
  Extraction.mkFacilityData "FAC001" "Korle Bu Teaching Hospital" long_text
    "MRI, CT scanner and ICU" "Cardiology".

Definition korle_bu : Orchestrator.RawFacility :=
  Orchestrator.mkRaw korle_bu_data (PStr "Greater Accra") (PStr "Accra") (PStr "Teaching Hospital")
    (PFloat 5.5%Q) (PFloat 0.2%Q) (PInt 2000) (PInt 4000).

Definition failing_analysis : Orchestrator.Nodes :=
  Orchestrator.mkNodes
    (Orchestrator._understand_query_node clock)
    (Orchestrator._extract_capabilities_node clock json_loads_empty_array
       (Extraction.init provider_down))
    (fun _ => Raise (mkExn "KeyError" "'medical_deserts'"))
    (fun state => Ok state).

Definition accra_query : string :=
  "Which hospitals can perform cardiac surgery in Greater Accra?".

(** Stand-ins for the two library functions of the report. *)
Definition json_dumps_braces (v : pyval) : result string := Ok "{}".

Definition format_whole (q : Q) : string :=
  pretty (Qnum q / Z.pos (Qden q)) +:+ ".00".

End Scenario.

(** ** Notions in which the properties are stated *)

Section LedgerNotions.
Import Ledger.

(** The numbers carried by the steps of a ledger, in list order. *)
Definition step_numbers (t : CitationTracker) : list Z :=
  List.map step_number (steps t).

(** The numbers from [a+1] to [a+k]. *)
Fixpoint count_from (a : Z) (k : nat) : list Z :=
  match k with
  | O => []
  | S k' => (a + 1) :: count_from (a + 1) k'
  end.

(** A run that starts two steps and completes the first. *)
Definition ledger_two_steps : list call :=
  [CallStart "query_parsing" "Parse user query" [("query", PStr "q")] "t0";
   CallEnd 1 [("intent", PStr "find_facilities")] (Some 2.5%Q);
   CallStart "data_extraction" "Extract facilities" [] "t1"].

(** A ledger with one step that has been completed once. *)
Definition ledger_completed_once : CitationTracker :=
  end_step 1 [("facilities_found", PInt 1)] (Some 12%Q)
    (fst (start_step "data_extraction" "Extract facilities" [] "t0" init)).

(** The same ledger after a second [end_step] on step 1. *)
Definition ledger_completed_twice : CitationTracker :=
  end_step 1 [("facilities_found", PInt 7)] None ledger_completed_once.

End LedgerNotions.

Section ScoringNotions.
Import Parser.

(** The weight table as the specification words it, in decimals. *)
Definition type_weight (facility_type : string) : Q :=
  if String.eqb facility_type "Teaching Hospital" then 1.0%Q
  else if String.eqb facility_type "Regional Hospital" then 0.7%Q
  else if String.eqb facility_type "Mission Hospital" then 0.5%Q
  else if String.eqb facility_type "District Hospital" then 0.4%Q
  else 0.3%Q.

(** The three terms of the desert-risk score as the specification words
    them. *)
Definition risk_base (capability_score : Q) : Z :=
  if Qltb capability_score 30 then 30
  else if Qltb capability_score 50 then 15
  else 0.

Definition gap_penalty (gaps : list string) : Z :=
  Z.min 30 (5 * Z.of_nat (length gaps)).

Definition present_in (equipment : list string) (item : string) : bool :=
  existsb (fun e => PyStr.contains (PyStr.lower item) (PyStr.lower e))
    equipment.

Definition missing_critical_penalty (equipment : list string) : Z :=
  10 * Z.of_nat
         (length (List.filter (fun item => negb (present_in equipment item))
                    ["CT scanner"; "MRI"; "ICU"; "operating theater"])).

(** The facilities of a region, in input order. *)
Definition facilities_of (r : string) (profiles : list FacilityProfile)
  : list FacilityProfile :=
  List.filter (fun p => String.eqb (region p) r) profiles.

(** [region_data.get(r)] *)
Definition region_lookup (r : string)
    (d : list (string * list FacilityProfile))
  : option (list FacilityProfile) :=
  snd <$> List.find (fun x => String.eqb (fst x) r) d.

(** The entry that the loop builds for a region above the threshold. *)
Definition entry_of (r : string) (fs : list FacilityProfile)
  : DesertEntry.t :=
  DesertEntry.mk r (average_risk fs) (average_capability fs) (length fs)
    (list_sum (List.map (fun f => length (gaps f)) fs))
    (List.map facility_name fs) (list_to_set (List.flat_map gaps fs)).

(** The average of some numbers as the specification words it: their exact
    sum divided by their count. *)
Definition mean (xs : list Q) : Q :=
  (List.fold_right Qplus 0 xs / inject_Z (Z.of_nat (length xs)))%Q.

(** The desert-risk scores of the facilities of a region. *)
Definition risks_of (r : string) (profiles : list FacilityProfile)
  : list Q :=
  List.map desert_risk_score (facilities_of r profiles).

(** A whole number: the value of a Python [int]. *)
Definition whole (q : Q) : Prop := exists n : Z, q = inject_Z n.

(** Profiles whose desert-risk score is an [int], as [_compute_scores]
    leaves it. *)
Definition whole_risks (profiles : list FacilityProfile) : Prop :=
  Forall (fun p => whole (desert_risk_score p)) profiles.

(** The double that Python prints as 58.333333333333336, which is the
    quotient of 175 by 3 in floats. *)
Definition threshold_at_quotient : Q := PyFloat.nearest 58.333333333333336.

(** A regional hospital with one specialty and one procedure: a weighted
    count of 7. *)
Definition regional_profile : FacilityProfile :=
  mkProfile "FAC004" "Ho Hospital" "Volta" "Ho" (6.6%Q, 0.5%Q)
    "Regional Hospital" ["Pediatrics"] [] ["Delivery"] [] [] [] [] 0.0%Q
    0.0%Q.

(** The output is in non-increasing order of [desert_risk_score]. *)
Inductive descending : list DesertEntry.t -> Prop :=
| desc_nil : descending []
| desc_one d : descending [d]
| desc_cons d1 d2 l :
    (DesertEntry.desert_risk_score d2 <= DesertEntry.desert_risk_score d1)%Q ->
    descending (d2 :: l) -> descending (d1 :: d2 :: l).

End ScoringNotions.

Section DedupNotions.
Import Extraction.

(** The dictionary key of a capability: its lower-cased name, when the name
    is a [str]. *)
Definition name_key (c : ExtractedCapability) : option string :=
  match name c with
  | PStr s => Some (PyStr.lower s)
  | _ => None
  end.

(** The invariant of the loop: the dictionary has one entry per key seen so
    far, every entry is a processed candidate stored under its own key, and
    every processed candidate is dominated by the entry of its key. *)
Definition seen_ok (processed : list ExtractedCapability)
    (seen : seen_dict) : Prop :=
  List.NoDup (List.map fst seen)
  /\ (forall k c, In (k, c) seen -> In c processed /\ name_key c = Some k)
  /\ (forall c, In c processed ->
        exists k c', name_key c = Some k /\ In (k, c') seen
                     /\ (confidence c <= confidence c')%Q).

(** What a successful [_deduplicate_capabilities] returns. *)
Definition deduplicated (candidates out : list ExtractedCapability) : Prop :=
  List.NoDup (List.map name_key out)
  /\ (forall c, In c out -> In c candidates /\ exists s, name c = PStr s)
  /\ (forall c, In c candidates ->
        exists c', In c' out /\ name_key c' = name_key c
                   /\ (confidence c <= confidence c')%Q).

(** The candidates from which [extract_from_facility] builds each of its
    three lists: none for an empty text, else the keyword matches, followed
    for procedures by the provider's suggestions. *)
Definition procedure_candidates (json_loads : string -> result pyval)
    (self : Agent) (text : string) : list ExtractedCapability :=
  if String.eqb text "" then []
  else rule_procedures self text
       ++ match fst (_llm_extract_procedures json_loads self text) with
          | Ok suggested => suggested
          | Raise _ => []
          end.

Definition equipment_candidates (self : Agent) (text : string)
  : list ExtractedCapability :=
  if String.eqb text "" then [] else rule_equipment self text.

Definition specialty_candidates (self : Agent) (text : string)
  : list ExtractedCapability :=
  if String.eqb text "" then [] else rule_specialties self text.

End DedupNotions.

Section HistoryNotions.
Import Ledger.

(** The steps carry the numbers 1, 2, ..., n in list order and the counter
    is n. *)
Definition well_numbered (t : CitationTracker) : Prop :=
  step_numbers t = count_from 0 (length (steps t))
  /\ current_step_number t = Z.of_nat (length (steps t)).

(** [s'] is the step [s] at a later time: what [start_step] recorded is
    unchanged and the citations of [s] are the first citations of [s']. *)
Definition step_kept (s s' : AgentStep) : Prop :=
  step_number s' = step_number s
  /\ step_name s' = step_name s
  /\ step_description s' = step_description s
  /\ input_data s' = input_data s
  /\ timestamp s' = timestamp s
  /\ exists more, citations s' = citations s ++ more.

(** The steps of [t] are, in order, the first steps of [t']. *)
Definition history_kept (t t' : CitationTracker) : Prop :=
  exists old new, steps t' = old ++ new /\ Forall2 step_kept (steps t) old.

(** A citation whose report lines can be rendered: a citation that names a
    field also carries a value. *)
Definition renderable (c : Citation) : bool :=
  negb (truthy (field_name c))
  || match field_value c with Some _ => true | None => false end.

Definition all_renderable (t : CitationTracker) : bool :=
  forallb (fun s => forallb renderable (citations s)) (steps t).

Definition cites_renderable (c : call) : Prop :=
  match c with
  | CallCite _ c => renderable c = true
  | _ => True
  end.

(** The exception of [None[:100]]. *)
Definition not_subscriptable : PyException :=
  mkExn "TypeError" "'NoneType' object is not subscriptable".

(** A ledger with one step and a citation that names a field without a
    value. *)
Definition ledger_unrenderable : CitationTracker :=
  add_citation_to_step 1
    (mkCitation "inference" None None (Some "procedures") None None 0.5%Q)
    ledger_completed_once.

(** Is the citation about the facility [fid]? *)
Definition about (fid : string) (c : Citation) : bool :=
  match facility_id c with
  | Some f => String.eqb f fid
  | None => false
  end.

End HistoryNotions.

Section ColumnNotions.
Import Parser.

(** The items read from a structured column: none for an empty cell. *)
Definition column_items (cell : string) : list string :=
  if String.eqb cell "" then [] else structured_items cell.

(** The number of commas of a cell. *)
Definition commas (cell : string) : nat :=
  length (List.filter (fun c => Ascii.eqb c ",") (list_ascii_of_string cell)).

(** The stages of [extract_capabilities]: the profile as constructed, the
    text that [_detect_gaps] scans, and the profile after the structured
    columns and the notes have been read. *)
Definition blank_profile (row : FacilityRow) : FacilityProfile :=
  mkProfile (row_facility_id row) (row_facility_name row) (row_region row)
    (row_district row) (row_latitude row, row_longitude row)
    (row_facility_type row) [] [] [] [] [] [] [] 0.0%Q 0.0%Q.

Definition combined_text (row : FacilityRow) : string :=
  PyStr.join " " [row_specialties row; row_equipment row;
                  row_procedures row; row_staff_notes row].

(** A capability read from a structured column, and one read from the
    notes. *)
Definition from_column (fid : string) (c : MedicalCapability.t) : Prop :=
  MedicalCapability.facility_id c = fid
  /\ MedicalCapability.status c = "available"
  /\ MedicalCapability.confidence c = 0.95%Q
  /\ In (MedicalCapability.capability_type c)
       ["specialty"; "equipment"; "procedure"].

Definition from_notes (fid notes : string) (c : MedicalCapability.t)
  : Prop :=
  MedicalCapability.facility_id c = fid
  /\ ((MedicalCapability.capability_type c = "specialty"
       /\ MedicalCapability.status c = "mentioned"
       /\ MedicalCapability.confidence c = 0.7%Q
       /\ MedicalCapability.source_text c = notes)
      \/ (MedicalCapability.capability_type c = "equipment"
          /\ In (MedicalCapability.status c)
               ["broken"; "unavailable"; "available"]
          /\ MedicalCapability.confidence c = 0.8%Q)).

Definition unscored_profile (row : FacilityRow) : FacilityProfile :=
  _extract_from_notes
    (_extract_structured_fields (blank_profile row) (row_specialties row)
       (row_equipment row) (row_procedures row) (row_facility_id row))
    (row_staff_notes row) (row_facility_id row).

(** Two profiles with the same lists and the same facility type. *)
Definition same_capabilities (p p' : FacilityProfile) : Prop :=
  facility_type p' = facility_type p
  /\ specialties p' = specialties p
  /\ equipment p' = equipment p
  /\ procedures p' = procedures p.

(** The district profile of the scenarios with seven gaps. *)
Definition district_profile_many_gaps : FacilityProfile :=
  set_issues ["a"; "b"; "c"; "d"; "e"; "f"; "g"] [] []
    Scenario.district_profile.

End ColumnNotions.

Section RegexNotions.
Import Regex.

(** Does every match of [r] capture the group [i]? A group inside an
    optional part, or in only one branch of a choice, may take no part in
    the match. *)
Fixpoint always_captures (i : nat) (r : regex) : bool :=
  match r with
  | REps | RChr _ | RStar _ _ => false
  | RSeq r1 r2 => always_captures i r1 || always_captures i r2
  | RAlt r1 r2 => always_captures i r1 && always_captures i r2
  | ROpt _ => false
  | RGroup j r1 => Nat.eqb j i || always_captures i r1
  end.

(** [match.group(i) is not None] *)
Definition captured (i : nat) (m : Match) : bool :=
  match group i m with
  | Some _ => true
  | None => false
  end.

(** The fourth shortage pattern of [_detect_gaps],
    [no (.*?) on (permanent )?staff]. *)
Definition no_staff_pattern : regex :=
  RSeqs [RLit "no "; RGroup 1 (RStar false CAny); RLit " on ";
         ROpt (RGroup 2 (RLit "permanent ")); RLit "staff"].

(** The group on which a shortage pattern calls [strip]. *)
Definition stripped_group (pattern : regex) : nat :=
  if Nat.eqb (ngroups pattern) 1 then 1%nat else 2%nat.

(** The exception of [None.strip()]. *)
Definition none_has_no_strip : PyException :=
  mkExn "AttributeError" "'NoneType' object has no attribute 'strip'".

End RegexNotions.

Section ProviderNotions.
Import Extraction.

(** A capability whose name is a [str]. *)
Definition named (c : ExtractedCapability) : Prop :=
  exists s, name c = PStr s.

(** The procedures that the provider suggested for a text, as they reach
    [_extract_procedures]. *)
Definition provider_suggestions (json_loads : string -> result pyval)
    (self : Agent) (text : string) : list ExtractedCapability :=
  match fst (_llm_extract_procedures json_loads self text) with
  | Ok suggested => suggested
  | Raise _ => []
  end.

(** The entry of the dictionary [seen] for a capability. *)
Definition seen_entry (c : ExtractedCapability)
  : string * ExtractedCapability :=
  (default "" (name_key c), c).

(** The rule-based candidate of [_extract_procedures] for a keyword. *)
Definition keyword_procedure (text keyword : string) : ExtractedCapability :=
  mkCap "procedure" (PStr (PyStr.title keyword))
    (PStr (_extract_context text keyword 50))
    (_extract_volume text keyword) None 0.9%Q.

(** A provider that answers with one procedure whose name is [null], and a
    decoder that knows this answer. *)
Definition null_name_reply : string :=
  let q := String "034"%char EmptyString in
  "[{" +:+ q +:+ "name" +:+ q +:+ ": null, " +:+ q +:+ "volume" +:+ q
  +:+ ": 3}]".

(** A provider that suggests the procedure [bypass], and a decoder that
    knows this answer. *)
Definition bypass_reply : string :=
  let q := String "034"%char EmptyString in
  "[{" +:+ q +:+ "name" +:+ q +:+ ": " +:+ q +:+ "bypass" +:+ q +:+ "}]".

Definition provider_bypass (text : string) : result Message :=
  Ok (mkMessage [TextBlock bypass_reply]).

Definition json_loads_bypass (s : string) : result pyval :=
  if String.eqb s bypass_reply
  then Ok (PList [PDict [("name", PStr "bypass")]])
  else Raise (mkExn "JSONDecodeError" "Expecting value: line 1 column 1").

Definition provider_null_name (text : string) : result Message :=
  Ok (mkMessage [TextBlock null_name_reply]).

Definition json_loads_null_name (s : string) : result pyval :=
  if String.eqb s null_name_reply
  then Ok (PList [PDict [("name", PNone); ("volume", PInt 3)]])
  else Raise (mkExn "JSONDecodeError" "Expecting value: line 1 column 1").

End ProviderNotions.

Section PipelineNotions.
Import Orchestrator.

(** A ledger that some sequence of calls builds from a fresh instance. *)
Definition reachable (t : Ledger.CitationTracker) : Prop :=
  exists cs, t = fst (Ledger.run cs Ledger.init).

(** The five intents of [_understand_query_node]. *)
Definition intents : list string :=
  ["identify_gaps"; "find_medical_deserts"; "find_facilities";
   "analyze_coverage"; "general_query"].

(** The number of procedures over the extracted facilities. *)
Definition total_procedures (l : list ExtractedFacility) : nat :=
  list_sum
    (List.map (fun e => length (Extraction.procedures (extracted e))) l).

Definition total_equipment (l : list ExtractedFacility) : nat :=
  list_sum
    (List.map (fun e => length (Extraction.equipment (extracted e))) l).

(** The result of extracting one record and merging its columns back. *)
Definition extracted_by (json_loads : string -> result pyval)
    (agent : Extraction.Agent) (raw : RawFacility) (e : ExtractedFacility)
  : Prop :=
  fst (Extraction.extract_from_facility json_loads agent (raw_data raw))
  = Ok (extracted e)
  /\ Extraction.facility_id (extracted e)
     = Extraction.fd_facility_id (raw_data raw)
  /\ (ef_region e, ef_district e, ef_facility_type e)
     = (raw_region raw, raw_district raw, raw_facility_type raw).

(** An orchestrator whose four states succeed, over a ledger that holds a
    citation naming a field without a value. *)
Definition unrenderable_nodes : Nodes :=
  mkNodes (fun state => Ok (set_tracker ledger_unrenderable state))
    (fun state => Ok state) (fun state => Ok state) (fun state => Ok state).

End PipelineNotions.

(** ** visualization.py: the summary statistics of the dashboard

    [create_summary_statistics] is applied by [main.py] to the profiles of
    the parser. *)
Module Statistics.
Import Parser.

(** One value of the dictionary [region_stats]. *)
Record RegionStats : Type := mkRegionStats {
  count : nat;
  avg_desert_risk : Q;
  avg_capability : Q;
  total_gaps : nat
}.

(** The dictionary that the function returns. *)
Record Summary : Type := mkSummary {
  total_facilities : nat;
  critical : nat;
  high : nat;
  moderate : nat;
  low : nat;
  regional_stats : list (string * RegionStats);
  top_gaps : list (string * nat);
  overall_desert_risk : Q;
  overall_capability : Q
}.

(** [sum(1 for p in facility_profiles if test(p.desert_risk_score))] *)
Definition count_risk (test : Q -> bool) (profiles : list FacilityProfile)
  : nat :=
  length (List.filter (fun p => test (desert_risk_score p)) profiles).

(** The four tests of the risk distribution. *)
Definition is_critical (s : Q) : bool := Qle_bool 75 s.
Definition is_high (s : Q) : bool := Qle_bool 60 s && Qltb s 75.
Definition is_moderate (s : Q) : bool := Qle_bool 40 s && Qltb s 60.
Definition is_low (s : Q) : bool := Qltb s 40.

(** The four additions of the regional loop to the entry of a region: the
    desert risks are ints, the capability scores floats. *)
Definition add_profile (p : FacilityProfile) (st : RegionStats)
  : RegionStats :=
  mkRegionStats (S (count st))
    (avg_desert_risk st + desert_risk_score p)%Q
    (PyFloat.add (avg_capability st) (capability_score p))
    (total_gaps st + length (gaps p))%nat.

Definition new_stats : RegionStats := mkRegionStats 0 0%Q 0%Q 0.

(** One round of the regional loop: the entry of the region is created at
    the end of the dictionary when the region is new, then updated. *)
Fixpoint region_update (r : string) (p : FacilityProfile)
    (d : list (string * RegionStats)) : list (string * RegionStats) :=
  match d with
  | [] => [(r, add_profile p new_stats)]
  | (r', st) :: rest =>
      if String.eqb r' r then (r', add_profile p st) :: rest
      else (r', st) :: region_update r p rest
  end.

Definition accumulate (profiles : list FacilityProfile)
  : list (string * RegionStats) :=
  List.fold_left (fun d p => region_update (region p) p d) profiles [].

(** [x / n] for an integer [n]: a float. [what] is the message of the
    exception for a zero divisor, which depends on the type of [x]. *)
Definition divide (what : string) (x : Q) (n : nat) : result Q :=
  match n with
  | O => Raise (mkExn "ZeroDivisionError" what)
  | S _ => Ok (PyFloat.truediv x (Z.of_nat n))
  end.

(** The two divisions of the second loop. *)
Definition finish (rs : string * RegionStats)
  : result (string * RegionStats) :=
  let '(r, st) := rs in
  risk ← divide "division by zero" (avg_desert_risk st) (count st);
  capability ← divide "float division by zero" (avg_capability st)
                 (count st);
  Ok (r, mkRegionStats (count st) risk capability (total_gaps st)).

(** [gap_counts[gap] = gap_counts.get(gap, 0) + 1] *)
Fixpoint count_gap (gap : string) (d : list (string * nat))
  : list (string * nat) :=
  match d with
  | [] => [(gap, 1%nat)]
  | (g, n) :: rest =>
      if String.eqb g gap then (g, S n) :: rest
      else (g, n) :: count_gap gap rest
  end.

Definition gap_counts (all_gaps : list string) : list (string * nat) :=
  List.fold_left (fun d gap => count_gap gap d) all_gaps [].

(** [sorted(items, key=lambda x: x[1], reverse=True)]: a stable sort,
    entries with equal counts keep their order. *)
Fixpoint insert_count (x : string * nat) (l : list (string * nat))
  : list (string * nat) :=
  match l with
  | [] => [x]
  | y :: r =>
      if (snd y <=? snd x)%nat then x :: y :: r
      else y :: insert_count x r
  end.

Definition sorted_by_count (l : list (string * nat)) : list (string * nat) :=
  List.fold_right insert_count [] l.

(** [create_summary_statistics]. The average over no facility divides the
    integer 0 by 0. *)
Definition create_summary_statistics (facility_profiles : list FacilityProfile)
  : result Summary :=
  let total_facilities := length facility_profiles in
  let critical := count_risk is_critical facility_profiles in
  let high := count_risk is_high facility_profiles in
  let moderate := count_risk is_moderate facility_profiles in
  let low := count_risk is_low facility_profiles in
  region_stats ← traverse finish (accumulate facility_profiles);
  let all_gaps := List.flat_map gaps facility_profiles in
  let top_gaps := firstn 10 (sorted_by_count (gap_counts all_gaps)) in
  risk ← divide "division by zero"
           (Qsum (List.map desert_risk_score facility_profiles))
           total_facilities;
  capability ← divide "division by zero"
                 (PyFloat.sum (List.map capability_score facility_profiles))
                 total_facilities;
  Ok (mkSummary total_facilities critical high moderate low region_stats
        top_gaps risk capability).

End Statistics.

(** ** The agent of the standalone demo (medical_desert_agent/demo.py) *)
Module SimpleAgent.
Import SimpleParser.

Record ReasoningStep : Type := mkReasoningStep {
  step : Z;
  action : string;
  outcome : string          (* the key [result] *)
}.

Record Recommendation : Type := mkRecommendation {
  rec_region : string;
  priority : string;
  rec_action : string;
  rationale : string
}.

(** The dictionary [result] of [analyze]. *)
Record Analysis : Type := mkAnalysis {
  query : string;
  findings : list string;
  recommendations : list Recommendation;
  reasoning_steps : list ReasoningStep
}.

(** The first step of [analyze]. *)
Definition classify (query_lower : string) : string :=
  if PyStr.contains "desert" query_lower
     || PyStr.contains "underserved" query_lower
  then "medical_desert"
  else if PyStr.contains "surgeon" query_lower
          || PyStr.contains "doctor" query_lower
  then "staffing"
  else "general".

(** [regions[p.region].append(p)], creating the entry at the end of the
    dictionary when the region is new. *)
Fixpoint region_append (r : string) (p : FacilityProfile)
    (d : list (string * list FacilityProfile))
  : list (string * list FacilityProfile) :=
  match d with
  | [] => [(r, [p])]
  | (r', ps) :: rest =>
      if String.eqb r' r then (r', ps ++ [p]) :: rest
      else (r', ps) :: region_append r p rest
  end.

Definition group_by_region (profiles : list FacilityProfile)
  : list (string * list FacilityProfile) :=
  List.fold_left (fun d p => region_append (region p) p d) profiles [].

(** [sorted(regions.items(), key=lambda x: len(x[1]), reverse=True)]: a
    stable sort. *)
Fixpoint insert_by_size (x : string * list FacilityProfile)
    (l : list (string * list FacilityProfile))
  : list (string * list FacilityProfile) :=
  match l with
  | [] => [x]
  | y :: r =>
      if (length (snd y) <=? length (snd x))%nat then x :: y :: r
      else y :: insert_by_size x r
  end.

Definition sorted_by_size (l : list (string * list FacilityProfile))
  : list (string * list FacilityProfile) :=
  List.fold_right insert_by_size [] l.

Section Analyze.

(** The format [:.0f] of the standard library. *)
Variable format_0f : Q -> string.

(** One round of the loop over the sorted regions. *)
Definition recommend (rf : string * list FacilityProfile)
  : result Recommendation :=
  let '(region, facilities) := rf in
  avg_risk ← Statistics.divide "division by zero"
               (Parser.Qsum (List.map desert_risk_score facilities))
               (length facilities);
  Ok (mkRecommendation region
        (if Qle_bool 70 avg_risk then "HIGH" else "MEDIUM")
        ("Deploy resources to " +:+ region)
        (PyStr.of_int (Z.of_nat (length facilities))
         +:+ " facilities at risk (avg: " +:+ format_0f avg_risk
         +:+ "/100)")).

(** [SimpleHealthcareAgent.analyze] *)
Definition analyze (profiles : list FacilityProfile) (query : string)
  : result Analysis :=
  let query_lower := PyStr.lower query in
  let query_type := classify query_lower in
  let classified :=
    mkReasoningStep 1 "Query Classification"
      ("Classified as " +:+ query_type +:+ " query") in
  if String.eqb query_type "medical_desert" then
    let high_risk :=
      List.filter (fun p => Qle_bool 60 (desert_risk_score p)) profiles in
    let regions := group_by_region high_risk in
    recommendations ← traverse recommend (sorted_by_size regions);
    Ok (mkAnalysis query
          ["Found " +:+ PyStr.of_int (Z.of_nat (length high_risk))
           +:+ " high-risk facilities"]
          recommendations
          [classified;
           mkReasoningStep 2 "Data Gathering"
             ("Analyzed " +:+ PyStr.of_int (Z.of_nat (length regions))
              +:+ " regions with high risk")])
  else if String.eqb query_type "staffing" then
    let with_gaps :=
      List.filter (fun p => match gaps p with [] => false | _ => true end)
        profiles in
    Ok (mkAnalysis query
          ["Found " +:+ PyStr.of_int (Z.of_nat (length with_gaps))
           +:+ " facilities with staffing gaps"]
          []
          [classified;
           mkReasoningStep 2 "Data Gathering"
             ("Identified " +:+ PyStr.of_int (Z.of_nat (length with_gaps))
              +:+ " facilities needing staff")])
  else Ok (mkAnalysis query [] [] [classified]).

End Analyze.

End SimpleAgent.

Section StatisticsNotions.
Import Parser Statistics.

(** The statistics of the facilities of one region. *)
Definition stats_of (fs : list FacilityProfile) : RegionStats :=
  mkRegionStats (length fs) (average_risk fs) (average_capability fs)
    (list_sum (List.map (fun f => length (gaps f)) fs)).

(** An entry of [region_stats] after the second loop. *)
Definition averaged (st : RegionStats) : RegionStats :=
  mkRegionStats (count st)
    (PyFloat.truediv (avg_desert_risk st) (Z.of_nat (count st)))
    (PyFloat.truediv (avg_capability st) (Z.of_nat (count st)))
    (total_gaps st).

(** [stats.get(r)] *)
Definition stats_lookup (r : string) (d : list (string * RegionStats))
  : option RegionStats :=
  snd <$> List.find (fun x => String.eqb (fst x) r) d.

(** [gap_counts.get(gap)] *)
Definition gap_lookup (gap : string) (d : list (string * nat))
  : option nat :=
  snd <$> List.find (fun x => String.eqb (fst x) gap) d.

(** The counts are in non-increasing order. *)
Definition by_count_desc (l : list (string * nat)) : Prop :=
  StronglySorted (fun a b => (snd b <= snd a)%nat) l.

(** Profiles of one region with the given gaps. *)
Definition profile_with_gaps (gaps : list string) : FacilityProfile :=
  mkProfile "F" "A" "Northern" "" (0%Q, 0%Q) "District Hospital" [] [] []
    gaps [] [] [] 0%Q 0%Q.

(** A profile of the demo that its parser has scored: no lists and five
    gaps. *)
Definition demo_profile (r : string) : SimpleParser.FacilityProfile :=
  SimpleParser._compute_scores
    (SimpleParser.mkProfile "F" "A" r "" (0%Q, 0%Q) "District Hospital" []
       [] [] ["a"; "b"; "c"; "d"; "e"] [] [] 0%Q 0%Q).

(** The number of occurrences of a gap. *)
Definition occurrences (gap : string) (all_gaps : list string) : nat :=
  length (List.filter (String.eqb gap) all_gaps).

End StatisticsNotions.

Section EquipmentNotions.
Import Parser.

(** The profile [p] with one more item at the end of its equipment list. *)
Definition with_equipment (item : string) (p : FacilityProfile)
  : FacilityProfile :=
  set_lists (specialties p) (equipment p ++ [item]) (procedures p) p.

End EquipmentNotions.

Section FlagNotions.

(** A facility that lists cardiac surgery. *)
Definition cardiac_claim : Extraction.ExtractedCapability :=
  Extraction.mkCap "procedure" (PStr "Cardiac Surgery") PNone PNone None
    0.9%Q.

(** A stretch of text without a line feed, which [.] can cross. *)
Definition on_one_line (s : string) : bool :=
  forallb (Regex.match_char false Regex.CAny) (list_ascii_of_string s).

End FlagNotions.

(* ===================================================================== *)
(** * Properties *)
(* ===================================================================== *)

(** ** The citation ledger *)
Section LedgerFacts.
Import Ledger.

Lemma update_first_numbers n f l :
  (forall s, step_number (f s) = step_number s) ->
  List.map step_number (update_first n f l) = List.map step_number l.
Proof.
  intros Hf. induction l as [|s r IH]; simpl; [reflexivity|].
  destruct (Z.eqb_spec (step_number s) n); simpl.
  - now rewrite Hf.
  - now rewrite IH.
Qed.

Lemma end_step_numbers n out dur t :
  step_numbers (end_step n out dur t) = step_numbers t.
Proof.
  unfold end_step, step_numbers. destruct (_get_step n t); [|reflexivity].
  simpl. now apply update_first_numbers.
Qed.

Lemma end_step_counter n out dur t :
  current_step_number (end_step n out dur t) = current_step_number t.
Proof. unfold end_step. now destruct (_get_step n t). Qed.

Lemma add_citation_numbers n c t :
  step_numbers (add_citation_to_step n c t) = step_numbers t.
Proof.
  unfold add_citation_to_step, step_numbers.
  destruct (_get_step n t); [|reflexivity].
  simpl. now apply update_first_numbers.
Qed.

Lemma add_citation_counter n c t :
  current_step_number (add_citation_to_step n c t) = current_step_number t.
Proof. unfold add_citation_to_step. now destruct (_get_step n t). Qed.

(** A call changes the list of step numbers and the counter only when it is
    [start_step], which appends the incremented counter to both. *)
Lemma step_call_effect c t :
  let '(t', r) := step_call c t in
  match r with
  | Some n => n = current_step_number t + 1
              /\ current_step_number t' = n
              /\ step_numbers t' = step_numbers t ++ [n]
  | None => current_step_number t' = current_step_number t
            /\ step_numbers t' = step_numbers t
  end.
Proof.
  destruct c; simpl.
  - repeat split. unfold step_numbers. simpl. now rewrite List.map_app.
  - split; [apply end_step_counter | apply end_step_numbers].
  - split; [apply add_citation_counter | apply add_citation_numbers].
  - split; [apply add_citation_counter | apply add_citation_numbers].
Qed.

Lemma count_from_length a k : length (count_from a k) = k.
Proof. revert a. induction k as [|k IH]; intros a; simpl; [|rewrite IH]; reflexivity. Qed.

Lemma count_from_bounds a k n : In n (count_from a k) -> a < n <= a + Z.of_nat k.
Proof.
  revert a. induction k as [|k IH]; intros a; simpl; [tauto|].
  intros [<-|H]; [lia|]. apply IH in H. lia.
Qed.

Lemma count_from_split a k pre n post :
  count_from a k = pre ++ n :: post ->
  n = a + Z.of_nat (length pre) + 1 /\ Forall (fun m => m < n) pre.
Proof.
  revert a pre. induction k as [|k IH]; intros a pre; simpl.
  - destruct pre; discriminate.
  - destruct pre as [|m pre]; simpl; intros H; injection H as H1 H2.
    + split; [lia | constructor].
    + apply IH in H2 as [Hn Hlt]. subst m. split; [lia|].
      constructor; [lia | exact Hlt].
Qed.

(** Running calls from any ledger: the counter advances by the number of
    [start_step] calls, which return the successive values of the counter,
    and the step list grows by exactly these numbers. *)
Lemma run_effect cs : forall t,
  let '(t', ids) := run cs t in
  ids = count_from (current_step_number t) (length ids)
  /\ current_step_number t' = current_step_number t + Z.of_nat (length ids)
  /\ step_numbers t' = step_numbers t ++ ids.
Proof.
  induction cs as [|c rest IH]; intros t; simpl.
  - repeat split; [lia | now rewrite List.app_nil_r].
  - pose proof (step_call_effect c t) as Hc.
    destruct (step_call c t) as [t1 r].
    specialize (IH t1). destruct (run rest t1) as [t2 ids].
    destruct IH as (Hids & Hcnt & Hnum).
    destruct r as [n|].
    + destruct Hc as (Hn & Hc1 & Hn1). simpl length.
      rewrite Hc1 in Hids, Hcnt. subst n. repeat split.
      * simpl. now rewrite <- Hids.
      * lia.
      * rewrite Hnum, Hn1, <- List.app_assoc. reflexivity.
    + destruct Hc as (Hc1 & Hn1). rewrite Hc1 in Hids, Hcnt.
      rewrite Hn1 in Hnum. now repeat split.
Qed.

Lemma find_none_numbers n l :
  ~ In n (List.map step_number l) ->
  List.find (fun s => Z.eqb (step_number s) n) l = None.
Proof.
  induction l as [|s r IH]; simpl; [reflexivity|].
  intros H. destruct (Z.eqb_spec (step_number s) n); [tauto|].
  apply IH. tauto.
Qed.

Lemma get_step_unissued n t :
  ~ In n (step_numbers t) -> _get_step n t = None.
Proof. apply find_none_numbers. Qed.

Lemma get_step_update_same n f l s :
  (forall x, step_number (f x) = step_number x) ->
  List.find (fun x => Z.eqb (step_number x) n) l = Some s ->
  List.find (fun x => Z.eqb (step_number x) n) (update_first n f l)
  = Some (f s).
Proof.
  intros Hf. induction l as [|x r IH]; simpl; [discriminate|].
  destruct (Z.eqb_spec (step_number x) n) as [E|E]; simpl.
  - intros [= ->]. rewrite Hf. now rewrite (proj2 (Z.eqb_eq _ _) E).
  - intros H. destruct (Z.eqb_spec (step_number x) n); [tauto|]. now apply IH.
Qed.

Lemma get_step_update_other n m f l :
  (forall x, step_number (f x) = step_number x) ->
  m <> n ->
  List.find (fun x => Z.eqb (step_number x) m) (update_first n f l)
  = List.find (fun x => Z.eqb (step_number x) m) l.
Proof.
  intros Hf Hmn. induction l as [|x r IH]; simpl; [reflexivity|].
  destruct (Z.eqb_spec (step_number x) n) as [E|E]; simpl.
  - rewrite Hf. destruct (Z.eqb_spec (step_number x) m); [lia|reflexivity].
  - now rewrite IH.
Qed.

Lemma update_first_twice n f g l :
  (forall x, step_number (f x) = step_number x) ->
  update_first n g (update_first n f l)
  = update_first n (fun x => g (f x)) l.
Proof.
  intros Hf. induction l as [|x r IH]; simpl; [reflexivity|].
  destruct (Z.eqb_spec (step_number x) n) as [E|E]; simpl.
  - rewrite Hf. now rewrite (proj2 (Z.eqb_eq _ _) E).
  - destruct (Z.eqb_spec (step_number x) n); [tauto|]. now rewrite IH.
Qed.

(** C6. On one ledger instance, whatever other calls are interleaved, the
    numbers returned by the successive [start_step] calls are exactly
    1, 2, 3, ... without gap or repeat, and each one is strictly greater
    than every number returned before it. *)
Theorem start_step_numbers_sequential (cs : list call) :
  let ids := snd (run cs init) in
  ids = count_from 0 (length ids)
  /\ (forall pre n post, ids = pre ++ n :: post ->
        n = Z.of_nat (length pre) + 1 /\ Forall (fun m => m < n) pre).
Proof.
  pose proof (run_effect cs init) as H.
  destruct (run cs init) as [t ids]. simpl in *.
  destruct H as (Hids & _). split; [exact Hids|].
  intros pre n post E. rewrite E in Hids at 1.
  symmetry in Hids. apply count_from_split in Hids as [Hn Hlt].
  split; [lia | exact Hlt].
Qed.

(** The numbers issued by a run are the numbers of the steps it stored. *)
Lemma run_step_numbers cs :
  step_numbers (fst (run cs init)) = snd (run cs init).
Proof.
  pose proof (run_effect cs init) as H.
  destruct (run cs init) as [t ids]. simpl. now destruct H as (_ & _ & H).
Qed.

(** C10. On a ledger reached by any sequence of calls, [end_step],
    [add_citation_to_step] and [add_facility_citation] with a number that
    [start_step] never returned leave the ledger (its steps, their
    citations, and the counter) exactly as it was, and no step with that
    number exists afterwards. *)
Theorem unissued_step_number_is_noop (cs : list call) (n : Z)
    (out : pydict) (dur : option Q) (c : Citation)
    (fid fname field value : string) (row : Z) (conf : Q) :
  ~ In n (snd (run cs init)) ->
  let t := fst (run cs init) in
  end_step n out dur t = t
  /\ add_citation_to_step n c t = t
  /\ add_facility_citation n fid fname field value row conf t = t
  /\ _get_step n t = None.
Proof.
  intros Hn t. rewrite <- run_step_numbers in Hn.
  apply get_step_unissued in Hn. fold t in Hn.
  unfold add_facility_citation, end_step, add_citation_to_step.
  rewrite Hn. repeat split.
Qed.

Lemma unissued_step_number_is_noop_witness :
  let t := fst (run ledger_two_steps init) in
  end_step 3 [("x", PInt 1)] None t = t
  /\ add_citation_to_step 3
       (mkCitation "inference" None None None None None 1%Q) t = t
  /\ add_facility_citation 3 "FAC001" "Korle Bu" "procedures" "surgery" 1
       1%Q t = t
  /\ _get_step 3 t = None.
Proof.
  apply (unissued_step_number_is_noop ledger_two_steps 3).
  simpl. intros [H|[H|[]]]; discriminate H.
Defined.

(** C7 as stated fails: a second [end_step] on the same number replaces the
    output and the duration that the first one wrote. *)
Lemma end_step_twice_overwrites :
  (output_data <$> _get_step 1 ledger_completed_once
     = Some [("facilities_found", PInt 1)]
   /\ duration_ms <$> _get_step 1 ledger_completed_once = Some (Some 12%Q))
  /\ output_data <$> _get_step 1 ledger_completed_twice
     <> output_data <$> _get_step 1 ledger_completed_once
  /\ duration_ms <$> _get_step 1 ledger_completed_twice
     <> duration_ms <$> _get_step 1 ledger_completed_once.
Proof.
  repeat split; try reflexivity; simpl; discriminate.
Qed.

(** C7, amended. [end_step] does not check whether the step was completed
    before: a second call with the same number of an existing step writes
    its own output and duration over the earlier ones (the last write wins,
    as if the first call had not been made); the step keeps its number,
    name, description, input, citations and timestamp, and every other step
    is untouched. *)
Theorem end_step_last_write_wins (t : CitationTracker) (n : Z)
    (s : AgentStep) (o1 o2 : pydict) (d1 d2 : option Q) :
  _get_step n t = Some s ->
  let t2 := end_step n o2 d2 (end_step n o1 d1 t) in
  t2 = end_step n o2 d2 t
  /\ _get_step n t2 = Some (set_output o2 d2 s)
  /\ (forall m, m <> n -> _get_step m t2 = _get_step m t).
Proof.
  intros Hs t2.
  assert (Hnum : forall o d x, step_number (set_output o d x) = step_number x)
    by reflexivity.
  assert (H1 : _get_step n (end_step n o1 d1 t) = Some (set_output o1 d1 s)).
  { unfold end_step. rewrite Hs. unfold _get_step in *. simpl.
    now apply get_step_update_same. }
  assert (E : t2 = end_step n o2 d2 t).
  { unfold t2. unfold end_step at 1. rewrite H1.
    unfold end_step. rewrite Hs. simpl. f_equal.
    now rewrite update_first_twice. }
  split; [exact E|]. rewrite E. unfold end_step. rewrite Hs.
  unfold _get_step in *. simpl. split.
  - now apply get_step_update_same.
  - intros m Hm. now apply get_step_update_other.
Qed.

Lemma end_step_last_write_wins_witness :
  let t := fst (start_step "data_extraction" "Extract facilities" [] "t0"
                  init) in
  let t2 := end_step 1 [("facilities_found", PInt 7)] None
              (end_step 1 [("facilities_found", PInt 1)] (Some 12%Q) t) in
  t2 = end_step 1 [("facilities_found", PInt 7)] None t
  /\ _get_step 1 t2
     = Some (set_output [("facilities_found", PInt 7)] None
               (mkAgentStep 1 "data_extraction" "Extract facilities" [] []
                  [] "t0" None))
  /\ (forall m, m <> 1 -> _get_step m t2 = _get_step m t).
Proof.
  apply (end_step_last_write_wins _ 1). reflexivity.
Defined.

End LedgerFacts.

(** ** The result of [extract_from_facility] *)
Section ExtractionFacts.
Import Extraction.

Lemma extract_from_facility_lists json_loads self fd res :
  fst (extract_from_facility json_loads self fd) = Ok res ->
  fst (_extract_procedures json_loads self (procedures_free_text fd))
  = Ok (procedures res)
  /\ _extract_equipment self (equipment_free_text fd) = Ok (equipment res)
  /\ _extract_specialties self (specialties_free_text fd)
     = Ok (specialties res)
  /\ capability_score res
     = _calculate_capability_score (procedures res) (equipment res)
         (specialties res).
Proof.
  unfold extract_from_facility.
  destruct (_extract_procedures json_loads self (procedures_free_text fd))
    as [[ps|e] ev]; simpl; [|discriminate].
  destruct (_extract_equipment self (equipment_free_text fd)) as [es|e];
    simpl; [|discriminate].
  destruct (_extract_specialties self (specialties_free_text fd)) as [ss|e];
    simpl; [|discriminate].
  destruct (_detect_anomalies ps es ss) as [an|e]; simpl; [|discriminate].
  intros [= <-]. simpl. repeat split.
Qed.

End ExtractionFacts.

(** ** Rounding to the nearest double *)
Section FloatFacts.
Import PyFloat.

Lemma pow2_pos e : (0 < 2 ^ e)%Q.
Proof. now apply Qpower_0_lt. Qed.

Lemma pow2_add a b : (2 ^ (a + b) == 2 ^ a * 2 ^ b)%Q.
Proof. apply Qpower_plus. discriminate. Qed.

Lemma pow2_le a b : a <= b -> (2 ^ a <= 2 ^ b)%Q.
Proof. intros H. apply Qpower_le_compat_l; [exact H | discriminate]. Qed.

Lemma pow2_lt_inv a b : (2 ^ a < 2 ^ b)%Q -> a < b.
Proof. intros H. apply (Qpower_lt_compat_l_inv 2); [exact H | reflexivity]. Qed.

Lemma pow2_Z a : 0 <= a -> (inject_Z (2 ^ a) == 2 ^ a)%Q.
Proof. intros H. now apply Zpower_Qpower. Qed.

Lemma rne_cases x :
  (rne x = Qfloor x /\ (x - inject_Z (Qfloor x) <= 1 # 2)%Q)
  \/ (rne x = Qfloor x + 1 /\ (1 # 2 <= x - inject_Z (Qfloor x))%Q).
Proof.
  unfold rne.
  destruct (Qcompare_spec (x - inject_Z (Qfloor x)) (1 # 2)) as [E|L|G].
  - destruct (Z.even (Qfloor x)); [left | right]; split; try reflexivity;
      rewrite E; apply Qle_refl.
  - left. split; [reflexivity | now apply Qlt_le_weak].
  - right. split; [reflexivity | now apply Qlt_le_weak].
Qed.

Lemma rne_comp x y : (x == y)%Q -> rne x = rne y.
Proof.
  intros E. unfold rne.
  assert (F : Qfloor x = Qfloor y) by now rewrite E.
  rewrite F.
  assert (C : (x - inject_Z (Qfloor y) ?= 1 # 2)%Q
              = (y - inject_Z (Qfloor y) ?= 1 # 2)%Q) by now rewrite E.
  now rewrite C.
Qed.

Lemma rne_Z n : rne (inject_Z n) = n.
Proof.
  unfold rne. rewrite Qfloor_Z.
  assert (C : (inject_Z n - inject_Z n ?= 1 # 2)%Q = Lt).
  { apply -> Qlt_alt. lra. }
  now rewrite C.
Qed.

Lemma rne_le x y : (x <= y)%Q -> rne x <= rne y.
Proof.
  intros Hxy.
  pose proof (Qfloor_resp_le _ _ Hxy) as Hf.
  destruct (Z.eq_dec (Qfloor x) (Qfloor y)) as [E|N].
  - unfold rne. rewrite E.
    destruct (Qcompare_spec (x - inject_Z (Qfloor y)) (1 # 2)) as [Ex|Lx|Gx];
      destruct (Qcompare_spec (y - inject_Z (Qfloor y)) (1 # 2)) as [Ey|Ly|Gy];
      try destruct (Z.even (Qfloor y)); try lia; exfalso; lra.
  - destruct (rne_cases x) as [[-> _]|[-> _]],
             (rne_cases y) as [[-> _]|[-> _]]; lia.
Qed.

Lemma Qnum_pos x : (0 < x)%Q <-> 0 < Qnum x.
Proof. unfold Qlt. simpl. lia. Qed.

Lemma ilog2_spec x :
  (0 < x)%Q -> (2 ^ ilog2 x <= x < 2 ^ (ilog2 x + 1))%Q.
Proof.
  intros Hx. unfold ilog2.
  set (n := Qnum x). set (d := Z.pos (Qden x)).
  assert (Hn : 0 < n) by now apply Qnum_pos.
  assert (Hd : 0 < d) by reflexivity.
  destruct (Z.log2_spec n Hn) as [Hn1 Hn2].
  destruct (Z.log2_spec d Hd) as [Hd1 Hd2].
  pose proof (Z.log2_nonneg n) as Ha. pose proof (Z.log2_nonneg d) as Hb.
  set (a := Z.log2 n) in *. set (b := Z.log2 d) in *.
  assert (Ex : (x == inject_Z n / inject_Z d)%Q).
  { unfold n, d. destruct x as [xn xd]. simpl. apply Qmake_Qdiv. }
  assert (Hdq : (0 < inject_Z d)%Q).
  { change 0%Q with (inject_Z 0). now rewrite <- Zlt_Qlt. }
  assert (Pa : (2 ^ a <= inject_Z n)%Q).
  { rewrite <- pow2_Z by exact Ha. now rewrite <- Zle_Qle. }
  assert (Pa' : (inject_Z n < 2 ^ (a + 1))%Q).
  { rewrite <- pow2_Z by lia. rewrite <- Zlt_Qlt.
    now replace (a + 1) with (Z.succ a) by lia. }
  assert (Pb : (2 ^ b <= inject_Z d)%Q).
  { rewrite <- pow2_Z by exact Hb. now rewrite <- Zle_Qle. }
  assert (Pb' : (inject_Z d < 2 ^ (b + 1))%Q).
  { rewrite <- pow2_Z by lia. rewrite <- Zlt_Qlt.
    now replace (b + 1) with (Z.succ b) by lia. }
  (* x < 2^(a-b+1) and 2^(a-b-1) < x *)
  assert (Up : (x < 2 ^ (a - b + 1))%Q).
  { rewrite Ex. apply Qlt_shift_div_r; [exact Hdq|].
    apply Qlt_le_trans with (2 ^ (a + 1))%Q; [exact Pa'|].
    replace (a + 1) with ((a - b + 1) + b) by lia. rewrite pow2_add.
    apply Qmult_le_l; [apply pow2_pos | exact Pb]. }
  assert (Lo : (2 ^ (a - b - 1) < x)%Q).
  { rewrite Ex. apply Qlt_shift_div_l; [exact Hdq|].
    apply Qlt_le_trans with (2 ^ (a - b - 1) * 2 ^ (b + 1))%Q.
    - apply Qmult_lt_l; [apply pow2_pos | exact Pb'].
    - rewrite <- pow2_add. now replace (a - b - 1 + (b + 1)) with a by lia. }
  destruct (Qle_bool (2 ^ (a - b)) x) eqn:E.
  - apply Qle_bool_iff in E. now split.
  - assert (L : (x < 2 ^ (a - b))%Q).
    { apply Qnot_le_lt. intros H. apply Qle_bool_iff in H. congruence. }
    split; [now apply Qlt_le_weak|].
    now replace (a - b - 1 + 1) with (a - b) by lia.
Qed.

Lemma ilog2_unique x k :
  (2 ^ k <= x < 2 ^ (k + 1))%Q -> ilog2 x = k.
Proof.
  intros [H1 H2].
  assert (Hx : (0 < x)%Q).
  { apply Qlt_le_trans with (2 ^ k)%Q; [apply pow2_pos | exact H1]. }
  destruct (ilog2_spec x Hx) as [L1 L2].
  assert (A : ilog2 x < k + 1).
  { apply pow2_lt_inv. eapply Qle_lt_trans; eassumption. }
  assert (B : k < ilog2 x + 1).
  { apply pow2_lt_inv. eapply Qle_lt_trans; eassumption. }
  lia.
Qed.

Lemma ilog2_comp x y : (0 < x)%Q -> (x == y)%Q -> ilog2 x = ilog2 y.
Proof.
  intros Hx E. symmetry. apply ilog2_unique. rewrite <- E.
  now apply ilog2_spec.
Qed.

Lemma ilog2_le x y : (0 < x)%Q -> (x <= y)%Q -> ilog2 x <= ilog2 y.
Proof.
  intros Hx Hxy.
  assert (Hy : (0 < y)%Q) by (eapply Qlt_le_trans; eassumption).
  destruct (ilog2_spec x Hx) as [L1 _].
  destruct (ilog2_spec y Hy) as [_ L2].
  assert (A : ilog2 x < ilog2 y + 1).
  { apply pow2_lt_inv. eapply Qle_lt_trans; [exact L1|].
    eapply Qle_lt_trans; eassumption. }
  lia.
Qed.

Lemma nearest_pos_value x :
  (nearest_pos x == inject_Z (rne (x / 2 ^ exponent x)) * 2 ^ exponent x)%Q.
Proof. unfold nearest_pos. apply Qred_correct. Qed.

Lemma scaled_le x y e : (x <= y)%Q -> (x / 2 ^ e <= y / 2 ^ e)%Q.
Proof.
  intros H. apply Qmult_le_compat_r; [exact H|].
  apply Qinv_le_0_compat, Qlt_le_weak, pow2_pos.
Qed.

Lemma nearest_pos_nonneg x : (0 <= x)%Q -> (0 <= nearest_pos x)%Q.
Proof.
  intros Hx. rewrite nearest_pos_value.
  apply Qmult_le_0_compat; [|apply Qlt_le_weak, pow2_pos].
  change 0%Q with (inject_Z 0). rewrite <- Zle_Qle.
  rewrite <- (rne_Z 0). apply rne_le.
  apply Qle_shift_div_l; [apply pow2_pos|]. now rewrite Qmult_0_l.
Qed.

Lemma nearest_pos_le x y :
  (0 < x)%Q -> (x <= y)%Q -> (nearest_pos x <= nearest_pos y)%Q.
Proof.
  intros Hx Hxy.
  assert (Hy : (0 < y)%Q) by (eapply Qlt_le_trans; eassumption).
  rewrite !nearest_pos_value.
  pose proof (ilog2_le x y Hx Hxy) as Hl.
  destruct (Z.eq_dec (exponent x) (exponent y)) as [E|N].
  - rewrite E. apply Qmult_le_compat_r; [|apply Qlt_le_weak, pow2_pos].
    rewrite <- Zle_Qle. apply rne_le. now apply scaled_le.
  - assert (Hlt : exponent x < exponent y) by (unfold exponent in *; lia).
    assert (Ey : exponent y = ilog2 y - 52) by (unfold exponent in *; lia).
    assert (Ex : ilog2 x - 52 <= exponent x) by (unfold exponent; lia).
    set (ex := exponent x) in *. set (ey := exponent y) in *.
    destruct (ilog2_spec x Hx) as [_ X2].
    destruct (ilog2_spec y Hy) as [Y1 _].
    apply Qle_trans with (2 ^ (ey + 52))%Q.
    + (* the rounding of x is at most 2^53 units of its last place *)
      assert (R : rne (x / 2 ^ ex) <= 2 ^ 53).
      { rewrite <- (rne_Z (2 ^ 53)). apply rne_le.
        apply Qle_shift_div_r; [apply pow2_pos|].
        apply Qlt_le_weak. eapply Qlt_le_trans; [exact X2|].
        change (inject_Z (2 ^ 53)) with (2 ^ 53)%Q.
        rewrite <- pow2_add. apply pow2_le. lia. }
      apply Qle_trans with (2 ^ 53 * 2 ^ ex)%Q.
      * apply Qmult_le_compat_r; [|apply Qlt_le_weak, pow2_pos].
        change (2 ^ 53)%Q with (inject_Z (2 ^ 53)).
        now rewrite <- Zle_Qle.
      * rewrite <- pow2_add. apply pow2_le. lia.
    + assert (R : 2 ^ 52 <= rne (y / 2 ^ ey)).
      { rewrite <- (rne_Z (2 ^ 52)). apply rne_le.
        apply Qle_shift_div_l; [apply pow2_pos|].
        change (inject_Z (2 ^ 52)) with (2 ^ 52)%Q.
        rewrite <- pow2_add. eapply Qle_trans; [|exact Y1].
        apply pow2_le. lia. }
      apply Qle_trans with (2 ^ 52 * 2 ^ ey)%Q.
      * rewrite <- pow2_add. apply pow2_le. lia.
      * apply Qmult_le_compat_r; [|apply Qlt_le_weak, pow2_pos].
        change (2 ^ 52)%Q with (inject_Z (2 ^ 52)).
        now rewrite <- Zle_Qle.
Qed.

Lemma Qnum_neg x : (x < 0)%Q <-> Qnum x < 0.
Proof. unfold Qlt. simpl. lia. Qed.

Lemma Qnum_zero x : (x == 0)%Q <-> Qnum x = 0.
Proof. unfold Qeq. simpl. lia. Qed.

(** Rounding to the nearest double is monotone. *)
Lemma nearest_le x y : (x <= y)%Q -> (nearest x <= nearest y)%Q.
Proof.
  intros Hxy. unfold nearest.
  destruct (Qnum x) as [|px|px] eqn:Ex; destruct (Qnum y) as [|py|py] eqn:Ey.
  - apply Qle_refl.
  - apply nearest_pos_nonneg. apply Qlt_le_weak, Qnum_pos. rewrite Ey. lia.
  - exfalso. assert (y < 0)%Q by (apply Qnum_neg; rewrite Ey; lia).
    assert (x == 0)%Q by (apply Qnum_zero; exact Ex). lra.
  - exfalso. assert (0 < x)%Q by (apply Qnum_pos; rewrite Ex; lia).
    assert (y == 0)%Q by (apply Qnum_zero; exact Ey). lra.
  - apply nearest_pos_le; [|exact Hxy]. apply Qnum_pos. rewrite Ex. lia.
  - exfalso. assert (0 < x)%Q by (apply Qnum_pos; rewrite Ex; lia).
    assert (y < 0)%Q by (apply Qnum_neg; rewrite Ey; lia). lra.
  - assert (H : (0 <= nearest_pos (- x))%Q).
    { apply nearest_pos_nonneg.
      assert (x < 0)%Q by (apply Qnum_neg; rewrite Ex; lia). lra. }
    lra.
  - assert (H : (0 <= nearest_pos (- x))%Q).
    { apply nearest_pos_nonneg.
      assert (x < 0)%Q by (apply Qnum_neg; rewrite Ex; lia). lra. }
    assert (H' : (0 <= nearest_pos y)%Q).
    { apply nearest_pos_nonneg. apply Qlt_le_weak, Qnum_pos.
      rewrite Ey. lia. }
    lra.
  - assert (Hy : (y < 0)%Q) by (apply Qnum_neg; rewrite Ey; lia).
    assert (H : (nearest_pos (- y) <= nearest_pos (- x))%Q).
    { apply nearest_pos_le; lra. }
    lra.
Qed.

Lemma nearest_nonneg x : (0 <= x)%Q -> (0 <= nearest x)%Q.
Proof. intros H. apply (nearest_le 0 x H). Qed.

(** The result depends on the rational, not on the fraction that
    represents it. *)
Lemma nearest_pos_comp x y :
  (0 < x)%Q -> (x == y)%Q -> nearest_pos x = nearest_pos y.
Proof.
  intros Hx E. unfold nearest_pos, exponent.
  rewrite (ilog2_comp x y Hx E). apply Qred_complete.
  set (e := Z.max _ _).
  assert (R : rne (x / 2 ^ e) = rne (y / 2 ^ e)).
  { apply rne_comp. now rewrite E. }
  now rewrite R.
Qed.

Lemma nearest_comp x y : (x == y)%Q -> nearest x = nearest y.
Proof.
  intros E. unfold nearest.
  destruct (Qnum x) as [|px|px] eqn:Ex.
  - assert (Hy : Qnum y = 0).
    { apply Qnum_zero. rewrite <- E. now apply Qnum_zero. }
    now rewrite Hy.
  - assert (Hx : (0 < x)%Q) by (apply Qnum_pos; rewrite Ex; lia).
    assert (Hy : 0 < Qnum y) by (apply Qnum_pos; now rewrite <- E).
    destruct (Qnum y); try lia. now apply nearest_pos_comp.
  - assert (Hx : (x < 0)%Q) by (apply Qnum_neg; rewrite Ex; lia).
    assert (Hy : Qnum y < 0) by (apply Qnum_neg; now rewrite <- E).
    destruct (Qnum y); try lia. f_equal. apply nearest_pos_comp; [lra|].
    now rewrite E.
Qed.

(** Small whole numbers are doubles. *)
Lemma nearest_100 : PyFloat.nearest 100 = 100%Q.
Proof. vm_compute. reflexivity. Qed.

Lemma nearest_range lo hi x :
  PyFloat.nearest lo = lo -> PyFloat.nearest hi = hi ->
  (lo <= x <= hi)%Q -> (lo <= PyFloat.nearest x <= hi)%Q.
Proof.
  intros Hlo Hhi [H1 H2]. split.
  - rewrite <- Hlo. now apply nearest_le.
  - rewrite <- Hhi. now apply nearest_le.
Qed.

Lemma mul_le a b w :
  (0 <= w)%Q -> a <= b ->
  (PyFloat.mul (PyFloat.of_int a) w <= PyFloat.mul (PyFloat.of_int b) w)%Q.
Proof.
  intros Hw Hab. unfold PyFloat.mul, PyFloat.of_int. apply nearest_le.
  apply Qmult_le_compat_r; [|exact Hw]. apply nearest_le.
  now rewrite <- Zle_Qle.
Qed.

Lemma mul_nonneg a w :
  (0 <= w)%Q -> 0 <= a -> (0 <= PyFloat.mul (PyFloat.of_int a) w)%Q.
Proof.
  intros Hw Ha. unfold PyFloat.mul, PyFloat.of_int. apply nearest_nonneg.
  apply Qmult_le_0_compat; [|exact Hw]. apply nearest_nonneg.
  change 0%Q with (inject_Z 0). now rewrite <- Zle_Qle.
Qed.

End FloatFacts.

(** ** Scoring *)
Section ScoringFacts.
Import Parser.

Lemma type_weights_lookup ft :
  default (PyFloat.nearest 0.3) (type_weights !! ft)
  = PyFloat.nearest (type_weight ft).
Proof.
  unfold type_weights, type_weight.
  repeat (rewrite lookup_insert; case_decide;
          [subst ft; reflexivity |]).
  rewrite lookup_empty. simpl.
  repeat match goal with
         | H : ?k <> ft |- _ =>
             apply not_eq_sym, String.eqb_neq in H; rewrite H; clear H
         end.
  reflexivity.
Qed.

Lemma type_weight_cases ft :
  type_weight ft = 1.0%Q \/ type_weight ft = 0.7%Q \/ type_weight ft = 0.5%Q
  \/ type_weight ft = 0.4%Q \/ type_weight ft = 0.3%Q.
Proof.
  unfold type_weight.
  repeat (match goal with |- context [String.eqb ft ?k] =>
            destruct (String.eqb ft k) end; [tauto|]).
  tauto.
Qed.

Lemma type_weight_range ft : (0 < type_weight ft <= 1)%Q.
Proof.
  destruct (type_weight_cases ft) as [E|[E|[E|[E|E]]]]; rewrite E;
    split; reflexivity || (intros H; discriminate H).
Qed.

Lemma weight_nonneg ft : (0 <= PyFloat.nearest (type_weight ft))%Q.
Proof. apply nearest_nonneg, Qlt_le_weak, type_weight_range. Qed.

Lemma weighted_count_nonneg (a b c : nat) :
  0 <= Z.of_nat a * 5 + Z.of_nat b * 3 + Z.of_nat c * 2.
Proof. lia. Qed.

Lemma py_min_Qmin a b : py_min a b = Qmin a b.
Proof.
  unfold py_min, Qmin, GenericMinMax.gmin.
  destruct (Qlt_le_dec b a) as [H|H].
  - apply Qgt_alt in H. now rewrite H.
  - destruct (a ?= b)%Q eqn:C; try reflexivity.
    apply Qgt_alt in C. exfalso. now apply (Qlt_not_le b a).
Qed.

Lemma py_min_bounds a b : (0 <= a -> 0 <= b -> 0 <= py_min a b <= a)%Q.
Proof.
  intros Ha Hb. unfold py_min. destruct (Qlt_le_dec b a) as [H|H].
  - split; [exact Hb | now apply Qlt_le_weak].
  - split; [exact Ha | apply Qle_refl].
Qed.

Lemma Qltb_lt a b : Qltb a b = true <-> (a < b)%Q.
Proof.
  unfold Qltb. rewrite negb_true_iff. split.
  - intros H. apply Qnot_le_lt. intros Hle.
    apply Qle_bool_iff in Hle. congruence.
  - intros H. destruct (Qle_bool b a) eqn:E; [|reflexivity].
    apply Qle_bool_iff in E. exfalso. now apply (Qlt_not_le a b).
Qed.

Lemma Qltb_compat a a' b : (a == a')%Q -> Qltb a b = Qltb a' b.
Proof.
  intros E. destruct (Qltb a' b) eqn:H.
  - apply Qltb_lt. apply Qltb_lt in H. now rewrite E.
  - destruct (Qltb a b) eqn:H'; [|reflexivity].
    apply Qltb_lt in H'. rewrite E in H'. apply Qltb_lt in H'. congruence.
Qed.

(** The loop over [critical_missing] adds 10 per missing item. *)
Lemma critical_loop equipment items acc :
  List.fold_left
    (fun a critical =>
       if negb (any_contains critical equipment) then a + 10 else a)
    items acc
  = acc + 10 * Z.of_nat
             (length (List.filter
                        (fun item => negb (any_contains item equipment))
                        items)).
Proof.
  revert acc. induction items as [|c items IH]; intros acc; simpl; [lia|].
  rewrite IH. destruct (negb (any_contains c equipment)); simpl length; lia.
Qed.

Lemma filter_length_pairwise {A B : Type} (f : A -> bool) (g : B -> bool)
    (l1 : list A) (l2 : list B) :
  Forall2 (fun a b => f a = g b) l1 l2 ->
  length (List.filter f l1) = length (List.filter g l2).
Proof.
  induction 1 as [|a b l1 l2 E _ IH]; simpl; [reflexivity|].
  rewrite E. destruct (g b); simpl; now rewrite IH.
Qed.

(** The code spells the critical items CT Scanner and Operating Theater, the
    specification CT scanner and operating theater: the match is on
    lower-cased text, so the count of missing items is the same. *)
Lemma critical_penalty_spelling equipment :
  10 * Z.of_nat
         (length (List.filter
                    (fun item => negb (any_contains item equipment))
                    critical_missing))
  = missing_critical_penalty equipment.
Proof.
  unfold missing_critical_penalty. do 2 f_equal.
  apply filter_length_pairwise.
  repeat constructor.
Qed.

Lemma desert_factors_formula score p :
  compute_desert_factors score p
  = risk_base score + gap_penalty (gaps p)
    + missing_critical_penalty (equipment p).
Proof.
  unfold compute_desert_factors. rewrite critical_loop.
  rewrite critical_penalty_spelling. unfold risk_base, gap_penalty.
  replace (Z.of_nat (length (gaps p)) * 5) with (5 * Z.of_nat (length (gaps p)))
    by lia.
  destruct (Qltb score 30); [lia|]. destruct (Qltb score 50); lia.
Qed.

Lemma desert_factors_nonneg score p : 0 <= compute_desert_factors score p.
Proof.
  rewrite desert_factors_formula.
  unfold risk_base, gap_penalty, missing_critical_penalty.
  destruct (Qltb score 30); [|destruct (Qltb score 50)]; lia.
Qed.

Lemma capability_score_stored p :
  capability_score (_compute_scores p) = compute_capability_score p.
Proof. reflexivity. Qed.

Lemma capability_score_closed_form p :
  capability_score (_compute_scores p)
  = Qmin 100
      (PyFloat.mul
         (PyFloat.of_int (5 * Z.of_nat (length (specialties p))
                          + 3 * Z.of_nat (length (equipment p))
                          + 2 * Z.of_nat (length (procedures p))))
         (PyFloat.nearest (type_weight (facility_type p)))).
Proof.
  rewrite capability_score_stored. unfold compute_capability_score.
  rewrite type_weights_lookup, py_min_Qmin. do 3 f_equal. lia.
Qed.

(** C2. The desert-risk score stored by [_compute_scores] is
    min(100, base + gap penalty + missing-critical penalty), with the base
    read off the capability score just computed; a facility whose
    capability score is the float 6.4, with exactly two gaps and the
    equipment list CT Scanner, ICU, gets 60. *)
Theorem desert_risk_score_formula :
  (forall p : FacilityProfile,
     desert_risk_score (_compute_scores p)
     = inject_Z
         (Z.min 100
            (risk_base (capability_score (_compute_scores p))
             + gap_penalty (gaps p)
             + missing_critical_penalty (equipment p))))
  /\ (forall p : FacilityProfile,
        facility_type p = "District Hospital" ->
        (capability_score (_compute_scores p) == PyFloat.nearest 6.4)%Q ->
        length (gaps p) = 2%nat ->
        equipment p = ["CT Scanner"; "ICU"] ->
        (desert_risk_score (_compute_scores p) == 60)%Q).
Proof.
  assert (F : forall p : FacilityProfile,
     desert_risk_score (_compute_scores p)
     = inject_Z
         (Z.min 100
            (risk_base (capability_score (_compute_scores p))
             + gap_penalty (gaps p)
             + missing_critical_penalty (equipment p)))).
  { intros p. rewrite capability_score_stored. unfold _compute_scores.
    simpl. now rewrite desert_factors_formula. }
  split; [exact F|].
  intros p _ Hc Hg He. rewrite F. unfold risk_base, gap_penalty.
  rewrite (Qltb_compat _ _ _ Hc), Hg, He. reflexivity.
Qed.

(** Both scores of a profile that leaves [_compute_scores] lie in
    [0, 100]. *)
Lemma compute_scores_bounds (p : FacilityProfile) :
  (0 <= capability_score (_compute_scores p) <= 100)%Q
  /\ (0 <= desert_risk_score (_compute_scores p) <= 100)%Q.
Proof.
  split.
  - rewrite capability_score_stored. unfold compute_capability_score.
    apply py_min_bounds; [discriminate|].
    rewrite type_weights_lookup.
    apply mul_nonneg; [apply weight_nonneg | apply weighted_count_nonneg].
  - unfold _compute_scores. simpl.
    pose proof (desert_factors_nonneg (compute_capability_score p) p).
    split.
    + change 0%Q with (inject_Z 0). rewrite <- Zle_Qle. lia.
    + change 100%Q with (inject_Z 100). rewrite <- Zle_Qle. lia.
Qed.

Lemma Qplus_nonneg (a b : Q) : (0 <= a -> 0 <= b -> 0 <= a + b)%Q.
Proof.
  intros Ha Hb. apply Qle_trans with (0 + 0)%Q;
    [discriminate | now apply Qplus_le_compat].
Qed.

(** The score of [ExtractionAgent] is capped in the same way. *)
Lemma calculate_capability_score_bounds
    (ps es ss : list Extraction.ExtractedCapability) :
  (0 <= Extraction._calculate_capability_score ps es ss <= 100)%Q.
Proof.
  unfold Extraction._calculate_capability_score.
  match goal with |- (0 <= py_min ?a ?b <= 100)%Q =>
    assert (Hb : (0 <= b)%Q);
    [| destruct (py_min_bounds a b) as [H0 H1];
       [discriminate | exact Hb |
        split; [exact H0 | apply Qle_trans with a; [exact H1 | discriminate]]]]
  end.
  repeat apply Qplus_nonneg; try discriminate;
    change 0%Q with (inject_Z 0); rewrite <- Zle_Qle; lia.
Qed.

Lemma extract_capabilities_scored row p :
  extract_capabilities row = Ok p -> exists p0, p = _compute_scores p0.
Proof.
  unfold extract_capabilities.
  destruct (_detect_gaps _ _ _) as [p0|e]; simpl; [|discriminate].
  intros [= <-]. now exists p0.
Qed.

(** C5. Every profile that leaves [_compute_scores], hence every profile
    returned by [extract_capabilities], has both scores between 0 and 100;
    so has the capability score in the result of
    [ExtractionAgent.extract_from_facility]. *)
Theorem scores_within_bounds :
  (forall p : FacilityProfile,
     (0 <= capability_score (_compute_scores p) <= 100)%Q
     /\ (0 <= desert_risk_score (_compute_scores p) <= 100)%Q)
  /\ (forall (row : FacilityRow) (p : FacilityProfile),
        extract_capabilities row = Ok p ->
        (0 <= capability_score p <= 100)%Q
        /\ (0 <= desert_risk_score p <= 100)%Q)
  /\ (forall (json_loads : string -> result pyval)
        (self : Extraction.Agent) (fd : Extraction.FacilityData)
        (res : Extraction.Extracted),
        fst (Extraction.extract_from_facility json_loads self fd) = Ok res ->
        (0 <= Extraction.capability_score res <= 100)%Q).
Proof.
  split; [exact compute_scores_bounds|]. split.
  - intros row p H. apply extract_capabilities_scored in H as [p0 ->].
    apply compute_scores_bounds.
  - intros json_loads self fd res H.
    apply extract_from_facility_lists in H as (_ & _ & _ & ->).
    apply calculate_capability_score_bounds.
Qed.

Lemma scores_within_bounds_witness :
  (0 <= PyFloat.nearest 6.4 <= 100)%Q /\ (0 <= 50 <= 100)%Q.
Proof.
  apply (proj1 (proj2 scores_within_bounds) Scenario.district_row
           (mkProfile "FAC002" "Bole Hospital" "Savannah" "Bole"
              (9.0%Q, 2.5%Q) "District Hospital"
              ["Cardiology"; "General Surgery"] ["CT Scanner"; "ICU"] []
              [] []
              ["District hospital claims CT Scanner - verify accuracy"]
              (Parser.structured_capabilities "specialty"
                 "Cardiology, General Surgery" "FAC002"
               ++ Parser.structured_capabilities "equipment"
                    "CT Scanner, ICU" "FAC002")
              (PyFloat.nearest 6.4) 50%Q)).
  vm_compute. reflexivity.
Defined.

Lemma desert_risk_score_formula_witness :
  (desert_risk_score (_compute_scores Scenario.district_profile) == 60)%Q.
Proof.
  apply (proj2 desert_risk_score_formula Scenario.district_profile);
    vm_compute; reflexivity.
Defined.

(** The structured-only facility of the specification: the lists are the
    stripped items, the capability score is the float 6.4 and the CT scanner
    of a district hospital is flagged. *)
Example structured_only_facility :
  exists p,
    extract_capabilities Scenario.district_row = Ok p
    /\ specialties p = ["Cardiology"; "General Surgery"]
    /\ equipment p = ["CT Scanner"; "ICU"]
    /\ capability_score p = PyFloat.nearest 6.4
    /\ suspicious_claims p
       = ["District hospital claims CT Scanner - verify accuracy"].
Proof.
  eexists. split; [vm_compute; reflexivity|].
  do 3 (split; [vm_compute; reflexivity|]). reflexivity.
Qed.

(** The same facility with notes about a shortage and a broken MRI. The
    shortage pattern wants a full stop or a comma after the phrase and finds
    none; the breakage pattern [<equipment>.*?broke] is searched in the text
    of all columns and is matched from each critical item that the text
    names, so three gaps are recorded and the desert-risk score is
    30 + 15 + 20. *)
Example noted_facility :
  exists p,
    extract_capabilities Scenario.noted_row = Ok p
    /\ gaps p = ["CT scanner broken/awaiting repair";
                 "MRI broken/awaiting repair"; "ICU broken/awaiting repair"]
    /\ capability_score p = PyFloat.nearest 6.4
    /\ (desert_risk_score p == 65)%Q.
Proof.
  eexists. split; [vm_compute; reflexivity|].
  do 2 (split; [vm_compute; reflexivity|]). reflexivity.
Qed.

(** The simplified parser of the demo computes the capability score by the
    same formula, and a desert-risk score with 10 points per gap and no
    term for critical equipment; both are within [0, 100]. *)
Lemma simple_parser_scores (p : SimpleParser.FacilityProfile) :
  let p' := SimpleParser._compute_scores p in
  SimpleParser.capability_score p'
  = Qmin 100
      (PyFloat.mul
         (PyFloat.of_int
            (5 * Z.of_nat (length (SimpleParser.specialties p))
             + 3 * Z.of_nat (length (SimpleParser.equipment p))
             + 2 * Z.of_nat (length (SimpleParser.procedures p))))
         (PyFloat.nearest (type_weight (SimpleParser.facility_type p))))
  /\ SimpleParser.desert_risk_score p'
     = inject_Z
         (Z.min 100
            (risk_base (SimpleParser.capability_score p')
             + Z.min 30 (10 * Z.of_nat (length (SimpleParser.gaps p)))))
  /\ (0 <= SimpleParser.capability_score p' <= 100)%Q
  /\ (0 <= SimpleParser.desert_risk_score p' <= 100)%Q.
Proof.
  cbn zeta. unfold SimpleParser._compute_scores. cbn [SimpleParser.set_scores
    SimpleParser.capability_score SimpleParser.desert_risk_score].
  change SimpleParser.type_multipliers with type_weights.
  rewrite type_weights_lookup.
  set (total := Z.of_nat (length (SimpleParser.specialties p)) * 5
                + Z.of_nat (length (SimpleParser.equipment p)) * 3
                + Z.of_nat (length (SimpleParser.procedures p)) * 2).
  set (score := py_min 100
                  (PyFloat.mul (PyFloat.of_int total)
                     (PyFloat.nearest
                        (type_weight (SimpleParser.facility_type p))))).
  assert (Hs : (0 <= score <= 100)%Q).
  { apply py_min_bounds; [discriminate|].
    apply mul_nonneg; [apply weight_nonneg | apply weighted_count_nonneg]. }
  split; [|split; [|split; [exact Hs|]]].
  - unfold score. rewrite py_min_Qmin. do 3 f_equal. unfold total. lia.
  - f_equal. unfold risk_base.
    replace (Z.of_nat (length (SimpleParser.gaps p)) * 10)
      with (10 * Z.of_nat (length (SimpleParser.gaps p))) by lia.
    destruct (Qltb score 30); [reflexivity|].
    destruct (Qltb score 50); reflexivity.
  - split.
    + change 0%Q with (inject_Z 0). rewrite <- Zle_Qle.
      destruct (Qltb score 30); [|destruct (Qltb score 50)]; lia.
    + change 100%Q with (inject_Z 100). rewrite <- Zle_Qle. lia.
Qed.

(** The score that [ExtractionAgent] puts in its result is another one:
    3 per operational equipment, 5 per procedure and 4 per specialty, with
    no weight for the type of facility. *)
Lemma agent_score_unweighted
    (ps es ss : list Extraction.ExtractedCapability) :
  (Extraction._calculate_capability_score ps es ss
   == Qmin 100
        (inject_Z
           (3 * Z.of_nat
                  (length (List.filter (Extraction.has_status "operational")
                             es))
            + 5 * Z.of_nat (length ps) + 4 * Z.of_nat (length ss))))%Q.
Proof.
  unfold Extraction._calculate_capability_score. rewrite py_min_Qmin.
  apply Q.min_compat; [reflexivity|].
  assert (Z0 : (0.0 == 0)%Q) by reflexivity.
  rewrite Z0, Qplus_0_l, <- !inject_Z_plus.
  apply inject_Z_injective. lia.
Qed.

(** [extract_capabilities] is partial: on notes that say [no ... on staff]
    without [permanent], [_detect_gaps] strips a group that took no part in
    the match. *)
Example extract_capabilities_can_raise :
  extract_capabilities Scenario.unstaffed_row
  = Raise (mkExn "AttributeError"
             "'NoneType' object has no attribute 'strip'").
Proof. vm_compute. reflexivity. Qed.

(** The score in the result of [extract_from_facility] for
    [Scenario.korle_bu_data], with one specialty, three operational
    equipment items and three procedures, is 4 + 9 + 15 = 28; the formula of
    C3 gives at most 20 x 1.0 whatever the type of the facility, be the
    product exact or rounded. *)
Lemma agent_score_differs_from_weighted_formula :
  exists res,
    fst (Extraction.extract_from_facility Scenario.json_loads_empty_array
           (Extraction.init Scenario.provider_down) Scenario.korle_bu_data)
    = Ok res
    /\ length (Extraction.specialties res) = 1%nat
    /\ length (Extraction.equipment res) = 3%nat
    /\ length (Extraction.procedures res) = 3%nat
    /\ (Extraction.capability_score res == 28)%Q
    /\ forall facility_type : string,
         ~ (Extraction.capability_score res
            == Qmin 100
                 (inject_Z (5 * 1 + 3 * 3 + 2 * 3)
                  * type_weight facility_type))%Q
         /\ ~ (Extraction.capability_score res
               == Qmin 100
                    (PyFloat.mul (PyFloat.of_int (5 * 1 + 3 * 3 + 2 * 3))
                       (PyFloat.nearest (type_weight facility_type))))%Q.
Proof.
  eexists. split; [vm_compute; reflexivity|].
  do 4 (split; [reflexivity|]).
  intros ft. cbn [Extraction.capability_score].
  destruct (type_weight_cases ft) as [E|[E|[E|[E|E]]]]; rewrite E;
    split; intros H; vm_compute in H; discriminate H.
Qed.

(** C3, amended. The capability score that [IntelligentDocumentParser]
    stores in a profile is
    min(100, (5 |specialties| + 3 |equipment| + 2 |procedures|) x weight)
    computed in floats: the weight is the double nearest to 1.0, 0.7, 0.5,
    0.4 for Teaching, Regional, Mission and District Hospital and to 0.3 for
    any other type, and the product is rounded to the nearest double. A
    District Hospital with two specialties, two equipment items and no
    procedure scores the float 6.4; a Regional Hospital with a weighted
    count of 7 scores the double just below 4.9, which is not the float 4.9.
    The score in the result of [ExtractionAgent.extract_from_facility] is
    min(100, 3 |operational equipment| + 5 |procedures| + 4 |specialties|),
    with no weight. *)
Theorem capability_score_formula :
  (forall p : FacilityProfile,
     capability_score (_compute_scores p)
     = Qmin 100
         (PyFloat.mul
            (PyFloat.of_int (5 * Z.of_nat (length (specialties p))
                             + 3 * Z.of_nat (length (equipment p))
                             + 2 * Z.of_nat (length (procedures p))))
            (PyFloat.nearest (type_weight (facility_type p)))))
  /\ (forall p : FacilityProfile,
        facility_type p = "District Hospital" ->
        length (specialties p) = 2%nat ->
        length (equipment p) = 2%nat ->
        procedures p = [] ->
        capability_score (_compute_scores p) = PyFloat.nearest 6.4)
  /\ (capability_score (_compute_scores regional_profile) < 4.9
      /\ 4.9 < PyFloat.nearest 4.9)%Q
  /\ (forall (json_loads : string -> result pyval)
        (self : Extraction.Agent) (fd : Extraction.FacilityData)
        (res : Extraction.Extracted),
        fst (Extraction.extract_from_facility json_loads self fd) = Ok res ->
        (Extraction.capability_score res
         == Qmin 100
              (inject_Z
                 (3 * Z.of_nat
                        (length
                           (List.filter (Extraction.has_status "operational")
                              (Extraction.equipment res)))
                  + 5 * Z.of_nat (length (Extraction.procedures res))
                  + 4 * Z.of_nat (length (Extraction.specialties res)))))%Q).
Proof.
  split; [|split; [|split]].
  - exact capability_score_closed_form.
  - intros p Ht Hs He Hp. rewrite capability_score_closed_form.
    rewrite Ht, Hs, He, Hp. vm_compute. reflexivity.
  - split; vm_compute; reflexivity.
  - intros json_loads self fd res H.
    apply extract_from_facility_lists in H as (_ & _ & _ & ->).
    apply agent_score_unweighted.
Qed.

Lemma capability_score_formula_witness :
  capability_score (_compute_scores Scenario.district_profile)
  = PyFloat.nearest 6.4.
Proof.
  apply (proj1 (proj2 capability_score_formula) Scenario.district_profile);
    reflexivity.
Defined.

(** [PyFloat] computes what the primitive floats compute: for every
    weighted count up to 2000 (400 specialties, or 666 equipment items) and
    each of the five weights, the literal of the weight, the product and
    the capped score are the same doubles; so are the quotients of every
    total up to 300 by every count up to 12, and the sum of 6.4 and 4.9. In
    primitive floats, 16 x 0.4 is the double that the literal 6.4 denotes,
    175 / 3 is below 60 and 180 / 3 is not. *)
#[warnings="-inexact-float"]
Lemma pyfloat_agrees_with_binary64 :
  Binary64.agrees_upto 2001 = true
  /\ Binary64.averages_agree_upto 301 12 = true
  /\ Binary64.sum_agrees 6.4%float 4.9%float = true
  /\ PrimFloat.eqb (Binary64.capability_score 16 0.4%float) 6.4%float = true
  /\ PrimFloat.ltb (Binary64.average 175 3) 60%float = true
  /\ PrimFloat.leb 60%float (Binary64.average 180 3) = true.
Proof. do 5 (split; [vm_compute; reflexivity|]). vm_compute. reflexivity. Qed.

End ScoringFacts.

(** ** Regional aggregation *)
Section DesertFacts.
Import Parser.

Lemma region_lookup_append r r' p d :
  region_lookup r (region_append r' p d)
  = if String.eqb r' r
    then Some (default [] (region_lookup r d) ++ [p])
    else region_lookup r d.
Proof.
  unfold region_lookup.
  induction d as [|[r0 ps] rest IH]; simpl.
  - destruct (String.eqb r' r); reflexivity.
  - destruct (String.eqb_spec r0 r') as [->|Hne]; simpl.
    + destruct (String.eqb r' r); reflexivity.
    + destruct (String.eqb_spec r0 r) as [->|Hne'].
      * simpl. destruct (String.eqb_spec r' r) as [->|_]; [congruence|].
        reflexivity.
      * exact IH.
Qed.

Lemma region_append_keys r p d :
  List.map fst (region_append r p d)
  = if existsb (String.eqb r) (List.map fst d)
    then List.map fst d
    else List.map fst d ++ [r].
Proof.
  induction d as [|[r0 ps] rest IH]; simpl; [reflexivity|].
  rewrite (String.eqb_sym r r0).
  destruct (String.eqb r0 r); simpl; [reflexivity|].
  rewrite IH. now destruct (existsb (String.eqb r) (List.map fst rest)).
Qed.

Lemma region_append_nodup r p d :
  List.NoDup (List.map fst d) ->
  List.NoDup (List.map fst (region_append r p d)).
Proof.
  intros H. rewrite region_append_keys.
  destruct (existsb (String.eqb r) (List.map fst d)) eqn:E; [exact H|].
  apply List.NoDup_app; [exact H | repeat constructor; intros [] | ].
  intros x Hx [<-|[]].
  assert (existsb (String.eqb r) (List.map fst d) = true); [|congruence].
  apply existsb_exists. exists r. split; [exact Hx | apply String.eqb_refl].
Qed.

Lemma fold_region_nodup l : forall d,
  List.NoDup (List.map fst d) ->
  List.NoDup
    (List.map fst
       (List.fold_left (fun d p => region_append (region p) p d) l d)).
Proof.
  induction l as [|p l IH]; intros d H; simpl; [exact H|].
  apply IH. now apply region_append_nodup.
Qed.

Lemma fold_region_lookup r l : forall d,
  region_lookup r
    (List.fold_left (fun d p => region_append (region p) p d) l d)
  = match facilities_of r l with
    | [] => region_lookup r d
    | fs => Some (default [] (region_lookup r d) ++ fs)
    end.
Proof.
  induction l as [|p l IH]; intros d; simpl; [reflexivity|].
  rewrite IH, region_lookup_append.
  destruct (String.eqb (region p) r); simpl.
  - destruct (facilities_of r l); simpl;
      [reflexivity | now rewrite <- List.app_assoc].
  - reflexivity.
Qed.

(** The dictionary built by the grouping loop holds, for each region that
    has a facility, exactly the facilities of that region. *)
Lemma group_by_region_lookup r profiles :
  region_lookup r (group_by_region profiles)
  = match facilities_of r profiles with
    | [] => None
    | fs => Some fs
    end.
Proof.
  unfold group_by_region. rewrite fold_region_lookup. reflexivity.
Qed.

Lemma region_lookup_in r fs d :
  List.NoDup (List.map fst d) ->
  In (r, fs) d <-> region_lookup r d = Some fs.
Proof.
  unfold region_lookup.
  induction d as [|[r0 ps] rest IH]; simpl; intros Hnd.
  - split; [tauto | discriminate].
  - apply List.NoDup_cons_iff in Hnd as [Hnotin Hnd].
    destruct (String.eqb_spec r0 r) as [->|Hne]; simpl.
    + split.
      * intros [[= ->]|Hin]; [reflexivity|].
        exfalso. apply Hnotin. apply List.in_map_iff. now exists (r, fs).
      * intros [= ->]. now left.
    + rewrite <- (IH Hnd). split; [|tauto].
      intros [[= -> _]|Hin]; [congruence | exact Hin].
Qed.

Lemma group_by_region_in r fs profiles :
  In (r, fs) (group_by_region profiles)
  <-> fs <> [] /\ fs = facilities_of r profiles.
Proof.
  rewrite region_lookup_in, group_by_region_lookup.
  - destruct (facilities_of r profiles) as [|f l].
    + split; [discriminate | intros [H ->]; congruence].
    + split; [intros [= <-]; split; [discriminate | reflexivity]
             | intros [_ ->]; reflexivity].
  - apply fold_region_nodup. constructor.
Qed.

Lemma facilities_of_nonempty r profiles :
  facilities_of r profiles <> [] <-> exists p, In p profiles /\ region p = r.
Proof.
  unfold facilities_of. split.
  - destruct (List.filter _ profiles) as [|p l] eqn:E; [congruence|].
    intros _. assert (H : In p (p :: l)) by now left.
    rewrite <- E in H. apply List.filter_In in H as [Hin Hr].
    exists p. split; [exact Hin | now apply String.eqb_eq].
  - intros (p & Hin & Hr) E.
    assert (H : In p (List.filter (fun p => String.eqb (region p) r)
                        profiles)).
    { apply List.filter_In. split; [exact Hin | now apply String.eqb_eq]. }
    rewrite E in H. exact H.
Qed.

Lemma desert_entries_in threshold region_data d :
  In d (desert_entries threshold region_data)
  <-> exists r fs, In (r, fs) region_data
                   /\ (threshold <= average_risk fs)%Q
                   /\ d = entry_of r fs.
Proof.
  unfold desert_entries. rewrite List.in_flat_map. split.
  - intros ([r fs] & Hin & Hd).
    destruct (Qle_bool threshold (average_risk fs)) eqn:E;
      [|destruct Hd].
    destruct Hd as [<-|[]]. exists r, fs.
    split; [exact Hin|]. split; [now apply Qle_bool_iff | reflexivity].
  - intros (r & fs & Hin & Hle & ->). exists (r, fs).
    split; [exact Hin|]. apply Qle_bool_iff in Hle. rewrite Hle. now left.
Qed.

Lemma insert_desc_perm d l : insert_desc d l ≡ₚ d :: l.
Proof.
  induction l as [|x r IH]; simpl; [reflexivity|].
  destruct (Qle_bool _ _); [reflexivity|].
  rewrite IH. apply Permutation_swap.
Qed.

Lemma sorted_desc_perm l : sorted_desc l ≡ₚ l.
Proof.
  induction l as [|x r IH]; simpl; [reflexivity|].
  now rewrite insert_desc_perm, IH.
Qed.

Lemma sorted_desc_in d l : In d (sorted_desc l) <-> In d l.
Proof.
  rewrite <- !list_elem_of_In. now rewrite sorted_desc_perm.
Qed.

Lemma insert_desc_descending d l :
  descending l -> descending (insert_desc d l).
Proof.
  induction 1 as [|x|x y l Hxy Hyl IH]; simpl.
  - constructor.
  - destruct (Qle_bool _ _) eqn:E.
    + constructor; [now apply Qle_bool_iff | constructor].
    + constructor; [|constructor].
      apply Qlt_le_weak, Qnot_le_lt. intros H.
      apply Qle_bool_iff in H. congruence.
  - destruct (Qle_bool (DesertEntry.desert_risk_score x) _) eqn:E.
    + constructor; [now apply Qle_bool_iff | now constructor].
    + simpl in IH.
      destruct (Qle_bool (DesertEntry.desert_risk_score y) _) eqn:E2.
      * constructor; [|exact IH].
        apply Qlt_le_weak, Qnot_le_lt. intros H.
        apply Qle_bool_iff in H. congruence.
      * constructor; [exact Hxy | exact IH].
Qed.

Lemma sorted_desc_descending l : descending (sorted_desc l).
Proof.
  induction l as [|x r IH]; simpl; [constructor|].
  now apply insert_desc_descending.
Qed.

(** Membership in the output of [identify_medical_deserts]. *)
Lemma identify_medical_deserts_in profiles threshold d :
  In d (identify_medical_deserts profiles threshold)
  <-> exists r, facilities_of r profiles <> []
                /\ (threshold <= average_risk (facilities_of r profiles))%Q
                /\ d = entry_of r (facilities_of r profiles).
Proof.
  unfold identify_medical_deserts.
  rewrite sorted_desc_in, desert_entries_in. split.
  - intros (r & fs & Hin & Hle & ->).
    apply group_by_region_in in Hin as [Hne ->]. now exists r.
  - intros (r & Hne & Hle & ->). exists r, (facilities_of r profiles).
    split; [now apply group_by_region_in | now split].
Qed.

Lemma fold_left_Qplus xs : forall acc,
  (List.fold_left Qplus xs acc == acc + List.fold_right Qplus 0 xs)%Q.
Proof.
  induction xs as [|x r IH]; intros acc; simpl.
  - lra.
  - rewrite IH. lra.
Qed.

(** The quotient that the code computes from whole scores is the double
    nearest to their average. *)
Lemma average_risk_mean fs :
  average_risk fs = PyFloat.nearest (mean (List.map desert_risk_score fs)).
Proof.
  unfold average_risk, PyFloat.truediv, mean, Qsum. apply nearest_comp.
  rewrite fold_left_Qplus, List.length_map, Qplus_0_l. reflexivity.
Qed.

(** At the threshold 58.333333333333336, the region whose facilities score
    80, 55 and 40 is listed as a medical desert, although the average of
    the three scores, 175/3, is below that threshold: the quotient that the
    code compares is the double nearest to 175/3, which is the threshold
    itself. *)
Lemma desert_listed_below_threshold :
  (mean (risks_of "Northern" Scenario.region_below) == 175 # 3)%Q
  /\ (175 # 3 < threshold_at_quotient)%Q
  /\ whole_risks Scenario.region_below
  /\ List.map DesertEntry.region
       (identify_medical_deserts Scenario.region_below threshold_at_quotient)
     = ["Northern"].
Proof.
  split; [reflexivity|]. split; [reflexivity|]. split.
  - repeat constructor; eexists; reflexivity.
  - vm_compute. reflexivity.
Qed.

(** C4, amended. A region is in the output of [identify_medical_deserts]
    exactly when it has a facility and the quotient of the sum of the
    desert-risk scores of its facilities by their number, as a float,
    reaches the threshold; for the whole-number scores that
    [_compute_scores] stores, that quotient is the double nearest to the
    average of the scores. Every entry counts at least one facility. At the
    default threshold 60, three facilities scoring 80, 55 and 40 (average
    175/3) do not make their region a desert; with 80, 60 and 40 (average
    60) the region is one. *)
Theorem desert_iff_average_reaches_threshold :
  (forall (profiles : list FacilityProfile) (threshold : Q) (r : string),
     whole_risks profiles ->
     (exists d, In d (identify_medical_deserts profiles threshold)
                /\ DesertEntry.region d = r)
     <-> (exists p, In p profiles /\ region p = r)
         /\ (threshold <= PyFloat.nearest (mean (risks_of r profiles)))%Q)
  /\ (forall p : FacilityProfile, whole (desert_risk_score (_compute_scores p)))
  /\ (forall (profiles : list FacilityProfile) (threshold : Q)
        (d : DesertEntry.t),
        In d (identify_medical_deserts profiles threshold) ->
        (1 <= DesertEntry.facility_count d)%nat
        /\ DesertEntry.facility_count d
           = length (facilities_of (DesertEntry.region d) profiles))
  /\ (mean (risks_of "Northern" Scenario.region_below) == 175 # 3)%Q
  /\ identify_medical_deserts Scenario.region_below default_threshold = []
  /\ List.map DesertEntry.region
       (identify_medical_deserts Scenario.region_at default_threshold)
     = ["Northern"].
Proof.
  split; [|split; [|split; [|split; [|split]]]].
  - intros profiles threshold r _. rewrite <- facilities_of_nonempty.
    unfold risks_of. rewrite <- average_risk_mean. split.
    + intros (d & Hin & Hr). apply identify_medical_deserts_in in Hin.
      destruct Hin as (r' & Hne & Hle & ->). simpl in Hr. subst r'.
      now split.
    + intros [Hne Hle]. exists (entry_of r (facilities_of r profiles)).
      split; [|reflexivity]. apply identify_medical_deserts_in. now exists r.
  - intros p. eexists. reflexivity.
  - intros profiles threshold d Hin.
    apply identify_medical_deserts_in in Hin.
    destruct Hin as (r & Hne & _ & ->). simpl. split; [|reflexivity].
    destruct (facilities_of r profiles); [congruence | simpl; lia].
  - reflexivity.
  - vm_compute. reflexivity.
  - vm_compute. reflexivity.
Qed.

Lemma desert_iff_average_reaches_threshold_witness :
  (exists d, In d (identify_medical_deserts Scenario.region_at
                     default_threshold)
             /\ DesertEntry.region d = "Northern")
  /\ (1 <= length (facilities_of "Northern" Scenario.region_at))%nat.
Proof.
  destruct desert_iff_average_reaches_threshold as (Hiff & _ & Hcount & _).
  assert (Hwhole : whole_risks Scenario.region_at).
  { repeat constructor; eexists; reflexivity. }
  assert (H : exists d, In d (identify_medical_deserts Scenario.region_at
                                default_threshold)
                        /\ DesertEntry.region d = "Northern").
  { apply (Hiff _ _ _ Hwhole). split.
    - exists (Scenario.scored_profile "F1" "A" "Northern" 80).
      split; [now left | reflexivity].
    - vm_compute. discriminate. }
  split; [exact H|].
  destruct H as (d & Hin & Hr).
  destruct (Hcount _ _ _ Hin) as [H1 H2]. rewrite Hr in H2.
  rewrite <- H2. exact H1.
Defined.

End DesertFacts.

(** ** The provider-backed extraction of procedures *)
Section ProviderFacts.
Import Extraction.

Lemma llm_short_text json_loads self text :
  (PyStr.len text < 20)%nat ->
  _llm_extract_procedures json_loads self text = (Ok [], []).
Proof.
  intros H. unfold _llm_extract_procedures.
  apply Nat.ltb_lt in H. rewrite H. now rewrite orb_true_r.
Qed.

Lemma llm_total json_loads self text :
  exists l, fst (_llm_extract_procedures json_loads self text) = Ok l.
Proof.
  unfold _llm_extract_procedures.
  destruct (String.eqb text "" || (PyStr.len text <? 20)%nat);
    [now exists []|].
  destruct (llm_response self text) as [t|e]; simpl; [|now exists []].
  destruct (parse_procedures json_loads t) as [l|e]; simpl;
    [now exists l | now exists []].
Qed.

Lemma llm_no_reply json_loads self text e :
  llm_response self text = Raise e ->
  fst (_llm_extract_procedures json_loads self text) = Ok [].
Proof.
  intros H. unfold _llm_extract_procedures.
  destruct (String.eqb text "" || (PyStr.len text <? 20)%nat);
    [reflexivity|].
  now rewrite H.
Qed.

Lemma llm_provider_raises self text e :
  client self text = Raise e -> llm_response self text = Raise e.
Proof. intros H. unfold llm_response. now rewrite H. Qed.

Lemma llm_bad_reply json_loads self text t e :
  llm_response self text = Ok t ->
  parse_procedures json_loads t = Raise e ->
  fst (_llm_extract_procedures json_loads self text) = Ok [].
Proof.
  intros H1 H2. unfold _llm_extract_procedures.
  destruct (String.eqb text "" || (PyStr.len text <? 20)%nat);
    [reflexivity|].
  rewrite H1. simpl. now rewrite H2.
Qed.

Lemma parse_not_json json_loads t e :
  json_loads t = Raise e -> parse_procedures json_loads t = Raise e.
Proof. intros H. unfold parse_procedures. now rewrite H. Qed.

(** With no suggestion from the provider, [_extract_procedures] returns the
    deduplicated rule-based candidates. *)
Lemma procedures_rule_based_only json_loads self text :
  text <> "" ->
  fst (_llm_extract_procedures json_loads self text) = Ok [] ->
  fst (_extract_procedures json_loads self text)
  = _deduplicate_capabilities (rule_procedures self text).
Proof.
  intros Hne H. unfold _extract_procedures.
  apply String.eqb_neq in Hne. rewrite Hne.
  destruct (_llm_extract_procedures json_loads self text) as [r ev].
  simpl in *. subst r. simpl. now rewrite List.app_nil_r.
Qed.

(** The provider is called at most once, and only with the text itself. *)
Lemma llm_events json_loads self text :
  List.filter (fun ev => match ev with ProviderCall _ => true | _ => false end)
    (snd (_llm_extract_procedures json_loads self text))
  = if String.eqb text "" || (PyStr.len text <? 20)%nat then []
    else [ProviderCall text].
Proof.
  unfold _llm_extract_procedures.
  destruct (String.eqb text "" || (PyStr.len text <? 20)%nat);
    [reflexivity|].
  destruct (llm_response self text) as [t|e]; simpl; [|reflexivity].
  now destruct (parse_procedures json_loads t).
Qed.

(** C8. [_llm_extract_procedures] returns a list for every text, provider
    and JSON decoder. It returns the empty list when the provider raises,
    when its reply has no text, when the reply is not JSON, and when the
    decoded value does not have the expected shape; [_extract_procedures]
    then returns the rule-based candidates only. For a text shorter than 20
    characters the result is the empty list and the provider is not
    called. *)
Theorem llm_extraction_never_raises
    (json_loads : string -> result pyval) (self : Agent) (text : string) :
  (exists l, fst (_llm_extract_procedures json_loads self text) = Ok l)
  /\ ((PyStr.len text < 20)%nat ->
      _llm_extract_procedures json_loads self text = (Ok [], []))
  /\ (forall e, client self text = Raise e ->
        fst (_llm_extract_procedures json_loads self text) = Ok [])
  /\ (forall e, llm_response self text = Raise e ->
        fst (_llm_extract_procedures json_loads self text) = Ok [])
  /\ (forall t e, llm_response self text = Ok t ->
        json_loads t = Raise e ->
        fst (_llm_extract_procedures json_loads self text) = Ok [])
  /\ (forall t e, llm_response self text = Ok t ->
        parse_procedures json_loads t = Raise e ->
        fst (_llm_extract_procedures json_loads self text) = Ok [])
  /\ (text <> "" ->
      fst (_llm_extract_procedures json_loads self text) = Ok [] ->
      fst (_extract_procedures json_loads self text)
      = _deduplicate_capabilities (rule_procedures self text)).
Proof.
  split; [apply llm_total|].
  split; [apply llm_short_text|].
  split; [intros e H; eapply llm_no_reply, llm_provider_raises, H|].
  split; [intros e H; eapply llm_no_reply, H|].
  split; [intros t e H1 H2;
          eapply llm_bad_reply; [exact H1 | apply parse_not_json, H2]|].
  split; [intros t e H1 H2; eapply llm_bad_reply; eassumption|].
  apply procedures_rule_based_only.
Qed.

Lemma llm_extraction_never_raises_witness :
  fst (_llm_extract_procedures Scenario.json_loads_empty_array
         (init Scenario.provider_down) Scenario.long_text) = Ok []
  /\ fst (_llm_extract_procedures Scenario.json_loads_empty_array
            (init Scenario.provider_prose) Scenario.long_text) = Ok []
  /\ _llm_extract_procedures Scenario.json_loads_empty_array
       (init Scenario.provider_prose) "MRI and X-ray" = (Ok [], []).
Proof.
  split; [|split].
  - apply (llm_extraction_never_raises Scenario.json_loads_empty_array
             (init Scenario.provider_down) Scenario.long_text)
      with (e := mkExn "APIConnectionError" "Connection error.").
    reflexivity.
  - eapply (llm_extraction_never_raises Scenario.json_loads_empty_array
              (init Scenario.provider_prose) Scenario.long_text).
    + reflexivity.
    + reflexivity.
  - apply (llm_extraction_never_raises Scenario.json_loads_empty_array
             (init Scenario.provider_prose) "MRI and X-ray").
    simpl. lia.
Defined.

End ProviderFacts.

(** ** Deduplication of capabilities *)
Section DedupFacts.
Import Extraction.

Lemma py_lower_key c k : py_lower (name c) = Ok k <-> name_key c = Some k.
Proof.
  unfold name_key. destruct (name c); simpl; split; intros H;
    try discriminate H; now injection H as ->.
Qed.

Lemma seen_get_in key cap seen :
  List.NoDup (List.map fst seen) ->
  seen_get key seen = Some cap <-> In (key, cap) seen.
Proof.
  unfold seen_get. induction seen as [|[k c] rest IH]; simpl; intros Hnd.
  - split; [discriminate | tauto].
  - apply List.NoDup_cons_iff in Hnd as [Hnotin Hnd].
    destruct (String.eqb_spec k key) as [->|Hne]; simpl.
    + split.
      * intros [= ->]. now left.
      * intros [[= ->]|Hin]; [reflexivity|].
        exfalso. apply Hnotin. apply List.in_map_iff. now exists (key, cap).
    + rewrite (IH Hnd). split; [tauto|].
      intros [[= -> _]|Hin]; [congruence | exact Hin].
Qed.

Lemma seen_get_none key seen :
  seen_get key seen = None <-> ~ In key (List.map fst seen).
Proof.
  unfold seen_get. induction seen as [|[k c] rest IH]; simpl.
  - tauto.
  - destruct (String.eqb_spec k key) as [->|Hne]; simpl.
    + split; [discriminate | tauto].
    + rewrite IH. tauto.
Qed.

Lemma seen_set_keys key cap seen :
  List.map fst (seen_set key cap seen)
  = match seen_get key seen with
    | Some _ => List.map fst seen
    | None => List.map fst seen ++ [key]
    end.
Proof.
  unfold seen_get. induction seen as [|[k c] rest IH]; simpl; [reflexivity|].
  destruct (String.eqb_spec k key) as [->|Hne]; simpl; [reflexivity|].
  rewrite IH. now destruct (List.find _ rest).
Qed.

Lemma seen_set_nodup key cap seen :
  List.NoDup (List.map fst seen) ->
  List.NoDup (List.map fst (seen_set key cap seen)).
Proof.
  intros H. rewrite seen_set_keys.
  destruct (seen_get key seen) eqn:E; [exact H|].
  apply seen_get_none in E.
  apply List.NoDup_app; [exact H | repeat constructor; intros [] |].
  intros x Hx [<-|[]]. now apply E.
Qed.

Lemma seen_set_in key cap seen k c :
  List.NoDup (List.map fst seen) ->
  In (k, c) (seen_set key cap seen)
  <-> (k = key /\ c = cap) \/ (k <> key /\ In (k, c) seen).
Proof.
  induction seen as [|[k0 c0] rest IH]; simpl; intros Hnd.
  - split.
    + intros [[= -> ->]|[]]. now left.
    + intros [[-> ->]|[_ []]]. now left.
  - apply List.NoDup_cons_iff in Hnd as [Hnotin Hnd].
    destruct (String.eqb_spec k0 key) as [->|Hne]; simpl.
    + split.
      * intros [[= -> ->]|Hin]; [now left|]. right.
        split; [|now right]. intros ->. apply Hnotin.
        apply List.in_map_iff. now exists (key, c).
      * intros [[-> ->]|[Hk [[= E _]|Hin]]];
          [now left | congruence | now right].
    + rewrite (IH Hnd). split.
      * intros [[= -> ->]|[[-> ->]|[Hk Hin]]].
        -- right. split; [exact Hne | now left].
        -- now left.
        -- right. split; [exact Hk | now right].
      * intros [[-> ->]|[Hk [[= -> ->]|Hin]]].
        -- right. now left.
        -- now left.
        -- right. right. now split.
Qed.

Lemma seen_ok_insert processed seen key cap :
  seen_ok processed seen ->
  name_key cap = Some key ->
  (forall kept, seen_get key seen = Some kept ->
                (confidence kept <= confidence cap)%Q) ->
  seen_ok (processed ++ [cap]) (seen_set key cap seen).
Proof.
  intros (Hnd & Hsound & Hdom) Hkey Hle.
  split; [now apply seen_set_nodup|]. split.
  - intros k c Hin. apply seen_set_in in Hin; [|exact Hnd].
    destruct Hin as [[-> ->]|[Hk Hin]].
    + split; [apply List.in_or_app; right; now left | exact Hkey].
    + destruct (Hsound _ _ Hin) as [H1 H2].
      split; [apply List.in_or_app; now left | exact H2].
  - intros c Hin. apply List.in_app_or in Hin as [Hin|[<-|[]]].
    + destruct (Hdom _ Hin) as (k & c' & Hk & Hin' & Hc).
      destruct (String.eqb_spec k key) as [->|Hne].
      * exists key, cap. split; [exact Hk|].
        split; [apply seen_set_in; [exact Hnd | now left]|].
        apply Qle_trans with (confidence c'); [exact Hc|].
        apply Hle. now apply seen_get_in.
      * exists k, c'. split; [exact Hk|].
        split; [apply seen_set_in; [exact Hnd | now right] | exact Hc].
    + exists key, cap. split; [exact Hkey|].
      split; [apply seen_set_in; [exact Hnd | now left] | apply Qle_refl].
Qed.

Lemma seen_ok_keep processed seen key cap kept :
  seen_ok processed seen ->
  name_key cap = Some key ->
  seen_get key seen = Some kept ->
  (confidence cap <= confidence kept)%Q ->
  seen_ok (processed ++ [cap]) seen.
Proof.
  intros (Hnd & Hsound & Hdom) Hkey Hget Hle.
  split; [exact Hnd|]. split.
  - intros k c Hin. destruct (Hsound _ _ Hin) as [H1 H2].
    split; [apply List.in_or_app; now left | exact H2].
  - intros c Hin. apply List.in_app_or in Hin as [Hin|[<-|[]]].
    + exact (Hdom _ Hin).
    + exists key, kept. split; [exact Hkey|].
      split; [now apply seen_get_in | exact Hle].
Qed.

Lemma dedup_loop_ok capabilities : forall processed seen out,
  seen_ok processed seen ->
  dedup_loop capabilities seen = Ok out ->
  seen_ok (processed ++ capabilities) out.
Proof.
  induction capabilities as [|cap rest IH]; intros processed seen out Hok;
    simpl.
  - intros [= <-]. now rewrite List.app_nil_r.
  - destruct (py_lower (name cap)) as [key|e] eqn:Hk; simpl;
      [|discriminate].
    apply py_lower_key in Hk. intros Hrun.
    replace (processed ++ cap :: rest) with ((processed ++ [cap]) ++ rest)
      by now rewrite <- List.app_assoc.
    eapply IH; [|exact Hrun].
    destruct (seen_get key seen) as [kept|] eqn:Hget.
    + destruct (Parser.Qltb (confidence kept) (confidence cap)) eqn:Hlt.
      * apply seen_ok_insert; [exact Hok | exact Hk |].
        intros kept' H. rewrite Hget in H. injection H as <-.
        apply Qlt_le_weak. now apply Qltb_lt.
      * eapply seen_ok_keep; [exact Hok | exact Hk | exact Hget |].
        apply Qnot_lt_le. intros H. apply Qltb_lt in H. congruence.
    + apply seen_ok_insert; [exact Hok | exact Hk |].
      intros kept H. rewrite Hget in H. discriminate H.
Qed.

Lemma dedup_loop_total capabilities : forall seen,
  Forall (fun c => exists s, name c = PStr s) capabilities ->
  exists out, dedup_loop capabilities seen = Ok out.
Proof.
  induction capabilities as [|cap rest IH]; intros seen H; simpl.
  - now exists seen.
  - inversion H as [|? ? [s Hs] Hrest]; subst. rewrite Hs. simpl.
    now apply IH.
Qed.

Lemma deduplicate_spec candidates out :
  _deduplicate_capabilities candidates = Ok out ->
  deduplicated candidates out.
Proof.
  unfold _deduplicate_capabilities.
  destruct (dedup_loop candidates []) as [seen|e] eqn:Hrun; simpl;
    [|discriminate].
  intros [= <-].
  assert (Hinit : seen_ok [] []).
  { split; [constructor|]. split; [intros k c [] | intros c []]. }
  destruct (dedup_loop_ok _ _ _ _ Hinit Hrun) as (Hnd & Hsound & Hdom).
  simpl in Hsound, Hdom.
  assert (Hkeys : List.map name_key (List.map snd seen)
                  = List.map Some (List.map fst seen)).
  { rewrite !List.map_map. apply List.map_ext_in. intros [k c] Hin.
    simpl. now apply Hsound. }
  split; [|split].
  - rewrite Hkeys. apply List.NoDup_map_inv with (f := default "").
    rewrite List.map_map. simpl. now rewrite List.map_id.
  - intros c Hin. apply List.in_map_iff in Hin as ([k c0] & <- & Hin).
    simpl. destruct (Hsound _ _ Hin) as [H1 H2]. split; [exact H1|].
    unfold name_key in H2. destruct (name c0); try discriminate H2.
    now eexists.
  - intros c Hin. destruct (Hdom _ Hin) as (k & c' & Hk & Hin' & Hc).
    exists c'. split; [apply List.in_map_iff; now exists (k, c')|].
    destruct (Hsound _ _ Hin') as [_ Hk']. split; [congruence | exact Hc].
Qed.

Lemma deduplicate_total candidates :
  Forall (fun c => exists s, name c = PStr s) candidates ->
  exists out, _deduplicate_capabilities candidates = Ok out.
Proof.
  intros H. unfold _deduplicate_capabilities.
  destruct (dedup_loop_total _ [] H) as [seen Hs]. rewrite Hs. simpl.
  now eexists.
Qed.

Lemma rule_procedures_named self text :
  Forall (fun c => exists s, name c = PStr s) (rule_procedures self text).
Proof.
  unfold rule_procedures. apply List.Forall_forall. intros c Hin.
  apply List.in_flat_map in Hin as (kw & _ & Hin).
  destruct (PyStr.contains kw _); [|destruct Hin].
  destruct Hin as [<-|[]]. now eexists.
Qed.

Lemma rule_equipment_named self text :
  Forall (fun c => exists s, name c = PStr s) (rule_equipment self text).
Proof.
  unfold rule_equipment. apply List.Forall_forall. intros c Hin.
  apply List.in_flat_map in Hin as (kw & _ & Hin).
  destruct (PyStr.contains kw _); [|destruct Hin].
  destruct Hin as [<-|[]]. now eexists.
Qed.

Lemma rule_specialties_named self text :
  Forall (fun c => exists s, name c = PStr s) (rule_specialties self text).
Proof.
  unfold rule_specialties. apply List.Forall_forall. intros c Hin.
  apply List.in_flat_map in Hin as (kw & _ & Hin).
  destruct (PyStr.contains kw _); [|destruct Hin].
  destruct Hin as [<-|[]]. now eexists.
Qed.

(** The equipment and specialty lists never fail: their candidates are
    named by keywords. *)
Lemma extract_equipment_total self text :
  exists out, _extract_equipment self text = Ok out.
Proof.
  unfold _extract_equipment. destruct (String.eqb text ""); [now eexists|].
  apply deduplicate_total, rule_equipment_named.
Qed.

Lemma extract_specialties_total self text :
  exists out, _extract_specialties self text = Ok out.
Proof.
  unfold _extract_specialties. destruct (String.eqb text ""); [now eexists|].
  apply deduplicate_total, rule_specialties_named.
Qed.

Lemma deduplicated_nil : deduplicated [] [].
Proof.
  split; [constructor|]. split; intros c [].
Qed.

Lemma extract_equipment_deduplicated self text out :
  _extract_equipment self text = Ok out ->
  deduplicated (equipment_candidates self text) out.
Proof.
  unfold _extract_equipment, equipment_candidates.
  destruct (String.eqb text "").
  - intros [= <-]. apply deduplicated_nil.
  - apply deduplicate_spec.
Qed.

Lemma extract_specialties_deduplicated self text out :
  _extract_specialties self text = Ok out ->
  deduplicated (specialty_candidates self text) out.
Proof.
  unfold _extract_specialties, specialty_candidates.
  destruct (String.eqb text "").
  - intros [= <-]. apply deduplicated_nil.
  - apply deduplicate_spec.
Qed.

Lemma extract_procedures_deduplicated json_loads self text out :
  fst (_extract_procedures json_loads self text) = Ok out ->
  deduplicated (procedure_candidates json_loads self text) out.
Proof.
  unfold _extract_procedures, procedure_candidates.
  destruct (String.eqb text "").
  - intros [= <-]. apply deduplicated_nil.
  - destruct (_llm_extract_procedures json_loads self text) as [[l|e] ev];
      simpl; [|discriminate].
    apply deduplicate_spec.
Qed.

(** The capability list that [IntelligentDocumentParser] builds for
    [Scenario.mri_row] holds the MRI twice: the structured item with
    confidence 0.95 and the mention in the notes with confidence 0.8. *)
Lemma parser_capabilities_keep_duplicates :
  exists p,
    Parser.extract_capabilities Scenario.mri_row = Ok p
    /\ List.map
         (fun c => (Parser.MedicalCapability.facility_id c,
                    PyStr.lower (Parser.MedicalCapability.name c),
                    Parser.MedicalCapability.confidence c))
         (Parser.capabilities p)
       = [("FAC001", "cardiology", 0.95%Q); ("FAC001", "mri", 0.95%Q);
          ("FAC001", "cesarean", 0.95%Q); ("FAC001", "mri", 0.8%Q)]
    /\ ~ List.NoDup
           (List.map
              (fun c => (Parser.MedicalCapability.facility_id c,
                         PyStr.lower (Parser.MedicalCapability.name c)))
              (Parser.capabilities p)).
Proof.
  eexists. split; [vm_compute; reflexivity|]. split; [reflexivity|].
  simpl. intros H.
  apply List.NoDup_cons_iff in H as [_ H].
  apply List.NoDup_cons_iff in H as [H _].
  apply H. right. now left.
Qed.

(** C1, amended. Deduplication is what [ExtractionAgent] does, list by list.
    When [_deduplicate_capabilities] returns, its output is [deduplicated]:
    no two entries have the same lower-cased name, every entry is one of the
    candidates, and every candidate is represented by the entry of its name,
    whose confidence is at least the candidate's. It returns whenever all
    names are strings. The procedure, equipment and specialty lists of
    [extract_from_facility] are such outputs for the candidates of each
    list. *)
Theorem extraction_agent_deduplicates :
  (forall candidates out : list ExtractedCapability,
     _deduplicate_capabilities candidates = Ok out ->
     deduplicated candidates out)
  /\ (forall candidates : list ExtractedCapability,
        Forall (fun c => exists s, name c = PStr s) candidates ->
        exists out, _deduplicate_capabilities candidates = Ok out)
  /\ (forall (json_loads : string -> result pyval) (self : Agent)
        (fd : FacilityData) (res : Extracted),
        fst (extract_from_facility json_loads self fd) = Ok res ->
        deduplicated
          (procedure_candidates json_loads self (procedures_free_text fd))
          (procedures res)
        /\ deduplicated
             (equipment_candidates self (equipment_free_text fd))
             (equipment res)
        /\ deduplicated
             (specialty_candidates self (specialties_free_text fd))
             (specialties res)).
Proof.
  split; [exact deduplicate_spec|]. split; [exact deduplicate_total|].
  intros json_loads self fd res H.
  apply extract_from_facility_lists in H as (Hp & He & Hs & _).
  split; [eapply extract_procedures_deduplicated, Hp|].
  split; [eapply extract_equipment_deduplicated, He
         | eapply extract_specialties_deduplicated, Hs].
Qed.

Lemma extraction_agent_deduplicates_witness :
  _deduplicate_capabilities Scenario.two_candidates
  = Ok [mkCap "procedure" (PStr "bypass") (PStr "advanced") PNone None 0.9%Q]
  /\ List.NoDup
       (List.map name_key
          [mkCap "procedure" (PStr "bypass") (PStr "advanced") PNone None
             0.9%Q]).
Proof.
  split; [reflexivity|].
  apply (proj1 extraction_agent_deduplicates Scenario.two_candidates).
  reflexivity.
Defined.

End DedupFacts.

(** ** The orchestrator *)
Section OrchestratorFacts.
Import Orchestrator.

(** The compiled graph runs the four nodes in sequence. *)
Lemma invoke_build_graph (self : Nodes) (s0 : AgentState) :
  invoke (_build_graph self) s0
  = (s1 ← understand_query self s0;
     s2 ← extract_capabilities self s1;
     s3 ← analyze_data self s2;
     generate_response self s3).
Proof.
  unfold invoke, _build_graph. cbn.
  destruct (understand_query self s0) as [s1|e]; [|reflexivity]. cbn.
  destruct (extract_capabilities self s1) as [s2|e]; [|reflexivity]. cbn.
  destruct (analyze_data self s2) as [s3|e]; [|reflexivity]. cbn.
  destruct (generate_response self s3) as [s4|e]; reflexivity.
Qed.

Lemma invoke_raises (self : Nodes) (s0 : AgentState) (e : PyException) :
  raises_in_state self s0 e <-> invoke (_build_graph self) s0 = Raise e.
Proof.
  rewrite invoke_build_graph. split.
  - intros [H|s1 H1 H|s1 s2 H1 H2 H|s1 s2 s3 H1 H2 H3 H].
    + now rewrite H.
    + rewrite H1. cbn. now rewrite H.
    + rewrite H1. cbn. rewrite H2. cbn. now rewrite H.
    + rewrite H1. cbn. rewrite H2. cbn. rewrite H3. cbn. exact H.
  - destruct (understand_query self s0) as [s1|e1] eqn:H1; cbn.
    2:{ intros [= ->]. now apply raises_in_understand. }
    destruct (extract_capabilities self s1) as [s2|e2] eqn:H2; cbn.
    2:{ intros [= ->]. now apply raises_in_extract with s1. }
    destruct (analyze_data self s2) as [s3|e3] eqn:H3; cbn.
    2:{ intros [= ->]. now apply raises_in_analyze with s1 s2. }
    intros H. now apply raises_in_generate with s1 s2 s3.
Qed.

Lemma error_result_fields (e : PyException) (q : string) (ms : Q) :
  let out := error_result e q ms in
  out !! "error" = Some (PStr (exn_msg e))
  /\ out !! "query" = Some (PStr q)
  /\ out !! "processing_time_ms" = Some (PFloat ms)
  /\ dom out = {["error"; "query"; "processing_time_ms"]}
  /\ Forall (fun k => out !! k = None)
       ["response"; "intent"; "entities"; "matching_facilities";
        "analysis_results"; "citations"; "citation_report"; "errors"].
Proof.
  unfold error_result. cbn zeta.
  split; [reflexivity|]. split; [reflexivity|]. split; [reflexivity|].
  split.
  - rewrite !dom_insert_L, dom_empty_L. set_solver.
  - repeat constructor.
Qed.

(** C9. When one of the four states raises, [process_query] returns the
    dictionary built by its handler: the message of the exception under
    [error], the query, and the elapsed time in milliseconds, and nothing
    else; it has no response, intent, entities, matching facilities,
    analysis results, citations, citation report or error list. The graph is
    not run again. *)
Theorem process_query_error_result
    (json_dumps : pyval -> result string) (format_2f : Q -> string)
    (self : Nodes) (start_time end_time : Q) (q : string)
    (records : list RawFacility) (e : PyException) :
  raises_in_state self (initial_state q records) e ->
  let elapsed_ms := ((end_time - start_time) * 1000)%Q in
  let out := error_result e q elapsed_ms in
  process_query json_dumps format_2f (_build_graph self) start_time
    end_time q records = Ok out
  /\ out !! "error" = Some (PStr (exn_msg e))
  /\ out !! "query" = Some (PStr q)
  /\ out !! "processing_time_ms" = Some (PFloat elapsed_ms)
  /\ dom out = {["error"; "query"; "processing_time_ms"]}
  /\ Forall (fun k => out !! k = None)
       ["response"; "intent"; "entities"; "matching_facilities";
        "analysis_results"; "citations"; "citation_report"; "errors"].
Proof.
  intros H elapsed_ms out. split; [|apply error_result_fields].
  apply invoke_raises in H. unfold process_query. now rewrite H.
Qed.

(** When every state and the rendering of the report succeed, the result
    has the ten fields of [_format_output] and no [error]. *)
Lemma process_query_normal_result
    (json_dumps : pyval -> result string) (format_2f : Q -> string)
    (self : Nodes) (start_time end_time : Q) (q : string)
    (records : list RawFacility) (final : AgentState) (report : string) :
  invoke (_build_graph self) (initial_state q records) = Ok final ->
  Ledger.generate_citation_report json_dumps format_2f
    (citation_tracker final) = Ok report ->
  exists out,
    process_query json_dumps format_2f (_build_graph self) start_time
      end_time q records = Ok out
    /\ dom out = list_to_set output_fields
    /\ out !! "error" = None
    /\ out !! "processing_time_ms"
       = Some (PFloat ((end_time - start_time) * 1000)%Q).
Proof.
  intros Hrun Hrep. unfold process_query. rewrite Hrun. cbn.
  unfold _format_output. cbn. rewrite Hrep. cbn.
  eexists. split; [reflexivity|]. split; [|split; reflexivity].
  rewrite !dom_insert_L, dom_empty_L. unfold output_fields. cbn.
  set_solver.
Qed.

Lemma process_query_error_result_witness :
  process_query Scenario.json_dumps_braces Scenario.format_whole
    (_build_graph Scenario.failing_analysis) 10 12.5 Scenario.accra_query
    [Scenario.korle_bu]
  = Ok (error_result (mkExn "KeyError" "'medical_deserts'")
          Scenario.accra_query ((12.5 - 10) * 1000)%Q).
Proof.
  assert (H : raises_in_state Scenario.failing_analysis
                (initial_state Scenario.accra_query [Scenario.korle_bu])
                (mkExn "KeyError" "'medical_deserts'")).
  { eapply raises_in_analyze;
      [vm_compute; reflexivity | vm_compute; reflexivity | reflexivity]. }
  exact (proj1 (process_query_error_result Scenario.json_dumps_braces
                  Scenario.format_whole Scenario.failing_analysis 10 12.5
                  Scenario.accra_query [Scenario.korle_bu] _ H)).
Defined.

(** The query of the specification is a facility search for cardiac surgery
    in Greater Accra. *)
Example accra_query_understood :
  classify_intent (PyStr.lower Scenario.accra_query) = "find_facilities"
  /\ extract_entities (PyStr.lower Scenario.accra_query)
     = [("region", PStr "Greater Accra");
        ("capability", PStr "cardiac surgery")].
Proof. split; vm_compute; reflexivity. Qed.

End OrchestratorFacts.

(** ** Invariants of the citation ledger *)
Section LedgerInvariants.
Import Ledger.

Lemma run_well_numbered cs : well_numbered (fst (run cs init)).
Proof.
  pose proof (run_effect cs init) as H.
  destruct (run cs init) as [t ids]. simpl in *.
  destruct H as (Hids & Hcnt & Hnum).
  assert (Hlen : length ids = length (steps t)).
  { unfold step_numbers in Hnum. rewrite <- Hnum. now rewrite List.length_map. }
  split; [rewrite Hnum, <- Hlen; exact Hids | lia].
Qed.

Lemma find_by_position l : forall a k,
  List.map step_number l = count_from a (length l) ->
  List.find (fun s => step_number s =? k) l
  = if a <? k then nth_error l (Z.to_nat (k - a - 1)) else None.
Proof.
  induction l as [|s r IH]; intros a k; simpl.
  - intros _. destruct (a <? k); [|reflexivity].
    now destruct (Z.to_nat (k - a - 1)).
  - intros [= Hs Hr]. rewrite (IH (a + 1) k Hr), Hs.
    destruct (Z.eqb_spec (a + 1) k) as [E|E].
    + subst k. destruct (Z.ltb_spec a (a + 1)); [|lia].
      now replace (a + 1 - a - 1) with 0 by lia.
    + destruct (Z.ltb_spec (a + 1) k), (Z.ltb_spec a k); try lia;
        try reflexivity.
      replace (Z.to_nat (k - a - 1)) with (S (Z.to_nat (k - (a + 1) - 1)))
        by lia.
      reflexivity.
Qed.

(** X1. On a ledger reached by any sequence of calls, the stored steps
    carry the numbers 1, 2, ..., n in list order and the counter is n, so
    that [_get_step k] is the step at position [k - 1] of the list: it finds
    a step, whose number is [k], exactly for the numbers from 1 to n. *)
Theorem step_numbers_are_positions (cs : list call) :
  let t := fst (run cs init) in
  step_numbers t = count_from 0 (length (steps t))
  /\ current_step_number t = Z.of_nat (length (steps t))
  /\ (forall k, _get_step k t
               = if 0 <? k then nth_error (steps t) (Z.to_nat (k - 1))
                 else None)
  /\ (forall k, 1 <= k <= Z.of_nat (length (steps t)) <->
               exists s, _get_step k t = Some s /\ step_number s = k).
Proof.
  intros t. destruct (run_well_numbered cs) as [Hnum Hcnt]. fold t in Hnum, Hcnt.
  assert (Hget : forall k, _get_step k t
               = if 0 <? k then nth_error (steps t) (Z.to_nat (k - 1))
                 else None).
  { intros k. unfold _get_step. rewrite (find_by_position _ 0 k Hnum).
    now replace (k - 0 - 1) with (k - 1) by lia. }
  split; [exact Hnum|]. split; [exact Hcnt|]. split; [exact Hget|].
  intros k. rewrite Hget. split.
  - intros Hk. destruct (Z.ltb_spec 0 k); [|lia].
    destruct (nth_error (steps t) (Z.to_nat (k - 1))) as [s|] eqn:E.
    + exists s. split; [reflexivity|].
      assert (H1 : nth_error (step_numbers t) (Z.to_nat (k - 1))
                   = Some (step_number s)).
      { unfold step_numbers. now rewrite List.nth_error_map, E. }
      pose proof (nth_error_In _ _ H1) as Hin.
      pose proof (find_some (fun s => step_number s =? k) (steps t)) as Hf.
      specialize (Hget k). unfold _get_step in Hget.
      destruct (Z.ltb_spec 0 k); [|lia]. rewrite E in Hget.
      apply Hf in Hget as [_ Hk']. now apply Z.eqb_eq in Hk'.
    + apply List.nth_error_None in E. lia.
  - intros (s & Hs & Hk). destruct (Z.ltb_spec 0 k); [|discriminate].
    assert (Hlt : (Z.to_nat (k - 1) < length (steps t))%nat).
    { apply List.nth_error_Some. now rewrite Hs. }
    lia.
Qed.


Lemma find_app_none {A} (f : A -> bool) l1 l2 :
  List.find f l1 = None -> List.find f (l1 ++ l2) = List.find f l2.
Proof.
  induction l1 as [|x r IH]; simpl; [reflexivity|].
  destruct (f x); [discriminate | exact IH].
Qed.

Lemma find_app_some {A} (f : A -> bool) l1 l2 x :
  List.find f l1 = Some x -> List.find f (l1 ++ l2) = Some x.
Proof.
  induction l1 as [|y r IH]; simpl; [discriminate|].
  destruct (f y); [trivial | exact IH].
Qed.

(** X2. On a ledger reached by any sequence of calls, [start_step] returns
    the number of steps plus one, and [_get_step] on that number finds the
    fresh step with the name, description, input and timestamp given, an
    empty output, no citations and no duration; the lookup of every other
    number and the list of all citations are unchanged. *)
Theorem start_step_then_get_step (cs : list call)
    (name description : string) (input : pydict) (now : string) :
  let t := fst (run cs init) in
  let t' := fst (start_step name description input now t) in
  let n := snd (start_step name description input now t) in
  n = Z.of_nat (length (steps t)) + 1
  /\ _get_step n t'
     = Some (mkAgentStep n name description input [] [] now None)
  /\ (forall m, m <> n -> _get_step m t' = _get_step m t)
  /\ get_all_citations t' = get_all_citations t.
Proof.
  intros t t' n. destruct (run_well_numbered cs) as [Hnum Hcnt].
  fold t in Hnum, Hcnt.
  assert (Hn : n = Z.of_nat (length (steps t)) + 1).
  { unfold n. simpl. now rewrite Hcnt. }
  assert (Hnone : _get_step n t = None).
  { apply get_step_unissued. rewrite Hnum. intros Hin.
    apply count_from_bounds in Hin. lia. }
  split; [exact Hn|]. split; [|split].
  - unfold _get_step, t'. simpl. rewrite find_app_none by exact Hnone.
    simpl. now rewrite Z.eqb_refl.
  - intros m Hm. unfold _get_step, t'. simpl.
    destruct (List.find (fun s => step_number s =? m) (steps t)) as [s|] eqn:E.
    + now apply find_app_some.
    + rewrite find_app_none by exact E. simpl.
      destruct (Z.eqb_spec (current_step_number t + 1) m) as [E'|E'];
        [|reflexivity].
      exfalso. apply Hm. now rewrite <- E'.
  - unfold get_all_citations, t'. simpl.
    rewrite List.map_app, List.concat_app. simpl. now rewrite !List.app_nil_r.
Qed.

Lemma step_kept_refl s : step_kept s s.
Proof. repeat split. exists []. now rewrite List.app_nil_r. Qed.

Lemma step_kept_trans s1 s2 s3 :
  step_kept s1 s2 -> step_kept s2 s3 -> step_kept s1 s3.
Proof.
  intros (A1 & A2 & A3 & A4 & A5 & m1 & A6) (B1 & B2 & B3 & B4 & B5 & m2 & B6).
  repeat split; try congruence.
  exists (m1 ++ m2). now rewrite B6, A6, List.app_assoc.
Qed.

Lemma Forall2_step_kept_refl l : Forall2 step_kept l l.
Proof. induction l; constructor; [apply step_kept_refl | assumption]. Qed.

Lemma history_kept_refl t : history_kept t t.
Proof.
  exists (steps t), []. split; [now rewrite List.app_nil_r|].
  apply Forall2_step_kept_refl.
Qed.

Lemma Forall2_step_kept_trans l1 : forall l2 l3,
  Forall2 step_kept l1 l2 -> Forall2 step_kept l2 l3 ->
  Forall2 step_kept l1 l3.
Proof.
  induction l1 as [|x r IH]; intros l2 l3 H12 H23.
  - inversion H12; subst. inversion H23; subst. constructor.
  - inversion H12 as [|? y ? r2 Hxy Hr]; subst.
    inversion H23 as [|? z ? r3 Hyz Hr']; subst.
    constructor; [eapply step_kept_trans; eassumption | eapply IH; eassumption].
Qed.

Lemma history_kept_trans t1 t2 t3 :
  history_kept t1 t2 -> history_kept t2 t3 -> history_kept t1 t3.
Proof.
  intros (o1 & n1 & E1 & F1) (o2 & n2 & E2 & F2).
  rewrite E1 in F2. apply Forall2_app_inv_l in F2
    as (o2a & o2b & Fa & Fb & ->).
  exists o2a, (o2b ++ n2). split; [now rewrite E2, List.app_assoc|].
  eapply Forall2_step_kept_trans; eassumption.
Qed.

Lemma update_first_kept n f l :
  (forall s, step_kept s (f s)) -> Forall2 step_kept l (update_first n f l).
Proof.
  intros Hf. induction l as [|s r IH]; simpl; [constructor|].
  destruct (step_number s =? n).
  - constructor; [apply Hf | apply Forall2_step_kept_refl].
  - constructor; [apply step_kept_refl | exact IH].
Qed.

Lemma set_output_kept out dur s : step_kept s (set_output out dur s).
Proof. repeat split. exists []. simpl. now rewrite List.app_nil_r. Qed.

Lemma add_citation_kept c s : step_kept s (add_citation c s).
Proof. repeat split. now exists [c]. Qed.

Lemma step_call_keeps_history c t : history_kept t (fst (step_call c t)).
Proof.
  destruct c; simpl.
  - exists (steps t), [mkAgentStep (current_step_number t + 1) name
                         description input [] [] now None].
    split; [reflexivity | apply Forall2_step_kept_refl].
  - unfold end_step. destruct (_get_step n t); [|apply history_kept_refl].
    eexists _, []. split; [simpl; now rewrite List.app_nil_r|].
    apply update_first_kept, set_output_kept.
  - unfold add_citation_to_step.
    destruct (_get_step n t); [|apply history_kept_refl].
    eexists _, []. split; [simpl; now rewrite List.app_nil_r|].
    apply update_first_kept, add_citation_kept.
  - unfold add_facility_citation, add_citation_to_step.
    destruct (_get_step n t); [|apply history_kept_refl].
    eexists _, []. split; [simpl; now rewrite List.app_nil_r|].
    apply update_first_kept, add_citation_kept.
Qed.

Lemma kept_lengths l l' :
  Forall2 step_kept l l' ->
  length l = length l'
  /\ (length (concat (List.map citations l))
      <= length (concat (List.map citations l')))%nat.
Proof.
  induction 1 as [|s s' l l' Hs _ [IH1 IH2]]; simpl; [split; lia|].
  destruct Hs as (_ & _ & _ & _ & _ & more & Hc).
  rewrite !List.length_app, Hc, List.length_app. split; lia.
Qed.

(** X3. The ledger is append-only: whatever calls are made on whatever
    ledger, the steps present before are still there afterwards, in the same
    order and before any new step, each with the number, name, description,
    input and timestamp it had and with its earlier citations as the first
    of its citations; neither the number of steps nor the number of
    citations ever decreases. *)
Theorem ledger_is_append_only (cs : list call) (t : CitationTracker) :
  history_kept t (fst (run cs t))
  /\ (length (steps t) <= length (steps (fst (run cs t))))%nat
  /\ (length (get_all_citations t)
      <= length (get_all_citations (fst (run cs t))))%nat.
Proof.
  assert (H : history_kept t (fst (run cs t))).
  { revert t. induction cs as [|c rest IH]; intros t; simpl.
    - apply history_kept_refl.
    - pose proof (step_call_keeps_history c t) as Hc.
      destruct (step_call c t) as [t1 r]. specialize (IH t1).
      destruct (run rest t1) as [t2 ids]. simpl in *.
      eapply history_kept_trans; eassumption. }
  split; [exact H|]. destruct H as (old & new & E & F).
  apply kept_lengths in F as [Hlen Hcit]. split.
  - rewrite E, List.length_app. lia.
  - unfold get_all_citations. rewrite E, List.map_app, List.concat_app,
      List.length_app.
    unfold get_all_citations in Hcit. lia.
Qed.


Lemma update_first_split n f l s :
  List.find (fun x => step_number x =? n) l = Some s ->
  exists l1 l2, l = l1 ++ s :: l2 /\ update_first n f l = l1 ++ f s :: l2.
Proof.
  induction l as [|x r IH]; simpl; [discriminate|].
  destruct (step_number x =? n).
  - intros [= ->]. now exists [], r.
  - intros H. destruct (IH H) as (l1 & l2 & -> & E).
    exists (x :: l1), l2. simpl. now rewrite E.
Qed.

Lemma update_first_none n f l :
  List.find (fun x => step_number x =? n) l = None -> update_first n f l = l.
Proof.
  induction l as [|x r IH]; simpl; [reflexivity|].
  destruct (step_number x =? n); [discriminate|].
  intros H. now rewrite IH.
Qed.

Lemma add_citation_number c s :
  step_number (add_citation c s) = step_number s.
Proof. reflexivity. Qed.

Lemma set_output_number out dur s :
  step_number (set_output out dur s) = step_number s.
Proof. reflexivity. Qed.

(** X4. Adding a citation to a step that exists appends it to the
    citations of that step and changes no other step; [get_all_citations]
    gains that citation once, and [get_citations_by_facility] gains it once
    for the facility the citation names and is unchanged for every other
    facility. *)
Theorem citation_is_recorded_once (t : CitationTracker) (n : Z)
    (c : Citation) (s : AgentStep) :
  _get_step n t = Some s ->
  let t' := add_citation_to_step n c t in
  _get_step n t' = Some (add_citation c s)
  /\ (forall m, m <> n -> _get_step m t' = _get_step m t)
  /\ get_all_citations t' ≡ₚ c :: get_all_citations t
  /\ (forall fid,
        get_citations_by_facility fid t'
        ≡ₚ (if about fid c then [c] else [])
           ++ get_citations_by_facility fid t).
Proof.
  intros Hs t'. unfold t', add_citation_to_step. rewrite Hs.
  unfold _get_step in *. simpl. split; [|split].
  - apply get_step_update_same; [apply add_citation_number | exact Hs].
  - intros m Hm. apply get_step_update_other;
      [apply add_citation_number | exact Hm].
  - destruct (update_first_split n (add_citation c) _ _ Hs)
      as (l1 & l2 & E1 & E2).
    unfold get_citations_by_facility, get_all_citations. simpl.
    rewrite E2, E1, !List.map_app, !List.concat_app. simpl.
    rewrite <- !List.app_assoc. simpl. split.
    + symmetry. rewrite Permutation_middle.
      apply Permutation_app_head. apply Permutation_middle.
    + intros fid. rewrite !List.filter_app. simpl.
      fold (about fid). destruct (about fid c) eqn:Ec; unfold about in Ec;
        rewrite Ec; simpl; [|reflexivity].
      now rewrite <- !Permutation_middle.
Qed.

Lemma citation_is_recorded_once_witness :
  let c := mkCitation "facility_row" (Some "FAC001") (Some "Korle Bu")
             (Some "procedures") (Some "cardiac surgery") (Some 1) 0.9%Q in
  length (get_citations_by_facility "FAC001"
            (add_citation_to_step 1 c ledger_completed_once)) = 1%nat.
Proof.
  intros c.
  pose proof (citation_is_recorded_once ledger_completed_once 1 c _
                eq_refl) as (_ & _ & _ & H).
  specialize (H "FAC001"). apply Permutation_length in H. exact H.
Defined.

Lemma update_first_comm n m f g l :
  (forall x, step_number (f x) = step_number x) ->
  (forall x, step_number (g x) = step_number x) ->
  (forall x, f (g x) = g (f x)) ->
  update_first n f (update_first m g l)
  = update_first m g (update_first n f l).
Proof.
  intros Hf Hg Hfg. induction l as [|x r IH]; simpl; [reflexivity|].
  destruct (step_number x =? m) eqn:Em, (step_number x =? n) eqn:En; simpl;
    rewrite ?Hf, ?Hg, ?Em, ?En; try reflexivity.
  - now rewrite Hfg.
  - now rewrite IH.
Qed.

Lemma end_step_steps n out dur t :
  steps (end_step n out dur t)
  = update_first n (set_output out dur) (steps t).
Proof.
  unfold end_step. destruct (_get_step n t) eqn:E; [reflexivity|].
  symmetry. now apply update_first_none.
Qed.

Lemma add_citation_steps n c t :
  steps (add_citation_to_step n c t)
  = update_first n (add_citation c) (steps t).
Proof.
  unfold add_citation_to_step. destruct (_get_step n t) eqn:E; [reflexivity|].
  symmetry. now apply update_first_none.
Qed.

Lemma tracker_eq (a b : CitationTracker) :
  steps a = steps b -> current_step_number a = current_step_number b -> a = b.
Proof. destruct a, b. simpl. congruence. Qed.

Lemma update_first_citations n out dur l :
  List.map citations (update_first n (set_output out dur) l)
  = List.map citations l.
Proof.
  induction l as [|x r IH]; simpl; [reflexivity|].
  destruct (step_number x =? n); simpl; [reflexivity | now rewrite IH].
Qed.

Lemma end_step_citations n out dur t :
  get_all_citations (end_step n out dur t) = get_all_citations t.
Proof.
  unfold end_step, get_all_citations. destruct (_get_step n t); [|reflexivity].
  simpl. now rewrite update_first_citations.
Qed.

(** X5. [end_step] never touches citations, and it commutes with
    [add_citation_to_step] for any two step numbers: a citation attached
    after its step was completed is recorded as if it had been attached
    before. *)
Theorem end_step_commutes_with_citation (n m : Z) (out : pydict)
    (dur : option Q) (c : Citation) (t : CitationTracker) :
  end_step n out dur (add_citation_to_step m c t)
  = add_citation_to_step m c (end_step n out dur t)
  /\ get_all_citations (end_step n out dur t) = get_all_citations t
  /\ get_all_citations (end_step n out dur (add_citation_to_step m c t))
     = get_all_citations (add_citation_to_step m c t).
Proof.
  split; [|split; apply end_step_citations].
  apply tracker_eq.
  - rewrite end_step_steps, !add_citation_steps, end_step_steps.
    apply update_first_comm; reflexivity || (now intros []).
  - now rewrite end_step_counter, !add_citation_counter, end_step_counter.
Qed.

End LedgerInvariants.

(** ** The citation report *)
Section ReportFacts.
Import Ledger.

Variable json_dumps : pyval -> result string.
Variable format_2f : Q -> string.
Hypothesis json_dumps_total : forall v, exists s, json_dumps v = Ok s.

Lemma citation_lines_cases i c :
  if renderable c then exists ls, citation_lines format_2f i c = Ok ls
  else citation_lines format_2f i c = Raise not_subscriptable.
Proof.
  unfold renderable, citation_lines.
  destruct (truthy (field_name c)), (field_value c); simpl; eauto.
Qed.

Lemma citations_lines_cases cs : forall i,
  if forallb renderable cs
  then exists ls, citations_lines format_2f i cs = Ok ls
  else citations_lines format_2f i cs = Raise not_subscriptable.
Proof.
  induction cs as [|c rest IH]; intros i; simpl; [eauto|].
  pose proof (citation_lines_cases i c) as Hc.
  destruct (renderable c); simpl.
  - destruct Hc as [ls ->]. simpl. specialize (IH (S i)).
    destruct (forallb renderable rest).
    + destruct IH as [more ->]. simpl. eauto.
    + now rewrite IH.
  - now rewrite Hc.
Qed.

Lemma step_lines_cases s :
  if forallb renderable (citations s)
  then exists ls, step_lines json_dumps format_2f s = Ok ls
  else step_lines json_dumps format_2f s = Raise not_subscriptable.
Proof.
  unfold step_lines.
  destruct (json_dumps_total (PDict (input_data s))) as [i ->].
  destruct (json_dumps_total (PDict (output_data s))) as [o ->]. simpl.
  destruct (citations s) as [|c rest] eqn:E; [simpl; eauto|].
  pose proof (citations_lines_cases (c :: rest) 1%nat) as Hc.
  simpl in Hc |- *.
  destruct (renderable c && forallb renderable rest).
  - destruct Hc as [ls ->]. simpl. eauto.
  - now rewrite Hc.
Qed.

Lemma traverse_step_lines_cases l :
  if forallb (fun s => forallb renderable (citations s)) l
  then exists ls, traverse (step_lines json_dumps format_2f) l = Ok ls
  else traverse (step_lines json_dumps format_2f) l = Raise not_subscriptable.
Proof.
  induction l as [|s r IH]; simpl; [eauto|].
  pose proof (step_lines_cases s) as Hs.
  destruct (forallb renderable (citations s)); simpl.
  - destruct Hs as [ls ->]. simpl.
    destruct (forallb _ r).
    + destruct IH as [more ->]. simpl. eauto.
    + now rewrite IH.
  - now rewrite Hs.
Qed.

Lemma forallb_update_first n f l :
  (forall s, forallb renderable (citations s) = true ->
             forallb renderable (citations (f s)) = true) ->
  forallb (fun s => forallb renderable (citations s)) l = true ->
  forallb (fun s => forallb renderable (citations s)) (update_first n f l)
  = true.
Proof.
  intros Hf. induction l as [|s r IH]; simpl; [trivial|].
  intros [H1 H2]%andb_prop. destruct (step_number s =? n); simpl.
  - now rewrite Hf, H2.
  - now rewrite H1, IH.
Qed.

Lemma add_citation_renderable c s :
  renderable c = true ->
  forallb renderable (citations s) = true ->
  forallb renderable (citations (add_citation c s)) = true.
Proof.
  intros Hc Hs. simpl. rewrite forallb_app, Hs. simpl. now rewrite Hc.
Qed.

Lemma step_call_renderable c t :
  cites_renderable c -> all_renderable t = true ->
  all_renderable (fst (step_call c t)) = true.
Proof.
  unfold all_renderable. destruct c; simpl; intros Hc Ht.
  - rewrite forallb_app, Ht. reflexivity.
  - rewrite end_step_steps. now apply forallb_update_first.
  - rewrite add_citation_steps. apply forallb_update_first; [|exact Ht].
    intros s. now apply add_citation_renderable.
  - unfold add_facility_citation. rewrite add_citation_steps.
    apply forallb_update_first; [|exact Ht].
    intros s. apply add_citation_renderable.
    unfold renderable. simpl. apply orb_true_r.
Qed.

Lemma run_renderable cs : forall t,
  Forall cites_renderable cs -> all_renderable t = true ->
  all_renderable (fst (run cs t)) = true.
Proof.
  induction cs as [|c rest IH]; intros t Hcs Ht; simpl; [exact Ht|].
  inversion Hcs as [|? ? Hc Hrest]; subst.
  pose proof (step_call_renderable c t Hc Ht) as H1.
  destruct (step_call c t) as [t1 r]. specialize (IH t1 Hrest H1).
  now destruct (run rest t1).
Qed.

(** X6. When [json.dumps] succeeds on the step data,
    [generate_citation_report] returns a report exactly when every citation
    that names a field also carries a value, and it raises [TypeError]
    otherwise. A ledger built with [start_step], [end_step],
    [add_facility_citation] and such citations only can always be
    rendered. *)
Theorem report_fails_on_field_without_value (t : CitationTracker) :
  ((exists r, generate_citation_report json_dumps format_2f t = Ok r)
   <-> all_renderable t = true)
  /\ (all_renderable t = false ->
      generate_citation_report json_dumps format_2f t
      = Raise not_subscriptable)
  /\ (forall cs, Forall cites_renderable cs ->
        exists r, generate_citation_report json_dumps format_2f
                    (fst (run cs init)) = Ok r).
Proof.
  assert (H : forall t,
            if all_renderable t
            then exists r, generate_citation_report json_dumps format_2f t
                           = Ok r
            else generate_citation_report json_dumps format_2f t
                 = Raise not_subscriptable).
  { intros t0. unfold generate_citation_report, all_renderable.
    pose proof (traverse_step_lines_cases (steps t0)) as Hl.
    destruct (forallb _ (steps t0)).
    - destruct Hl as [ls ->]. simpl. eauto.
    - now rewrite Hl. }
  split; [|split].
  - specialize (H t). destruct (all_renderable t).
    + tauto.
    + rewrite H. split; [intros [r Hr]|]; discriminate.
  - intros E. specialize (H t). now rewrite E in H.
  - intros cs Hcs. specialize (H (fst (run cs init))).
    now rewrite (run_renderable cs init Hcs eq_refl) in H.
Qed.

End ReportFacts.

Lemma report_fails_on_field_without_value_witness :
  Ledger.generate_citation_report Scenario.json_dumps_braces
    Scenario.format_whole ledger_unrenderable
  = Raise not_subscriptable.
Proof.
  apply (report_fails_on_field_without_value Scenario.json_dumps_braces
           Scenario.format_whole
           (fun v => ex_intro _ "{}" eq_refl) ledger_unrenderable).
  vm_compute. reflexivity.
Defined.

(** ** The desert-risk score as a function of the profile *)
Section RiskFacts.
Import Parser.

Lemma risk_base_cases s : risk_base s = 0 \/ risk_base s = 15 \/ risk_base s = 30.
Proof. unfold risk_base. destruct (Qltb s 30), (Qltb s 50); auto. Qed.

Lemma missing_critical_range eq :
  exists k, 0 <= k <= 4 /\ missing_critical_penalty eq = 10 * k.
Proof.
  unfold missing_critical_penalty.
  set (l := List.filter _ _).
  exists (Z.of_nat (length l)). split; [|reflexivity].
  assert (length l <= 4)%nat by apply (List.filter_length_le _ [_; _; _; _]).
  lia.
Qed.

Lemma desert_risk_stored p :
  desert_risk_score (_compute_scores p)
  = inject_Z (Z.min 100
                (risk_base (compute_capability_score p)
                 + gap_penalty (gaps p)
                 + missing_critical_penalty (equipment p))).
Proof.
  unfold _compute_scores. simpl. now rewrite desert_factors_formula.
Qed.

(** X7. The three terms of the desert-risk score can never add up to more
    than 100, so the cap of [_compute_scores] is never active: the score is
    the plain sum of the terms, it is a multiple of 5 between 0 and 100, and
    it is 100 exactly when the capability score is below 30, there are at
    least six gaps, and none of the four critical items is listed. *)
Theorem desert_risk_cap_is_never_active (p : FacilityProfile) :
  let s := capability_score (_compute_scores p) in
  let total := risk_base s + gap_penalty (gaps p)
               + missing_critical_penalty (equipment p) in
  desert_risk_score (_compute_scores p) = inject_Z total
  /\ (exists k, 0 <= k <= 20 /\ total = 5 * k)
  /\ (total = 100 <->
      Qltb s 30 = true /\ (6 <= length (gaps p))%nat
      /\ missing_critical_penalty (equipment p) = 40).
Proof.
  intros s total. unfold total, s. clear total s. rewrite capability_score_stored.
  rewrite desert_risk_stored.
  set (c := compute_capability_score p).
  destruct (missing_critical_range (equipment p)) as (k & Hk & Hm).
  rewrite Hm. unfold gap_penalty.
  assert (Hb : (Qltb c 30 = true /\ risk_base c = 30)
               \/ (Qltb c 30 = false /\ (risk_base c = 0 \/ risk_base c = 15))).
  { unfold risk_base. destruct (Qltb c 30), (Qltb c 50); auto. }
  split; [|split].
  - f_equal. destruct (risk_base_cases c) as [H|[H|H]]; rewrite H; lia.
  - destruct Hb as [[_ Hb]|[_ [Hb|Hb]]]; rewrite Hb.
    + destruct (Z.le_ge_cases 30 (5 * Z.of_nat (length (gaps p)))).
      * exists (12 + 2 * k). lia.
      * exists (6 + Z.of_nat (length (gaps p)) + 2 * k). lia.
    + destruct (Z.le_ge_cases 30 (5 * Z.of_nat (length (gaps p)))).
      * exists (6 + 2 * k). lia.
      * exists (Z.of_nat (length (gaps p)) + 2 * k). lia.
    + destruct (Z.le_ge_cases 30 (5 * Z.of_nat (length (gaps p)))).
      * exists (9 + 2 * k). lia.
      * exists (3 + Z.of_nat (length (gaps p)) + 2 * k). lia.
  - destruct Hb as [[Hlt Hb]|[Hlt Hb]]; rewrite Hlt.
    + rewrite Hb. split; [intros H; repeat split; lia | intros (_ & H1 & H2); lia].
    + split; [lia | intros [H _]; discriminate].
Qed.

Lemma same_capability_score p p' :
  same_capabilities p p' ->
  compute_capability_score p' = compute_capability_score p.
Proof.
  intros (H1 & H2 & H3 & H4). unfold compute_capability_score.
  now rewrite H1, H2, H3, H4.
Qed.

(** X8. For two profiles with the same lists and facility type, the one
    with more gaps never has the lower desert-risk score, the difference is
    at most 30, and from six gaps on an additional gap changes nothing. *)
Theorem more_gaps_never_lower_the_risk (p p' : FacilityProfile) :
  same_capabilities p p' ->
  (length (gaps p) <= length (gaps p'))%nat ->
  (desert_risk_score (_compute_scores p)
   <= desert_risk_score (_compute_scores p'))%Q
  /\ (desert_risk_score (_compute_scores p')
      <= desert_risk_score (_compute_scores p) + 30)%Q
  /\ ((6 <= length (gaps p))%nat ->
      desert_risk_score (_compute_scores p')
      = desert_risk_score (_compute_scores p)).
Proof.
  intros Hsame Hlen. rewrite !desert_risk_stored.
  rewrite (same_capability_score _ _ Hsame).
  destruct Hsame as (_ & _ & -> & _).
  set (b := risk_base _). set (m := missing_critical_penalty _).
  unfold gap_penalty. split; [|split].
  - rewrite <- Zle_Qle. lia.
  - change 30%Q with (inject_Z 30). rewrite <- inject_Z_plus, <- Zle_Qle. lia.
  - intros H6. f_equal. lia.
Qed.

Lemma more_gaps_never_lower_the_risk_witness :
  desert_risk_score (_compute_scores district_profile_many_gaps)
  = desert_risk_score
      (_compute_scores
         (set_issues ["a"; "b"; "c"; "d"; "e"; "f"] [] []
            Scenario.district_profile)).
Proof.
  apply (more_gaps_never_lower_the_risk
           (set_issues ["a"; "b"; "c"; "d"; "e"; "f"] [] []
              Scenario.district_profile)
           district_profile_many_gaps).
  - repeat split.
  - simpl. lia.
  - simpl. lia.
Defined.

End RiskFacts.

(** ** What [extract_capabilities] puts in a profile *)
Section ProfileFacts.
Import Parser.

Lemma extract_capabilities_stages row :
  extract_capabilities row
  = (p ← _detect_gaps (unscored_profile row) (combined_text row)
           (row_facility_id row);
     Ok (_compute_scores p)).
Proof. reflexivity. Qed.

Lemma extract_capabilities_inv row p :
  extract_capabilities row = Ok p ->
  exists shortages,
    shortage_gaps (PyStr.lower (combined_text row)) = Ok shortages
    /\ p = _compute_scores
             (set_issues
                (shortages
                 ++ critical_gaps_of (PyStr.lower (combined_text row)))
                shortages (suspicious_of (unscored_profile row))
                (unscored_profile row)).
Proof.
  rewrite extract_capabilities_stages. unfold _detect_gaps.
  destruct (shortage_gaps _) as [sh|e]; simpl; [|discriminate].
  intros [= <-]. exists sh. split; [reflexivity|].
  assert (H : forall q, gaps q = [] -> urgent_needs q = [] ->
                        suspicious_claims q = [] ->
                        gaps (_extract_from_notes q (row_staff_notes row)
                                (row_facility_id row)) = []
                        /\ urgent_needs
                             (_extract_from_notes q (row_staff_notes row)
                                (row_facility_id row)) = []
                        /\ suspicious_claims
                             (_extract_from_notes q (row_staff_notes row)
                                (row_facility_id row)) = []).
  { intros q H1 H2 H3. unfold _extract_from_notes.
    destruct (_ || _); simpl; auto. }
  destruct (H (_extract_structured_fields (blank_profile row)
                 (row_specialties row) (row_equipment row)
                 (row_procedures row) (row_facility_id row))
              eq_refl eq_refl eq_refl) as (H1 & H2 & H3).
  fold (unscored_profile row) in H1, H2, H3. now rewrite H1, H2, H3.
Qed.

Lemma unscored_lists row :
  specialties (unscored_profile row) = column_items (row_specialties row)
  /\ equipment (unscored_profile row) = column_items (row_equipment row)
  /\ procedures (unscored_profile row) = column_items (row_procedures row)
  /\ facility_type (unscored_profile row) = row_facility_type row.
Proof.
  unfold unscored_profile, _extract_from_notes, column_items.
  destruct (_ || _); simpl;
    destruct (String.eqb (row_specialties row) ""),
             (String.eqb (row_equipment row) ""),
             (String.eqb (row_procedures row) ""); simpl; auto.
Qed.

Lemma split_acc_length sep s : forall cur,
  length (PyStr.split_acc sep cur s)
  = S (length (List.filter (fun c => Ascii.eqb c sep)
                 (list_ascii_of_string s))).
Proof.
  induction s as [|c r IH]; intros cur; simpl; [reflexivity|].
  destruct (Ascii.eqb c sep); simpl; now rewrite IH.
Qed.

(** X9. In a profile returned by [extract_capabilities], the three name
    lists hold exactly the stripped comma-separated items of the structured
    columns, an empty cell giving no item and any other cell one item more
    than it has commas, whatever the notes say; the identifying fields are
    those of the row; and the capability score is the capped product, in
    floats, of the weighted count of these items and the weight of the type
    of facility. *)
Theorem profile_lists_come_from_columns (row : FacilityRow)
    (p : FacilityProfile) :
  extract_capabilities row = Ok p ->
  specialties p = column_items (row_specialties row)
  /\ equipment p = column_items (row_equipment row)
  /\ procedures p = column_items (row_procedures row)
  /\ (forall cell, cell <> "" ->
        length (column_items cell) = S (commas cell))
  /\ (facility_id p, facility_name p, region p, district p, facility_type p)
     = (row_facility_id row, row_facility_name row, row_region row,
        row_district row, row_facility_type row)
  /\ coordinates p = (row_latitude row, row_longitude row)
  /\ capability_score p
     = Qmin 100
         (PyFloat.mul
            (PyFloat.of_int
               (5 * Z.of_nat (length (column_items (row_specialties row)))
                + 3 * Z.of_nat (length (column_items (row_equipment row)))
                + 2 * Z.of_nat (length (column_items (row_procedures row)))))
            (PyFloat.nearest (type_weight (row_facility_type row)))).
Proof.
  intros H. apply extract_capabilities_inv in H as (sh & _ & ->).
  destruct (unscored_lists row) as (H1 & H2 & H3 & H4).
  rewrite capability_score_closed_form.
  cbn [_compute_scores set_scores set_issues specialties equipment procedures
       facility_type facility_id facility_name region district coordinates].
  rewrite H1, H2, H3, H4.
  split; [reflexivity|]. split; [reflexivity|]. split; [reflexivity|].
  split; [|split; [|split; [|reflexivity]]].
  - intros cell Hne. unfold column_items, commas.
    apply String.eqb_neq in Hne. rewrite Hne.
    unfold structured_items, PyStr.split.
    now rewrite List.length_map, split_acc_length.
  - unfold unscored_profile, _extract_from_notes.
    destruct (_ || _); reflexivity.
  - unfold unscored_profile, _extract_from_notes.
    destruct (_ || _); reflexivity.
Qed.

Lemma profile_lists_come_from_columns_witness :
  exists p,
    extract_capabilities Scenario.noted_row = Ok p
    /\ specialties p = ["Cardiology"; "General Surgery"]
    /\ equipment p = ["CT Scanner"; "ICU"]
    /\ procedures p = [].
Proof.
  destruct (extract_capabilities Scenario.noted_row) as [p|e] eqn:E;
    [|vm_compute in E; discriminate].
  exists p. split; [reflexivity|].
  destruct (profile_lists_come_from_columns _ _ E) as (H1 & H2 & H3 & _).
  rewrite H1, H2, H3. repeat split.
Defined.

Lemma structured_capabilities_spec kind cell fid :
  In kind ["specialty"; "equipment"; "procedure"] ->
  List.map MedicalCapability.name (structured_capabilities kind cell fid)
  = structured_items cell
  /\ Forall (from_column fid) (structured_capabilities kind cell fid).
Proof.
  intros Hk. unfold structured_capabilities. split.
  - rewrite List.map_map. simpl. apply List.map_id.
  - apply List.Forall_forall. intros c [item [<- _]]%List.in_map_iff.
    now repeat split.
Qed.

Lemma note_specialties_spec q notes fid :
  Forall (from_notes fid notes) (note_specialties q notes fid).
Proof.
  unfold note_specialties. apply List.Forall_forall.
  intros c [pat [_ [m [_ Hc]]%List.in_flat_map]]%List.in_flat_map.
  destruct (PyStr.mem _ _); [destruct Hc|].
  destruct Hc as [<-|[]]. split; [reflexivity|]. left. now repeat split.
Qed.

Lemma note_equipment_spec notes fid :
  Forall (from_notes fid notes) (note_equipment notes fid).
Proof.
  unfold note_equipment. apply List.Forall_forall.
  intros c [pat [_ [m [<- _]]%List.in_map_iff]]%List.in_flat_map.
  split; [reflexivity|]. right. simpl. repeat split.
  destruct (_ || _); [now left|].
  destruct (PyStr.contains _ _); [right; now left | right; right; now left].
Qed.

(** X10. The capability list of a profile returned by
    [extract_capabilities] starts with one capability per item of the three
    name lists, in their order, each with status [available] and confidence
    0.95; the capabilities that follow come from the notes, are specialties
    with status [mentioned] and confidence 0.7 or equipment with confidence
    0.8, and there are none when the notes are empty or read [nan]. Every
    capability carries the facility id of the row. *)
Theorem capabilities_follow_the_lists (row : FacilityRow)
    (p : FacilityProfile) :
  extract_capabilities row = Ok p ->
  exists listed noted,
    capabilities p = listed ++ noted
    /\ List.map MedicalCapability.name listed
       = specialties p ++ equipment p ++ procedures p
    /\ Forall (from_column (row_facility_id row)) listed
    /\ Forall (from_notes (row_facility_id row) (row_staff_notes row)) noted
    /\ (row_staff_notes row = "" \/ row_staff_notes row = "nan" ->
        noted = []).
Proof.
  intros H. apply extract_capabilities_inv in H as (sh & _ & ->). simpl.
  destruct (unscored_lists row) as (H1 & H2 & H3 & _). rewrite H1, H2, H3.
  set (fid := row_facility_id row).
  set (caps := fun kind cell =>
         if negb (String.eqb cell "")
         then structured_capabilities kind cell fid else []).
  assert (Hcaps : forall kind cell,
            In kind ["specialty"; "equipment"; "procedure"] ->
            List.map MedicalCapability.name (caps kind cell)
            = column_items cell
            /\ Forall (from_column fid) (caps kind cell)).
  { intros kind cell Hk. unfold caps, column_items.
    destruct (String.eqb cell ""); simpl; [now split|].
    now apply structured_capabilities_spec. }
  destruct (Hcaps "specialty" (row_specialties row)) as [N1 F1];
    [simpl; tauto|].
  destruct (Hcaps "equipment" (row_equipment row)) as [N2 F2];
    [simpl; tauto|].
  destruct (Hcaps "procedure" (row_procedures row)) as [N3 F3];
    [simpl; tauto|].
  exists (caps "specialty" (row_specialties row)
          ++ caps "equipment" (row_equipment row)
          ++ caps "procedure" (row_procedures row)).
  pose (q := _extract_structured_fields (blank_profile row)
                (row_specialties row) (row_equipment row)
                (row_procedures row) fid).
  assert (Hq : capabilities q
               = caps "specialty" (row_specialties row)
                 ++ caps "equipment" (row_equipment row)
                 ++ caps "procedure" (row_procedures row)) by reflexivity.
  exists (if String.eqb (row_staff_notes row) ""
             || String.eqb (row_staff_notes row) "nan"
          then []
          else note_specialties q (row_staff_notes row) fid
               ++ note_equipment (row_staff_notes row) fid).
  split; [|split; [|split; [|split]]].
  - change (unscored_profile row)
      with (_extract_from_notes q (row_staff_notes row) fid).
    unfold _extract_from_notes. destruct (_ || _).
    + rewrite List.app_nil_r. exact Hq.
    + unfold set_capabilities. cbn [capabilities]. rewrite Hq.
      now rewrite <- !List.app_assoc.
  - now rewrite !List.map_app, N1, N2, N3.
  - repeat (apply List.Forall_app; split); assumption.
  - destruct (_ || _); [constructor|].
    apply List.Forall_app. split;
      [apply note_specialties_spec | apply note_equipment_spec].
  - intros [E|E]; rewrite E; reflexivity.
Qed.

Lemma capabilities_follow_the_lists_witness :
  exists p listed noted,
    extract_capabilities Scenario.mri_row = Ok p
    /\ capabilities p = listed ++ noted
    /\ length listed = 3%nat.
Proof.
  destruct (extract_capabilities Scenario.mri_row) as [p|e] eqn:E;
    [|vm_compute in E; discriminate].
  destruct (capabilities_follow_the_lists _ _ E)
    as (listed & noted & H1 & H2 & _).
  exists p, listed, noted. split; [reflexivity|]. split; [exact H1|].
  rewrite <- (List.length_map MedicalCapability.name), H2.
  vm_compute in E. injection E as <-. reflexivity.
Defined.

Lemma flat_map_length_le {A B : Type} (f : A -> list B) (l : list A) :
  (forall x, length (f x) <= 1)%nat ->
  (length (List.flat_map f l) <= length l)%nat.
Proof.
  intros Hf. induction l as [|x r IH]; simpl; [lia|].
  rewrite List.length_app. specialize (Hf x). lia.
Qed.

(** X11. In a profile returned by [extract_capabilities], every urgent need
    is also a gap: the gaps are the urgent needs followed by at most four
    gaps about critical equipment, each of them for an item that the text
    mentions. Suspicious claims are only raised for a District Hospital,
    and there are at most three of them. *)
Theorem urgent_needs_are_the_first_gaps (row : FacilityRow)
    (p : FacilityProfile) :
  extract_capabilities row = Ok p ->
  exists critical,
    gaps p = urgent_needs p ++ critical
    /\ (length critical <= 4)%nat
    /\ Forall
         (fun g =>
            exists e,
              In e critical_equipment
              /\ PyStr.contains (PyStr.lower e)
                   (PyStr.lower (combined_text row)) = true
              /\ (g = "No " +:+ e \/ g = e +:+ " broken/awaiting repair"))
         critical
    /\ (row_facility_type row <> "District Hospital" ->
        suspicious_claims p = [])
    /\ (length (suspicious_claims p) <= 3)%nat.
Proof.
  intros H. apply extract_capabilities_inv in H as (sh & _ & ->). simpl.
  exists (critical_gaps_of (PyStr.lower (combined_text row))).
  split; [reflexivity|]. split; [|split; [|split]].
  - apply (flat_map_length_le _ [_; _; _; _]). intros e. cbv beta zeta.
    destruct (PyStr.contains _ _); [|simpl; lia].
    destruct (Regex.found _); [simpl; lia|].
    destruct (Regex.found _); simpl; lia.
  - apply List.Forall_forall. intros g [e [He Hg]]%List.in_flat_map.
    exists e. split; [exact He|]. cbv beta zeta in Hg.
    destruct (PyStr.contains _ _); [|destruct Hg]. split; [reflexivity|].
    destruct (Regex.found _); [destruct Hg as [<-|[]]; now left|].
    destruct (Regex.found _); [destruct Hg as [<-|[]]; now right|destruct Hg].
  - intros Hne. unfold suspicious_of.
    destruct (unscored_lists row) as (_ & _ & _ & ->).
    apply String.eqb_neq in Hne. now rewrite Hne.
  - unfold suspicious_of. destruct (String.eqb _ _); [|simpl; lia].
    apply (flat_map_length_le _ [_; _; _]). intros e. cbv beta.
    destruct (any_contains _ _); simpl; lia.
Qed.

Lemma urgent_needs_are_the_first_gaps_witness :
  exists p, extract_capabilities Scenario.noted_row = Ok p
            /\ (length (gaps p) <= length (urgent_needs p) + 4)%nat.
Proof.
  destruct (extract_capabilities Scenario.noted_row) as [p|e] eqn:E;
    [|vm_compute in E; discriminate].
  exists p. split; [reflexivity|].
  destruct (urgent_needs_are_the_first_gaps _ _ E) as (c & -> & Hc & _).
  rewrite List.length_app. lia.
Defined.

End ProfileFacts.

(** ** Groups that every match captures *)
Section RegexFacts.
Import Regex.

Lemma star_greedy_cont {A : Type} ic c s :
  forall pos cp (k : @cont A) a,
    star_greedy ic c s pos cp k = Some a ->
    exists s' pos', k s' pos' cp = Some a.
Proof.
  induction s as [|x r IH]; intros pos cp k a; simpl; [eauto|].
  destruct (match_char ic c x); [|eauto].
  destruct (star_greedy ic c r (S pos) cp k) eqn:E; [|eauto].
  intros [= ->]. eapply IH. exact E.
Qed.

Lemma star_lazy_cont {A : Type} ic c s :
  forall pos cp (k : @cont A) a,
    star_lazy ic c s pos cp k = Some a ->
    exists s' pos', k s' pos' cp = Some a.
Proof.
  induction s as [|x r IH]; intros pos cp k a; simpl.
  - destruct (k "" pos cp) eqn:E; [intros [= ->]; eauto | discriminate].
  - destruct (k (String x r) pos cp) eqn:E; [intros [= ->]; eauto|].
    destruct (match_char ic c x); [apply IH | discriminate].
Qed.

(** A successful run ends in its continuation, with the groups captured on
    the way added in front of those it started with. *)
Lemma run_captures {A : Type} ic i r :
  forall s pos cp (k : @cont A) a,
    run ic r s pos cp k = Some a ->
    exists s' pos' new,
      k s' pos' (new ++ cp) = Some a
      /\ (always_captures i r = true -> In i (List.map fst new)).
Proof.
  induction r as [|c|r1 IH1 r2 IH2|r1 IH1 r2 IH2|g c|r1 IH1|j r1 IH1];
    intros s pos cp k a; simpl.
  - intros H. exists s, pos, []. split; [exact H | discriminate].
  - destruct s as [|x s']; [discriminate|].
    destruct (match_char ic c x); [|discriminate].
    intros H. exists s', (S pos), []. split; [exact H | discriminate].
  - intros H. apply IH1 in H as (s1 & p1 & n1 & H & C1).
    apply IH2 in H as (s2 & p2 & n2 & H & C2).
    exists s2, p2, (n2 ++ n1). split; [now rewrite <- List.app_assoc|].
    intros [E|E]%orb_prop; rewrite List.map_app, List.in_app_iff; auto.
  - destruct (run ic r1 s pos cp k) eqn:E.
    + intros [= ->]. apply IH1 in E as (s1 & p1 & n1 & H & C1).
      exists s1, p1, n1. split; [exact H|].
      intros [E1 _]%andb_prop. auto.
    + intros H. apply IH2 in H as (s2 & p2 & n2 & H & C2).
      exists s2, p2, n2. split; [exact H|].
      intros [_ E2]%andb_prop. auto.
  - intros H.
    assert (H' : exists s' pos', k s' pos' cp = Some a).
    { destruct g; [eapply star_greedy_cont | eapply star_lazy_cont];
        exact H. }
    destruct H' as (s' & p' & H'). exists s', p', [].
    split; [exact H' | discriminate].
  - destruct (run ic r1 s pos cp k) eqn:E.
    + intros [= ->]. apply IH1 in E as (s1 & p1 & n1 & H & _).
      exists s1, p1, n1. split; [exact H | discriminate].
    + intros H. exists s, pos, []. split; [exact H | discriminate].
  - intros H. apply IH1 in H as (s1 & p1 & n1 & H & C1).
    exists s1, p1, ((j, String.substring 0 (p1 - pos) s) :: n1).
    split; [exact H|]. simpl.
    intros [E|E]%orb_prop; [left; now apply Nat.eqb_eq | right; auto].
Qed.

Lemma find_group i (cp : captures) :
  In i (List.map fst cp) ->
  exists g, List.find (fun g => Nat.eqb (fst g) i) cp = Some g.
Proof.
  induction cp as [|[j x] r IH]; simpl; [tauto|].
  destruct (Nat.eqb_spec j i); [eauto|].
  intros [E|H]; [congruence | auto].
Qed.

Lemma match_at_captures ic i r s pos m :
  always_captures i r = true ->
  match_at ic r s pos = Some m -> captured i m = true.
Proof.
  intros Hi H. unfold match_at in H.
  apply (run_captures ic i) in H as (s' & p' & new & [= <-] & C).
  unfold captured, group. simpl. rewrite List.app_nil_r.
  destruct (find_group i new (C Hi)) as [g ->]. reflexivity.
Qed.

Lemma scan_matches ic r s : forall pos skip,
  Forall (fun m => exists s' pos', match_at ic r s' pos' = Some m)
    (scan ic r s pos skip).
Proof.
  induction s as [|x s' IH]; intros pos skip; simpl.
  - destruct skip; [|constructor].
    destruct (match_at ic r "" pos) eqn:E; constructor; eauto.
  - destruct skip; [|apply IH].
    destruct (match_at ic r (String x s') pos) eqn:E; [|apply IH].
    constructor; [eauto | apply IH].
Qed.

(** Every match that [finditer] yields has captured the groups that the
    pattern always captures. *)
Lemma finditer_captures ic i r s :
  always_captures i r = true ->
  forallb (captured i) (finditer ic r s) = true.
Proof.
  intros Hi. apply List.forallb_forall. intros m Hm.
  pose proof (scan_matches ic r s 0 0) as H.
  rewrite List.Forall_forall in H. destruct (H m Hm) as (s' & p' & E).
  eapply match_at_captures; eassumption.
Qed.

End RegexFacts.

(** ** When gap detection fails *)
Section GapErrors.
Import Regex Parser.

Lemma traverse_cases {A B : Type} (f : A -> result B) (ok : A -> bool)
    (e : PyException) (l : list A) :
  (forall x, In x l -> if ok x then exists y, f x = Ok y
                       else f x = Raise e) ->
  if forallb ok l then exists ys, traverse f l = Ok ys
  else traverse f l = Raise e.
Proof.
  induction l as [|x r IH]; intros H; simpl; [eauto|].
  pose proof (H x (or_introl eq_refl)) as Hx.
  destruct (ok x); simpl.
  - destruct Hx as [y ->]. simpl.
    specialize (IH (fun z Hz => H z (or_intror Hz))).
    destruct (forallb ok r).
    + destruct IH as [ys ->]. simpl. eauto.
    + now rewrite IH.
  - now rewrite Hx.
Qed.

Lemma shortage_gap_cases pt m :
  In pt shortage_indicators ->
  if captured (stripped_group (fst pt)) m
  then exists g, shortage_gap (fst pt) (snd pt) m = Ok g
  else shortage_gap (fst pt) (snd pt) m = Raise none_has_no_strip.
Proof.
  intros Hpt. unfold captured.
  repeat (destruct Hpt as [<-|Hpt]); [..|destruct Hpt];
    unfold shortage_gap, stripped_group; simpl fst; simpl snd;
    simpl ngroups; simpl Nat.eqb; cbv iota;
    match goal with
    | |- context [group ?i m] => destruct (group i m)
    end; simpl; eauto.
Qed.

Lemma shortage_gaps_cases text :
  if forallb (captured 2) (finditer false no_staff_pattern text)
  then exists sh, shortage_gaps text = Ok sh
  else shortage_gaps text = Raise none_has_no_strip.
Proof.
  unfold shortage_gaps.
  pose proof (traverse_cases
                (fun pt : regex * string =>
                   traverse (shortage_gap (fst pt) (snd pt))
                     (finditer false (fst pt) text))
                (fun pt => forallb (captured (stripped_group (fst pt)))
                             (finditer false (fst pt) text))
                none_has_no_strip shortage_indicators) as H.
  assert (Hok : forallb
                  (fun pt => forallb (captured (stripped_group (fst pt)))
                               (finditer false (fst pt) text))
                  shortage_indicators
                = forallb (captured 2)
                    (finditer false no_staff_pattern text)).
  { unfold shortage_indicators. cbn [forallb fst].
    repeat match goal with
           | |- context [forallb (captured (stripped_group ?p))
                           (finditer false ?p text)] =>
               rewrite (finditer_captures false (stripped_group p) p text)
                 by reflexivity
           end.
    cbn [andb]. rewrite andb_true_r. reflexivity. }
  rewrite Hok in H.
  assert (Hin : forall pt, In pt shortage_indicators ->
            if forallb (captured (stripped_group (fst pt)))
                 (finditer false (fst pt) text)
            then exists y, traverse (shortage_gap (fst pt) (snd pt))
                             (finditer false (fst pt) text) = Ok y
            else traverse (shortage_gap (fst pt) (snd pt))
                   (finditer false (fst pt) text) = Raise none_has_no_strip).
  { intros pt Hpt. apply traverse_cases. intros m _.
    now apply shortage_gap_cases. }
  specialize (H Hin).
  destruct (forallb (captured 2) _).
  - destruct H as [ls ->]. simpl. eauto.
  - now rewrite H.
Qed.

(** X12. [_detect_gaps], which [extract_capabilities] applies to the text
    of the four columns, returns exactly when every match of the pattern
    [no (.*?) on (permanent )?staff] in the lower-cased text includes the
    word [permanent]; when some match lacks it, the optional group is
    [None], [strip] is called on it, and the call raises [AttributeError].
    No other exception is raised. *)
Theorem detect_gaps_raises_iff (p : FacilityProfile) (text fid : string) :
  let matches := finditer false no_staff_pattern (PyStr.lower text) in
  In (no_staff_pattern, "No {} on staff") shortage_indicators
  /\ ((exists p', _detect_gaps p text fid = Ok p')
      <-> forallb (captured 2) matches = true)
  /\ (forallb (captured 2) matches = false ->
      _detect_gaps p text fid = Raise none_has_no_strip)
  /\ (forall e, _detect_gaps p text fid = Raise e -> e = none_has_no_strip).
Proof.
  intros matches. split; [simpl; tauto|].
  unfold _detect_gaps.
  pose proof (shortage_gaps_cases (PyStr.lower text)) as H.
  fold matches in H. destruct (forallb (captured 2) matches).
  - destruct H as [sh ->]. simpl. split; [|split].
    + split; [reflexivity | eauto].
    + discriminate.
    + discriminate.
  - rewrite H. simpl. split; [|split].
    + split; [intros [p' Hp]|]; discriminate.
    + reflexivity.
    + now intros e [= <-].
Qed.

End GapErrors.

Lemma detect_gaps_raises_iff_witness :
  Parser._detect_gaps (unscored_profile Scenario.unstaffed_row)
    (combined_text Scenario.unstaffed_row) "FAC003"
  = Raise none_has_no_strip.
Proof.
  apply (detect_gaps_raises_iff (unscored_profile Scenario.unstaffed_row)
           (combined_text Scenario.unstaffed_row) "FAC003").
  vm_compute. reflexivity.
Defined.

(** ** The ranking of regions *)
Section RankingFacts.
Import Parser.

Lemma desert_entries_regions threshold d r :
  In r (List.map DesertEntry.region (desert_entries threshold d)) ->
  In r (List.map fst d).
Proof.
  intros [e [<- He]]%List.in_map_iff.
  apply desert_entries_in in He as (r' & fs & Hin & _ & ->). simpl.
  apply List.in_map_iff. now exists (r', fs).
Qed.

Lemma desert_entries_nodup threshold d :
  List.NoDup (List.map fst d) ->
  List.NoDup (List.map DesertEntry.region (desert_entries threshold d)).
Proof.
  induction d as [|[r fs] rest IH]; simpl; [constructor|].
  intros H. inversion H as [|? ? Hnotin Hrest]; subst.
  change (desert_entries threshold ((r, fs) :: rest))
    with ((if Qle_bool threshold (average_risk fs)
           then [entry_of r fs] else [])
          ++ desert_entries threshold rest).
  destruct (Qle_bool _ _); simpl; [|auto].
  constructor; [|auto].
  intros Hin. apply Hnotin. eapply desert_entries_regions. exact Hin.
Qed.

(** X13. The list returned by [identify_medical_deserts] is in
    non-increasing order of desert-risk score, names every region at most
    once, and each of its entries aggregates all the facilities of its
    region: it holds a score that reaches the threshold, their count, their
    names in input order, the sum of their gap counts and the set of their
    gaps. For whole-number scores, the score of an entry is the double
    nearest to the average of the scores of its facilities. An empty input
    gives an empty list. *)
Theorem deserts_are_ranked_by_region (profiles : list FacilityProfile)
    (threshold : Q) :
  let out := identify_medical_deserts profiles threshold in
  descending out
  /\ List.NoDup (List.map DesertEntry.region out)
  /\ Forall
       (fun d =>
          let fs := facilities_of (DesertEntry.region d) profiles in
          fs <> []
          /\ (threshold <= DesertEntry.desert_risk_score d)%Q
          /\ DesertEntry.facility_count d = length fs
          /\ DesertEntry.facilities d = List.map facility_name fs
          /\ DesertEntry.total_gaps d
             = list_sum (List.map (fun f => length (gaps f)) fs)
          /\ DesertEntry.critical_gaps d
             = list_to_set (List.flat_map gaps fs))
       out
  /\ (whole_risks profiles ->
      Forall
        (fun d =>
           DesertEntry.desert_risk_score d
           = PyFloat.nearest (mean (risks_of (DesertEntry.region d) profiles)))
        out)
  /\ (identify_medical_deserts [] threshold = []).
Proof.
  intros out. split; [apply sorted_desc_descending|].
  split; [|split; [|split; [|reflexivity]]].
  - unfold out, identify_medical_deserts.
    rewrite (sorted_desc_perm _). apply desert_entries_nodup.
    apply (fold_region_nodup profiles []). constructor.
  - apply List.Forall_forall. intros d Hd.
    apply identify_medical_deserts_in in Hd as (r & Hne & Hle & ->).
    simpl. now repeat split.
  - intros _. apply List.Forall_forall. intros d Hd.
    apply identify_medical_deserts_in in Hd as (r & Hne & Hle & ->).
    simpl. apply average_risk_mean.
Qed.

Lemma deserts_are_ranked_by_region_witness :
  Forall
    (fun d =>
       DesertEntry.desert_risk_score d
       = PyFloat.nearest
           (mean (risks_of (DesertEntry.region d) Scenario.region_below)))
    (identify_medical_deserts Scenario.region_below threshold_at_quotient).
Proof.
  apply (deserts_are_ranked_by_region Scenario.region_below
           threshold_at_quotient).
  repeat constructor; eexists; reflexivity.
Defined.

Lemma fold_Qplus_bounds (lo hi : Q) xs : forall acc,
  Forall (fun x => lo <= x <= hi)%Q xs ->
  (acc + inject_Z (Z.of_nat (length xs)) * lo
   <= List.fold_left Qplus xs acc
   <= acc + inject_Z (Z.of_nat (length xs)) * hi)%Q.
Proof.
  induction xs as [|x r IH]; intros acc H.
  - cbn [length fold_left]. change (inject_Z (Z.of_nat 0)) with 0%Q.
    split; lra.
  - inversion H as [|? ? Hx Hr]; subst. specialize (IH (acc + x)%Q Hr).
    simpl fold_left. 
    replace (Z.of_nat (length (x :: r))) with (Z.of_nat (length r) + 1)
      by (simpl length; lia).
    rewrite inject_Z_plus. change (inject_Z 1) with 1%Q. split; lra.
Qed.

(** The quotient of an exact sum by the number of its terms, rounded, stays
    between two doubles that bound the terms. *)
Lemma truediv_bounds (lo hi : Q) xs :
  PyFloat.nearest lo = lo -> PyFloat.nearest hi = hi ->
  xs <> [] ->
  Forall (fun x => lo <= x <= hi)%Q xs ->
  (lo <= PyFloat.truediv (Qsum xs) (Z.of_nat (length xs)) <= hi)%Q.
Proof.
  intros Hlo Hhi Hne H. unfold PyFloat.truediv, Qsum.
  apply (nearest_range lo hi _ Hlo Hhi).
  assert (Hn : (0 < inject_Z (Z.of_nat (length xs)))%Q).
  { change 0%Q with (inject_Z 0). rewrite <- Zlt_Qlt.
    destruct xs; [congruence | simpl; lia]. }
  pose proof (fold_Qplus_bounds lo hi xs 0%Q H) as [H1 H2].
  split.
  - apply Qle_shift_div_l; [exact Hn | lra].
  - apply Qle_shift_div_r; [exact Hn | lra].
Qed.

Lemma average_risk_bounds (lo hi : Q) fs :
  PyFloat.nearest lo = lo -> PyFloat.nearest hi = hi ->
  fs <> [] ->
  Forall (fun p => lo <= desert_risk_score p <= hi)%Q fs ->
  (lo <= average_risk fs <= hi)%Q.
Proof.
  intros Hlo Hhi Hne H. unfold average_risk.
  rewrite <- (List.length_map desert_risk_score).
  apply truediv_bounds; [exact Hlo | exact Hhi | |].
  - destruct fs; [congruence | discriminate].
  - now apply List.Forall_map.
Qed.

Lemma facilities_of_Forall (P : FacilityProfile -> Prop) r profiles :
  Forall P profiles -> Forall P (facilities_of r profiles).
Proof.
  intros H. apply List.Forall_forall. intros p [Hp _]%List.filter_In.
  rewrite List.Forall_forall in H. auto.
Qed.

(** X14. Raising the threshold of [identify_medical_deserts] can only
    remove entries. When every desert-risk score lies in [0, 100], a
    threshold above 100 yields no entry, and a threshold of 0 or less
    yields an entry for the region of every profile. *)
Theorem higher_threshold_fewer_deserts (profiles : list FacilityProfile)
    (t1 t2 : Q) :
  (t1 <= t2)%Q ->
  (forall d, In d (identify_medical_deserts profiles t2) ->
             In d (identify_medical_deserts profiles t1))
  /\ (Forall (fun p => 0 <= desert_risk_score p <= 100)%Q profiles ->
      ((100 < t2)%Q -> identify_medical_deserts profiles t2 = [])
      /\ ((t1 <= 0)%Q ->
          forall p, In p profiles ->
            exists d, In d (identify_medical_deserts profiles t1)
                      /\ DesertEntry.region d = region p)).
Proof.
  intros Hle. split; [|intros Hall; split].
  - intros d Hd. apply identify_medical_deserts_in in Hd
      as (r & Hne & Hth & ->).
    apply identify_medical_deserts_in. exists r. repeat split; [exact Hne|].
    eapply Qle_trans; eassumption.
  - intros Hhi.
    destruct (identify_medical_deserts profiles t2) as [|d l] eqn:E;
      [reflexivity|].
    assert (Hd : In d (identify_medical_deserts profiles t2))
      by (rewrite E; now left).
    apply identify_medical_deserts_in in Hd as (r & Hne & Hth & _).
    pose proof (average_risk_bounds 0 100 _ eq_refl nearest_100 Hne
                  (facilities_of_Forall _ r _ Hall)) as [_ Hb].
    exfalso. lra.
  - intros Hlo p Hp.
    assert (Hne : facilities_of (region p) profiles <> []).
    { apply facilities_of_nonempty. now exists p. }
    exists (entry_of (region p) (facilities_of (region p) profiles)).
    split; [|reflexivity].
    apply identify_medical_deserts_in. exists (region p).
    repeat split; [exact Hne|].
    pose proof (average_risk_bounds 0 100 _ eq_refl nearest_100 Hne
                  (facilities_of_Forall _ (region p) _ Hall)) as [Hb _].
    lra.
Qed.

Lemma higher_threshold_fewer_deserts_witness :
  identify_medical_deserts Scenario.region_at 101 = []
  /\ exists d, In d (identify_medical_deserts Scenario.region_at 0)
               /\ DesertEntry.region d = "Northern".
Proof.
  assert (Hle : (0 <= 101)%Q) by discriminate.
  assert (Hall : Forall (fun p => 0 <= desert_risk_score p <= 100)%Q
                   Scenario.region_at).
  { repeat constructor; discriminate. }
  destruct (higher_threshold_fewer_deserts Scenario.region_at 0 101 Hle)
    as [_ H].
  destruct (H Hall) as [H1 H2]. split.
  - apply H1. reflexivity.
  - apply (H2 ltac:(discriminate)
              (Scenario.scored_profile "F1" "A" "Northern" 80)).
    now left.
Defined.

End RankingFacts.

(** ** When deduplication and extraction fail *)
Section DedupErrors.
Import Extraction.

Lemma py_lower_raises v e :
  py_lower v = Raise e -> exn_class e = "AttributeError".
Proof. destruct v; simpl; try discriminate; now intros [= <-]. Qed.

Lemma dedup_loop_raises capabilities : forall seen e,
  dedup_loop capabilities seen = Raise e ->
  exists c, In c capabilities /\ py_lower (name c) = Raise e.
Proof.
  induction capabilities as [|c rest IH]; intros seen e; simpl;
    [discriminate|].
  destruct (py_lower (name c)) as [k|e'] eqn:E; simpl.
  - intros H. apply IH in H as (c' & Hin & Hc'). eauto.
  - intros [= <-]. eauto.
Qed.

Lemma deduplicate_named candidates out :
  _deduplicate_capabilities candidates = Ok out -> Forall named candidates.
Proof.
  intros H. apply deduplicate_spec in H as (_ & Hout & Hdom).
  apply List.Forall_forall. intros c Hc.
  destruct (Hdom c Hc) as (c' & Hin & Hk & _).
  destruct (Hout c' Hin) as [_ [s Hs]].
  unfold name_key in Hk. rewrite Hs in Hk. unfold named.
  destruct (name c); try discriminate Hk. eauto.
Qed.

(** X15. [_deduplicate_capabilities] returns a list exactly when the name
    of every candidate is a [str]; otherwise it raises the
    [AttributeError] of calling [lower] on the first name that is not. *)
Theorem deduplicate_raises_iff (candidates : list ExtractedCapability) :
  ((exists out, _deduplicate_capabilities candidates = Ok out)
   <-> Forall named candidates)
  /\ (forall e, _deduplicate_capabilities candidates = Raise e ->
        exn_class e = "AttributeError"
        /\ exists c, In c candidates /\ py_lower (name c) = Raise e).
Proof.
  split.
  - split; [intros [out H]; eapply deduplicate_named; exact H|].
    apply deduplicate_total.
  - intros e. unfold _deduplicate_capabilities.
    destruct (dedup_loop candidates []) as [seen|e'] eqn:E; simpl;
      [discriminate|].
    intros [= <-]. apply dedup_loop_raises in E as (c & Hin & Hc).
    split; [eapply py_lower_raises; exact Hc | eauto].
Qed.

Lemma seen_set_new key cap seen :
  ~ In key (List.map fst seen) -> seen_set key cap seen = seen ++ [(key, cap)].
Proof.
  induction seen as [|[k c] rest IH]; simpl; [reflexivity|].
  intros H. destruct (String.eqb_spec k key) as [->|Hne]; [tauto|].
  rewrite IH by tauto. reflexivity.
Qed.

Lemma dedup_loop_distinct capabilities : forall seen,
  Forall named capabilities ->
  List.NoDup (List.map fst seen
              ++ List.map fst (List.map seen_entry capabilities)) ->
  dedup_loop capabilities seen
  = Ok (seen ++ List.map seen_entry capabilities).
Proof.
  induction capabilities as [|c rest IH]; intros seen Hn Hnd; simpl.
  - now rewrite List.app_nil_r.
  - inversion Hn as [|? ? [s Hs] Hrest]; subst.
    assert (Hk : name_key c = Some (PyStr.lower s))
      by (unfold name_key; now rewrite Hs).
    rewrite Hs. simpl. simpl in Hnd. unfold seen_entry at 1.
    unfold seen_entry at 1 in Hnd. rewrite Hk in *. simpl in *.
    assert (Hnew : ~ In (PyStr.lower s) (List.map fst seen)).
    { intros Hin. apply List.NoDup_remove_2 in Hnd. apply Hnd.
      apply List.in_app_iff. now left. }
    rewrite (proj2 (seen_get_none _ _) Hnew), (seen_set_new _ _ _ Hnew).
    rewrite IH; [now rewrite <- List.app_assoc | exact Hrest |].
    rewrite List.map_app, <- List.app_assoc. exact Hnd.
Qed.

Lemma deduplicate_distinct candidates :
  Forall named candidates ->
  List.NoDup (List.map name_key candidates) ->
  _deduplicate_capabilities candidates = Ok candidates.
Proof.
  intros Hn Hnd. unfold _deduplicate_capabilities.
  rewrite (dedup_loop_distinct candidates []); simpl.
  - rewrite List.map_map. simpl. now rewrite List.map_id.
  - exact Hn.
  - rewrite List.map_map. simpl.
    assert (E : List.map name_key candidates
                = List.map Some
                    (List.map (fun c => default "" (name_key c)) candidates)).
    { rewrite List.map_map. apply List.map_ext_in. intros c Hc.
      rewrite List.Forall_forall in Hn. destruct (Hn c Hc) as [s Hs].
      unfold name_key. now rewrite Hs. }
    rewrite E in Hnd. now apply List.NoDup_map_inv in Hnd.
Qed.

(** X16. [_deduplicate_capabilities] is idempotent, never returns more
    capabilities than it was given, and returns its input unchanged when no
    two candidates share a lower-cased name. *)
Theorem deduplicate_is_idempotent
    (candidates out : list ExtractedCapability) :
  _deduplicate_capabilities candidates = Ok out ->
  _deduplicate_capabilities out = Ok out
  /\ (length out <= length candidates)%nat
  /\ (List.NoDup (List.map name_key candidates) -> out = candidates).
Proof.
  intros H. pose proof (deduplicate_named _ _ H) as Hn.
  pose proof (deduplicate_spec _ _ H) as (Hnd & Hout & _).
  split; [|split].
  - apply deduplicate_distinct; [|exact Hnd].
    apply List.Forall_forall. intros c Hc. now apply Hout.
  - apply List.NoDup_incl_length.
    + now apply List.NoDup_map_inv in Hnd.
    + intros c Hc. now apply Hout.
  - intros Hd. rewrite (deduplicate_distinct _ Hn Hd) in H. congruence.
Qed.

Lemma deduplicate_is_idempotent_witness :
  _deduplicate_capabilities
    [mkCap "procedure" (PStr "bypass") (PStr "advanced") PNone None 0.9%Q]
  = Ok [mkCap "procedure" (PStr "bypass") (PStr "advanced") PNone None 0.9%Q].
Proof.
  apply (deduplicate_is_idempotent Scenario.two_candidates).
  vm_compute. reflexivity.
Defined.

End DedupErrors.

(** ** Keyword matches and provider suggestions *)
Section KeywordFacts.
Import Extraction.

Variable json_loads : string -> result pyval.
Variable client : string -> result Message.

Lemma traverse_Forall {A B : Type} (f : A -> result B) (P : B -> Prop) l :
  (forall x y, f x = Ok y -> P y) ->
  forall ys, traverse f l = Ok ys -> Forall P ys.
Proof.
  intros Hf. induction l as [|x r IH]; simpl; intros ys.
  - intros [= <-]. constructor.
  - destruct (f x) as [y|e] eqn:E; simpl; [|discriminate].
    destruct (traverse f r) as [zs|e]; simpl; [|discriminate].
    intros [= <-]. constructor; [eapply Hf; exact E | now apply IH].
Qed.

Lemma suggestions_confidence self text :
  Forall (fun c => confidence c = 0.8%Q /\ capability_type c = "procedure")
    (provider_suggestions json_loads self text).
Proof.
  unfold provider_suggestions, _llm_extract_procedures.
  destruct (_ || _); simpl; [constructor|].
  destruct (llm_response self text) as [t|e]; simpl; [|constructor].
  unfold parse_procedures.
  destruct (json_loads t) as [v|e]; simpl; [|constructor].
  destruct (py_iter v) as [items|e]; simpl; [|constructor].
  destruct (traverse procedure_of_json items) as [l|e] eqn:E; simpl;
    [|constructor].
  eapply traverse_Forall; [|exact E].
  intros x y. unfold procedure_of_json.
  destruct (py_getitem x "name"); simpl; [|discriminate].
  destruct (py_get x "volume"); simpl; [|discriminate].
  destruct (py_get x "complexity"); simpl; [|discriminate].
  now intros [= <-].
Qed.

Lemma suggestions_empty_text self :
  provider_suggestions json_loads self "" = [].
Proof. reflexivity. Qed.

Lemma extract_procedures_fst self text :
  fst (_extract_procedures json_loads self text)
  = if String.eqb text "" then Ok []
    else _deduplicate_capabilities
           (rule_procedures self text
            ++ provider_suggestions json_loads self text).
Proof.
  unfold _extract_procedures, provider_suggestions.
  destruct (String.eqb text ""); [reflexivity|].
  destruct (llm_total json_loads self text) as [l Hl].
  destruct (_llm_extract_procedures json_loads self text) as [r ev].
  simpl in *. now subst r.
Qed.

(** The keys of keyword candidates are the keywords found in the text. *)
Lemma keyword_candidates_keys (kws : list string) (P : string -> bool)
    (mk : string -> ExtractedCapability) :
  Forall (fun kw => name_key (mk kw) = Some kw) kws ->
  List.map name_key
    (List.flat_map (fun kw => if P kw then [mk kw] else []) kws)
  = List.map Some (List.filter P kws).
Proof.
  induction 1 as [|kw r Hkw _ IH]; simpl; [reflexivity|].
  destruct (P kw); simpl; now rewrite ?Hkw, IH.
Qed.

Lemma keywords_distinct (kws : list string) (P : string -> bool) :
  List.NoDup kws -> List.NoDup (List.map Some (List.filter P kws)).
Proof.
  intros H. apply List.NoDup_map_NoDup_ForallPairs.
  - intros a b _ _ [= E]. exact E.
  - now apply List.NoDup_filter.
Qed.

Ltac each_keyword :=
  repeat (constructor; [reflexivity|]); constructor.

Ltac distinct_keywords :=
  repeat (constructor; [simpl; intuition discriminate|]); constructor.

Lemma procedure_keys text :
  List.map name_key (rule_procedures (init client) text)
  = List.map Some
      (List.filter (fun kw => PyStr.contains kw (PyStr.lower text))
         (procedure_keywords (init client))).
Proof.
  unfold rule_procedures.
  apply (keyword_candidates_keys _ _
           (fun kw => mkCap "procedure" (PStr (PyStr.title kw))
                        (PStr (_extract_context text kw 50))
                        (_extract_volume text kw) None 0.9%Q)).
  unfold init, name_key. cbn [procedure_keywords name]. each_keyword.
Qed.

Lemma equipment_keys text :
  List.map name_key (rule_equipment (init client) text)
  = List.map Some
      (List.filter (fun kw => PyStr.contains kw (PyStr.lower text))
         (equipment_keywords (init client))).
Proof.
  unfold rule_equipment.
  apply (keyword_candidates_keys _ _
           (fun kw => mkCap "equipment"
                        (PStr (if (PyStr.len kw <=? 3)%nat
                               then PyStr.upper kw else PyStr.title kw))
                        PNone (_extract_quantity text kw)
                        (match _extract_status text kw with
                         | Some st => if String.eqb st ""
                                      then Some "operational" else Some st
                         | None => Some "operational"
                         end) 0.85%Q)).
  unfold init, name_key. cbn [equipment_keywords name]. each_keyword.
Qed.

Lemma specialty_keys text :
  List.map name_key (rule_specialties (init client) text)
  = List.map Some
      (List.filter (fun kw => PyStr.contains kw (PyStr.lower text))
         (specialty_keywords (init client))).
Proof.
  unfold rule_specialties.
  apply (keyword_candidates_keys _ _
           (fun kw => mkCap "specialty" (PStr (PyStr.title kw))
                        (PStr (_extract_context text kw 50)) PNone None
                        0.9%Q)).
  unfold init, name_key. cbn [specialty_keywords name]. each_keyword.
Qed.

(** X17. The keyword vocabularies of the agent hold no two keywords with
    the same lower-cased capability name, so deduplication never removes an
    equipment or a specialty candidate, and it never removes a procedure
    candidate when the provider suggests nothing: duplicates only arise
    from the provider's suggestions. *)
Theorem only_suggestions_are_deduplicated (text : string) :
  _extract_equipment (init client) text
  = Ok (equipment_candidates (init client) text)
  /\ _extract_specialties (init client) text
     = Ok (specialty_candidates (init client) text)
  /\ (provider_suggestions json_loads (init client) text = [] ->
      fst (_extract_procedures json_loads (init client) text)
      = Ok (rule_procedures (init client) text)).
Proof.
  split; [|split].
  - unfold _extract_equipment, equipment_candidates.
    destruct (String.eqb text ""); [reflexivity|].
    apply deduplicate_distinct; [apply rule_equipment_named|].
    rewrite equipment_keys. apply keywords_distinct.
    unfold init. cbn [equipment_keywords]. distinct_keywords.
  - unfold _extract_specialties, specialty_candidates.
    destruct (String.eqb text ""); [reflexivity|].
    apply deduplicate_distinct; [apply rule_specialties_named|].
    rewrite specialty_keys. apply keywords_distinct.
    unfold init. cbn [specialty_keywords]. distinct_keywords.
  - intros Hs. rewrite extract_procedures_fst, Hs, List.app_nil_r.
    destruct (String.eqb_spec text "") as [->|Hne]; [reflexivity|].
    apply deduplicate_distinct; [apply rule_procedures_named|].
    rewrite procedure_keys. apply keywords_distinct.
    unfold init. cbn [procedure_keywords]. distinct_keywords.
Qed.

Lemma nodup_map_inj {A B : Type} (f : A -> B) (l : list A) a b :
  List.NoDup (List.map f l) -> In a l -> In b l -> f a = f b -> a = b.
Proof.
  induction l as [|x r IH]; simpl; [tauto|].
  intros Hnd Ha Hb E. apply List.NoDup_cons_iff in Hnd as [Hx Hnd].
  destruct Ha as [->|Ha], Hb as [->|Hb]; auto.
  - exfalso. apply Hx. rewrite E. now apply List.in_map.
  - exfalso. apply Hx. rewrite <- E. now apply List.in_map.
Qed.

Lemma rule_procedures_in text c :
  In c (rule_procedures (init client) text)
  <-> exists kw, In kw (procedure_keywords (init client))
                 /\ PyStr.contains kw (PyStr.lower text) = true
                 /\ c = keyword_procedure text kw.
Proof.
  unfold rule_procedures. rewrite List.in_flat_map. split.
  - intros (kw & Hkw & Hc). exists kw.
    destruct (PyStr.contains kw _); [|destruct Hc].
    destruct Hc as [<-|[]]. auto.
  - intros (kw & Hkw & Hin & ->). exists kw. rewrite Hin.
    split; [exact Hkw | now left].
Qed.

Lemma procedure_keyword_facts :
  Forall (fun kw => PyStr.lower (PyStr.title kw) = kw
                    /\ PyStr.contains kw "" = false)
    (procedure_keywords (init client)).
Proof.
  unfold init. cbn [procedure_keywords].
  repeat (constructor; [split; reflexivity|]). constructor.
Qed.

(** X18. When a procedure keyword of the agent occurs in the text, the
    list returned by [_extract_procedures] holds the rule-based capability
    of that keyword, with confidence 0.9 and the context and volume read
    from the text, and holds no other capability of that name: a
    suggestion of the provider for the same name, which has confidence 0.8,
    never replaces it. *)
Theorem keyword_match_beats_suggestion (text kw : string)
    (out : list ExtractedCapability) :
  fst (_extract_procedures json_loads (init client) text) = Ok out ->
  In kw (procedure_keywords (init client)) ->
  PyStr.contains kw (PyStr.lower text) = true ->
  In (keyword_procedure text kw) out
  /\ (forall c, In c out -> name_key c = Some kw ->
                c = keyword_procedure text kw).
Proof.
  intros Hout Hkw Hin.
  pose proof procedure_keyword_facts as Hfacts.
  rewrite List.Forall_forall in Hfacts.
  destruct (Hfacts kw Hkw) as [Hname Hempty].
  rewrite extract_procedures_fst in Hout.
  destruct (String.eqb_spec text "") as [->|Hne];
    [change (PyStr.lower "") with "" in Hin; congruence|].
  pose proof (deduplicate_spec _ _ Hout) as (Hnd & Hsound & Hdom).
  assert (Hkey : name_key (keyword_procedure text kw) = Some kw).
  { unfold name_key, keyword_procedure. simpl. now rewrite Hname. }
  assert (Hunique : forall c, In c out -> name_key c = Some kw ->
                              c = keyword_procedure text kw).
  { intros c Hc Hk.
    destruct (Hdom (keyword_procedure text kw)) as (c' & Hc' & Hk' & Hconf).
    { apply List.in_app_iff. left. apply rule_procedures_in. eauto. }
    assert (c = c').
    { apply (nodup_map_inj name_key out); auto. congruence. }
    subst c'. destruct (Hsound c Hc) as [Hcand _].
    apply List.in_app_iff in Hcand as [Hr|Hs].
    - apply rule_procedures_in in Hr as (kw' & Hkw' & _ & ->).
      destruct (Hfacts kw' Hkw') as [Hname' _].
      unfold name_key, keyword_procedure in Hk. simpl in Hk.
      rewrite Hname' in Hk. now injection Hk as ->.
    - pose proof (suggestions_confidence (init client) text) as Hs8.
      rewrite List.Forall_forall in Hs8. destruct (Hs8 c Hs) as [E _].
      rewrite E in Hconf. unfold keyword_procedure in Hconf.
      cbn [confidence] in Hconf. apply Qle_bool_iff in Hconf.
      discriminate Hconf. }
  split; [|exact Hunique].
  destruct (Hdom (keyword_procedure text kw)) as (c' & Hc' & Hk' & _).
  { apply List.in_app_iff. left. apply rule_procedures_in. eauto. }
  rewrite Hkey in Hk'. now rewrite <- (Hunique c' Hc' Hk').
Qed.

End KeywordFacts.

Lemma keyword_match_beats_suggestion_witness :
  exists out,
    fst (Extraction._extract_procedures json_loads_bypass
           (Extraction.init provider_bypass) Scenario.long_text) = Ok out
    /\ In (keyword_procedure Scenario.long_text "bypass") out
    /\ length (provider_suggestions json_loads_bypass
                 (Extraction.init provider_bypass) Scenario.long_text)
       = 1%nat.
Proof.
  destruct (fst (Extraction._extract_procedures json_loads_bypass
                   (Extraction.init provider_bypass) Scenario.long_text))
    as [out|e] eqn:E; [|vm_compute in E; discriminate].
  exists out. split; [reflexivity|]. split; [|reflexivity].
  apply (keyword_match_beats_suggestion json_loads_bypass provider_bypass
           Scenario.long_text "bypass" out E).
  - simpl. tauto.
  - vm_compute. reflexivity.
Defined.

(** ** When the extraction of a facility fails *)
Section FacilityErrors.
Import Extraction.

Variable json_loads : string -> result pyval.

Lemma traverse_lower_named l :
  Forall named l -> exists ns, traverse (fun p => py_lower (name p)) l = Ok ns.
Proof.
  induction 1 as [|c r [s Hs] _ [ns IH]]; simpl; [eauto|].
  rewrite Hs, IH. simpl. eauto.
Qed.

Lemma join_names_named l :
  Forall named l -> exists s, join_names (List.map name l) = Ok s.
Proof.
  intros H. unfold join_names.
  assert (exists strs,
            traverse
              (fun v => match v with
                        | PStr s => Ok s
                        | _ => Raise (mkExn "TypeError"
                                 ("sequence item: expected str instance, "
                                  +:+ type_name v +:+ " found"))
                        end) (List.map name l) = Ok strs) as [strs ->].
  { induction H as [|c r [s Hs] _ [strs IH]]; simpl; [eauto|].
    rewrite Hs, IH. simpl. eauto. }
  simpl. eauto.
Qed.

Lemma any_cardio_named l :
  Forall named l -> exists b, any_cardio l = Ok b.
Proof.
  induction 1 as [|c r [s Hs] _ [b IH]]; simpl; [eauto|].
  rewrite Hs. simpl. destruct (PyStr.contains "cardio" _); eauto.
Qed.

Lemma filter_named f l : Forall named l -> Forall named (List.filter f l).
Proof.
  intros H. apply List.Forall_forall. intros c [Hc _]%List.filter_In.
  rewrite List.Forall_forall in H. auto.
Qed.

Lemma detect_anomalies_total ps es ss :
  Forall named ps -> Forall named es -> Forall named ss ->
  exists an, _detect_anomalies ps es ss = Ok an.
Proof.
  intros Hp He Hs. unfold _detect_anomalies.
  destruct (traverse_lower_named ps Hp) as [pn ->].
  destruct (traverse_lower_named es He) as [en ->]. simpl.
  destruct (join_names_named _ (filter_named (has_status "broken") es He))
    as [b Hb].
  destruct (join_names_named _ (filter_named (has_status "claimed") es He))
    as [c Hc].
  destruct (any_cardio_named ss Hs) as [l Hl].
  destruct (List.map name (List.filter (has_status "broken") es)) eqn:E1;
    [|rewrite Hb]; simpl;
    (destruct (List.map name (List.filter (has_status "claimed") es)) eqn:E2;
     [|rewrite Hc]; simpl;
     (destruct (PyStr.mem "cardiac surgery" pn);
      [rewrite Hl; simpl; destruct l|]; eauto)).
Qed.

Lemma deduplicate_out_named candidates out :
  _deduplicate_capabilities candidates = Ok out -> Forall named out.
Proof.
  intros H. apply deduplicate_spec in H as (_ & Hout & _).
  apply List.Forall_forall. intros c Hc. now apply Hout.
Qed.

Lemma guarded_dedup_named (text : string) candidates out :
  (if String.eqb text "" then Ok []
   else _deduplicate_capabilities candidates) = Ok out ->
  Forall named out.
Proof.
  destruct (String.eqb text ""); [intros [= <-]; constructor|].
  apply deduplicate_out_named.
Qed.

(** X19. [_extract_procedures] returns a list exactly when every procedure
    that the provider suggested has a [str] name. When the decoded reply
    holds an element whose name is not one, the exception that
    [_llm_extract_procedures] took care to catch is followed by an
    [AttributeError] from the deduplication, and the call raises it; no
    other exception is raised. The rule-based extractions of equipment and
    of specialties never raise, and once the three lists are extracted the
    anomalies are computed without an exception. *)
Theorem provider_names_decide_extraction (self : Agent) (text : string) :
  let suggested := provider_suggestions json_loads self text in
  ((exists out, fst (_extract_procedures json_loads self text) = Ok out)
   <-> Forall named suggested)
  /\ (forall e, fst (_extract_procedures json_loads self text) = Raise e ->
        exn_class e = "AttributeError"
        /\ exists c, In c suggested /\ py_lower (name c) = Raise e)
  /\ (exists es, _extract_equipment self text = Ok es)
  /\ (exists ss, _extract_specialties self text = Ok ss)
  /\ (forall ps es ss equipment_text specialties_text,
        fst (_extract_procedures json_loads self text) = Ok ps ->
        _extract_equipment self equipment_text = Ok es ->
        _extract_specialties self specialties_text = Ok ss ->
        exists an, _detect_anomalies ps es ss = Ok an).
Proof.
  intros suggested. rewrite extract_procedures_fst. fold suggested.
  assert (Hempty : text = "" -> suggested = []).
  { intros E. unfold suggested. now rewrite E. }
  split; [|split; [|split; [|split]]].
  - destruct (String.eqb_spec text "") as [E|E].
    + rewrite (Hempty E). split; [constructor | eauto].
    + split.
      * intros [out Hout]. apply deduplicate_named in Hout.
        apply List.Forall_app in Hout. tauto.
      * intros Hs. apply deduplicate_total. apply List.Forall_app.
        split; [apply rule_procedures_named | exact Hs].
  - intros e. destruct (String.eqb text ""); [discriminate|].
    unfold _deduplicate_capabilities.
    destruct (dedup_loop (rule_procedures self text ++ suggested) [])
      as [seen|e'] eqn:El; simpl; [discriminate|].
    intros [= <-]. apply dedup_loop_raises in El as (c & Hin & Hc).
    split; [eapply py_lower_raises; exact Hc|].
    exists c. split; [|exact Hc].
    apply List.in_app_iff in Hin as [Hr|Hs]; [|exact Hs].
    pose proof (rule_procedures_named self text) as Hn.
    rewrite List.Forall_forall in Hn. destruct (Hn c Hr) as [n Hs].
    rewrite Hs in Hc. discriminate.
  - apply extract_equipment_total.
  - apply extract_specialties_total.
  - intros ps es ss equipment_text specialties_text Hps Hes Hss.
    apply detect_anomalies_total.
    + destruct (String.eqb text ""); [injection Hps as <-; constructor|].
      eapply deduplicate_out_named; exact Hps.
    + eapply guarded_dedup_named; exact Hes.
    + eapply guarded_dedup_named; exact Hss.
Qed.

End FacilityErrors.

Lemma provider_names_decide_extraction_witness :
  exists out,
    fst (Extraction._extract_procedures json_loads_bypass
           (Extraction.init provider_bypass) Scenario.long_text) = Ok out.
Proof.
  apply (provider_names_decide_extraction json_loads_bypass
           (Extraction.init provider_bypass) Scenario.long_text).
  vm_compute. repeat constructor. eexists. reflexivity.
Defined.

(** A reply that decodes to a procedure without a name: the provider call
    succeeds and the extraction of the facility raises. *)
Example null_name_breaks_extraction :
  fst (Extraction._llm_extract_procedures json_loads_null_name
         (Extraction.init provider_null_name) Scenario.long_text)
  = Ok [Extraction.mkCap "procedure" PNone PNone (PInt 3) None 0.8%Q]
  /\ fst (Extraction.extract_from_facility json_loads_null_name
            (Extraction.init provider_null_name) Scenario.korle_bu_data)
     = Raise (mkExn "AttributeError"
                "'NoneType' object has no attribute 'lower'").
Proof. split; vm_compute; reflexivity. Qed.

(** ** The context window of a keyword *)
Section ContextFacts.
Import Extraction.

Lemma substring_length n m s :
  (String.length (String.substring n m s) <= m)%nat
  /\ (String.length (String.substring n m s) <= String.length s)%nat.
Proof.
  revert n m. induction s as [|c r IH]; intros n m.
  - destruct n, m; simpl; lia.
  - destruct n as [|n].
    + destruct m as [|m]; simpl; [lia|].
      destruct (IH 0%nat m). lia.
    + simpl. destruct (IH n m). lia.
Qed.

Lemma lstrip_length s :
  (String.length (PyStr.lstrip s) <= String.length s)%nat.
Proof.
  induction s as [|c r IH]; simpl; [lia|].
  destruct (PyStr.is_space c); simpl; lia.
Qed.

Lemma rstrip_length s :
  (String.length (PyStr.rstrip s) <= String.length s)%nat.
Proof.
  induction s as [|c r IH]; simpl; [lia|].
  destruct (PyStr.rstrip r); [destruct (PyStr.is_space c)|]; simpl in *; lia.
Qed.

Lemma strip_length s :
  (String.length (PyStr.strip s) <= String.length s)%nat.
Proof.
  unfold PyStr.strip. pose proof (rstrip_length (PyStr.lstrip s)).
  pose proof (lstrip_length s). lia.
Qed.

Lemma slice_length s a b :
  (String.length (PyStr.slice s a b) <= b - a)%nat
  /\ (String.length (PyStr.slice s a b) <= String.length s)%nat.
Proof.
  unfold PyStr.slice.
  destruct (substring_length a (b - a)
              (String.substring 0 (Nat.min b (PyStr.len s)) s)) as [H1 H2].
  destruct (substring_length 0 (Nat.min b (PyStr.len s)) s) as [_ H3].
  lia.
Qed.

Lemma find_from_none sub s : forall pos,
  PyStr.find_from pos sub s = None <-> PyStr.contains sub s = false.
Proof.
  induction s as [|c r IH]; intros pos; simpl.
  - destruct (PyStr.startswith sub ""); simpl; split; congruence.
  - destruct (PyStr.startswith sub (String c r)); simpl;
      [split; congruence | apply IH].
Qed.

(** X20. The context that [_extract_context] returns is never longer than
    the keyword plus the window on each side, nor longer than the text, and
    it is empty when the keyword does not occur in the text, case being
    ignored. *)
Theorem context_window_is_bounded (text keyword : string) (window : nat) :
  (String.length (_extract_context text keyword window)
   <= String.length keyword + 2 * window)%nat
  /\ (String.length (_extract_context text keyword window)
      <= String.length text)%nat
  /\ (PyStr.contains (PyStr.lower keyword) (PyStr.lower text) = false ->
      _extract_context text keyword window = "").
Proof.
  unfold _extract_context.
  destruct (PyStr.find (PyStr.lower keyword) (PyStr.lower text))
    as [pos|] eqn:E.
  - set (stop := Nat.min (PyStr.len text)
                   (pos + PyStr.len keyword + window)).
    pose proof (strip_length (PyStr.slice text (pos - window) stop)) as Hs.
    destruct (slice_length text (pos - window) stop) as [H1 H2].
    assert (stop <= pos + String.length keyword + window)%nat
      by apply Nat.le_min_r.
    repeat split; [lia | lia |].
    intros Hc. apply (find_from_none _ _ 0%nat) in Hc.
    unfold PyStr.find in E. congruence.
  - simpl. repeat split; lia.
Qed.

End ContextFacts.

(** ** The two shapes of the result of [process_query] *)
Section ProcessFacts.
Import Orchestrator.

Variable json_dumps : pyval -> result string.
Variable format_2f : Q -> string.

(** X21. [process_query] never raises: it returns either the dictionary of
    its handler, with the keys [error], [query] and [processing_time_ms]
    only, or the dictionary of [_format_output], with its ten keys and no
    [error]. The handler also covers the rendering of the citation report:
    when the four states succeed and the report cannot be rendered, the
    result is the error dictionary of that exception. *)
Theorem process_query_never_raises (self : Nodes)
    (start_time end_time : Q) (q : string) (records : list RawFacility) :
  let elapsed_ms := ((end_time - start_time) * 1000)%Q in
  let result :=
    process_query json_dumps format_2f (_build_graph self) start_time
      end_time q records in
  (exists out,
     result = Ok out
     /\ ((exists e, out = error_result e q elapsed_ms
                    /\ dom out = {["error"; "query"; "processing_time_ms"]})
         \/ (dom out = list_to_set output_fields /\ out !! "error" = None)))
  /\ (forall final e,
        invoke (_build_graph self) (initial_state q records) = Ok final ->
        Ledger.generate_citation_report json_dumps format_2f
          (citation_tracker final) = Raise e ->
        result = Ok (error_result e q elapsed_ms)).
Proof.
  intros elapsed_ms result. split.
  - destruct (invoke (_build_graph self) (initial_state q records))
      as [final|e] eqn:Hrun.
    + destruct (Ledger.generate_citation_report json_dumps format_2f
                  (citation_tracker final)) as [report|e] eqn:Hrep.
      * destruct (process_query_normal_result json_dumps format_2f self
                    start_time end_time q records final report Hrun Hrep)
          as (out & Hout & Hdom & Herr & _).
        exists out. split; [exact Hout|]. right. now split.
      * exists (error_result e q elapsed_ms). split.
        -- unfold result, process_query. rewrite Hrun. cbn.
           unfold _format_output. cbn. now rewrite Hrep.
        -- left. exists e. split; [reflexivity|].
           apply error_result_fields.
    + exists (error_result e q elapsed_ms). split.
      * unfold result, process_query. now rewrite Hrun.
      * left. exists e. split; [reflexivity|]. apply error_result_fields.
  - intros final e Hrun Hrep. unfold result, process_query.
    rewrite Hrun. cbn. unfold _format_output. cbn. now rewrite Hrep.
Qed.

End ProcessFacts.

Lemma process_query_never_raises_witness :
  Orchestrator.process_query Scenario.json_dumps_braces Scenario.format_whole
    (Orchestrator._build_graph unrenderable_nodes) 10 12.5
    Scenario.accra_query [Scenario.korle_bu]
  = Ok (Orchestrator.error_result not_subscriptable Scenario.accra_query
          ((12.5 - 10) * 1000)%Q).
Proof.
  apply (proj2 (process_query_never_raises Scenario.json_dumps_braces
                  Scenario.format_whole unrenderable_nodes 10 12.5
                  Scenario.accra_query [Scenario.korle_bu])
           (Orchestrator.set_tracker ledger_unrenderable
              (Orchestrator.initial_state Scenario.accra_query
                 [Scenario.korle_bu]))).
  - vm_compute. reflexivity.
  - vm_compute. reflexivity.
Defined.

(** ** The bookkeeping of the first two states *)
Section NodeFacts.
Import Orchestrator.

Variable timestamp : Z -> string.

Lemma run_app cs1 : forall cs2 t,
  fst (Ledger.run (cs1 ++ cs2) t)
  = fst (Ledger.run cs2 (fst (Ledger.run cs1 t))).
Proof.
  induction cs1 as [|c r IH]; intros cs2 t; simpl; [reflexivity|].
  destruct (Ledger.step_call c t) as [t1 n]. specialize (IH cs2 t1).
  destruct (Ledger.run (r ++ cs2) t1), (Ledger.run r t1). simpl in *.
  exact IH.
Qed.

Lemma reachable_call c t :
  reachable t -> reachable (fst (Ledger.step_call c t)).
Proof.
  intros [cs ->]. exists (cs ++ [c]). rewrite run_app. simpl.
  now destruct (Ledger.step_call c _).
Qed.

Lemma reachable_well_numbered t : reachable t -> well_numbered t.
Proof. intros [cs ->]. apply run_well_numbered. Qed.

(** [start_step] on a ledger with the numbers 1 to n. *)
Lemma start_step_fresh name description input t :
  well_numbered t ->
  let t1 := fst (start_step timestamp name description input t) in
  let n := snd (start_step timestamp name description input t) in
  n = Z.of_nat (length (Ledger.steps t)) + 1
  /\ Ledger._get_step n t1
     = Some (Ledger.mkAgentStep n name description input [] []
               (timestamp n) None)
  /\ step_numbers t1 = step_numbers t ++ [n]
  /\ Ledger.get_all_citations t1 = Ledger.get_all_citations t.
Proof.
  intros [Hnum Hcnt] t1 n.
  assert (Hn : n = Z.of_nat (length (Ledger.steps t)) + 1).
  { unfold n, start_step. simpl. now rewrite Hcnt. }
  assert (Hnone : Ledger._get_step n t = None).
  { apply get_step_unissued. rewrite Hnum. intros Hin.
    apply count_from_bounds in Hin. lia. }
  split; [exact Hn|]. split; [|split].
  - unfold Ledger._get_step, t1, start_step. simpl.
    rewrite find_app_none by exact Hnone. simpl. now rewrite Z.eqb_refl.
  - unfold step_numbers, t1, start_step. simpl.
    now rewrite List.map_app.
  - unfold Ledger.get_all_citations, t1, start_step. simpl.
    rewrite List.map_app, List.concat_app. simpl.
    now rewrite !List.app_nil_r.
Qed.

Lemma classify_intent_cases q : In (classify_intent q) intents.
Proof.
  unfold classify_intent, intents.
  destruct (existsb _ _); [destruct (_ || _); [|destruct (PyStr.contains _ _)]
                          | destruct (_ || _)]; simpl; tauto.
Qed.

Lemma extract_entities_keys q :
  incl (List.map fst (extract_entities q)) ["region"; "capability"]
  /\ List.NoDup (List.map fst (extract_entities q)).
Proof.
  unfold extract_entities.
  destruct (first_in regions q), (first_in procedures q); simpl; split;
    try (intros x; simpl; tauto);
    repeat (constructor; [simpl; intuition discriminate|]); constructor.
Qed.

(** X22. On a state whose ledger was built by calls from a fresh instance,
    [_understand_query_node] returns a state with one of the five intents
    and with entities under the keys [region] and [capability] only; the
    query and the facility records are unchanged; and the ledger has gained
    exactly one step, numbered one more than the steps before, named
    [query_understanding], with the query as input, the intent and the
    entities as output, and no citations. *)
Theorem understand_query_node_records_its_step (state : AgentState) :
  reachable (citation_tracker state) ->
  exists s' i e step,
    _understand_query_node timestamp state = Ok s'
    /\ intent s' = Some i /\ In i intents
    /\ entities s' = Some e
    /\ incl (List.map fst e) ["region"; "capability"]
    /\ query s' = query state
    /\ raw_facilities_data s' = raw_facilities_data state
    /\ reachable (citation_tracker s')
    /\ let n := Z.of_nat (length (Ledger.steps (citation_tracker state))) + 1
       in
       step_numbers (citation_tracker s')
       = step_numbers (citation_tracker state) ++ [n]
       /\ Ledger._get_step n (citation_tracker s') = Some step
       /\ Ledger.step_name step = "query_understanding"
       /\ Ledger.input_data step = [("query", PStr (query state))]
       /\ Ledger.output_data step
          = [("intent", PStr i); ("entities", PDict e)]
       /\ Ledger.citations step = [].
Proof.
  intros Hreach. pose proof (reachable_well_numbered _ Hreach) as Hwf.
  set (q := PyStr.lower (query state)).
  set (name := "query_understanding").
  set (description :=
         "Parse natural language query to identify intent and extract entities").
  set (input := [("query", PStr (query state))]).
  destruct (start_step_fresh name description input _ Hwf)
    as (Hn & Hget & Hnum & _).
  set (t1 := fst (start_step timestamp name description input
                    (citation_tracker state))) in *.
  set (n := snd (start_step timestamp name description input
                   (citation_tracker state))) in *.
  set (out := [("intent", PStr (classify_intent q));
               ("entities", PDict (extract_entities q))]).
  exists (set_tracker (Ledger.end_step n out None t1)
            (set_understanding (classify_intent q) (extract_entities q)
               state)),
    (classify_intent q), (extract_entities q),
    (Ledger.set_output out None
       (Ledger.mkAgentStep n name description input [] [] (timestamp n)
          None)).
  split; [reflexivity|]. split; [reflexivity|].
  split; [apply classify_intent_cases|]. split; [reflexivity|].
  split; [apply extract_entities_keys|].
  split; [reflexivity|]. split; [reflexivity|]. split.
  - simpl.
    apply (reachable_call (Ledger.CallEnd n out None)).
    apply (reachable_call
             (Ledger.CallStart name description input
                (timestamp
                   (Ledger.current_step_number (citation_tracker state) + 1)))).
    exact Hreach.
  - simpl. rewrite <- Hn. rewrite end_step_numbers. split; [exact Hnum|].
    split; [|now repeat split].
    unfold Ledger.end_step. rewrite Hget. unfold Ledger._get_step. simpl.
    apply get_step_update_same; [reflexivity | exact Hget].
Qed.

Section WithAgent.

Variable json_loads : string -> result pyval.
Variable extraction_agent : Extraction.Agent.

Lemma add_citation_length n c t s :
  Ledger._get_step n t = Some s ->
  length (Ledger.get_all_citations (Ledger.add_citation_to_step n c t))
  = S (length (Ledger.get_all_citations t)).
Proof.
  intros Hs. unfold Ledger.get_all_citations.
  rewrite add_citation_steps.
  destruct (update_first_split n (Ledger.add_citation c) _ _ Hs)
    as (l1 & l2 & E1 & E2).
  rewrite E2, E1, !List.map_app, !List.concat_app, !List.length_app. simpl.
  rewrite !List.length_app. simpl. lia.
Qed.

Lemma add_citation_get n c t s :
  Ledger._get_step n t = Some s ->
  Ledger._get_step n (Ledger.add_citation_to_step n c t)
  = Some (Ledger.add_citation c s).
Proof.
  intros Hs. unfold Ledger._get_step. rewrite add_citation_steps.
  apply get_step_update_same; [reflexivity | exact Hs].
Qed.

(** The citations of one facility: one more citation per procedure, on a
    step that is still there. *)
Lemma cite_procedures_spec step_id facility i procs : forall t s,
  Ledger._get_step step_id t = Some s ->
  let t' := cite_procedures step_id facility i procs t in
  length (Ledger.get_all_citations t')
  = (length (Ledger.get_all_citations t) + length procs)%nat
  /\ step_numbers t' = step_numbers t
  /\ (exists s', Ledger._get_step step_id t' = Some s')
  /\ (reachable t -> reachable t').
Proof.
  unfold cite_procedures.
  induction procs as [|proc rest IH]; intros t s Hs; simpl.
  - repeat split; [lia | eauto | auto].
  - set (t1 := Ledger.add_facility_citation _ _ _ _ _ _ _ t).
    assert (H1 : Ledger._get_step step_id t1
                 = Some (Ledger.add_citation
                           (Ledger.mkCitation "facility_row"
                              (Some (Extraction.fd_facility_id
                                       (raw_data facility)))
                              (Some (Extraction.fd_facility_name
                                       (raw_data facility)))
                              (Some "procedures_free_text")
                              (Some (PyStr.slice
                                       (Extraction.procedures_free_text
                                          (raw_data facility)) 0 100))
                              (Some (Z.of_nat i + 1))
                              (Extraction.confidence proc)) s))
      by (apply add_citation_get; exact Hs).
    destruct (IH t1 _ H1) as (Hlen & Hnum & Hget & Hreach).
    split; [|split; [|split]].
    + rewrite Hlen. unfold t1, Ledger.add_facility_citation.
      rewrite (add_citation_length _ _ _ _ Hs). lia.
    + rewrite Hnum. apply add_citation_numbers.
    + exact Hget.
    + intros Hr. apply Hreach.
      apply (reachable_call
               (Ledger.CallFacilityCite step_id
                  (Extraction.fd_facility_id (raw_data facility))
                  (Extraction.fd_facility_name (raw_data facility))
                  "procedures_free_text"
                  (PyStr.slice
                     (Extraction.procedures_free_text (raw_data facility))
                     0 100)
                  (Z.of_nat i + 1) (Extraction.confidence proc)) t Hr).
Qed.

Lemma extract_from_facility_id fd ex :
  fst (Extraction.extract_from_facility json_loads extraction_agent fd)
  = Ok ex ->
  Extraction.facility_id ex = Extraction.fd_facility_id fd.
Proof.
  unfold Extraction.extract_from_facility.
  destruct (Extraction._extract_procedures _ _ _) as [[ps|e] ev]; simpl;
    [|discriminate].
  destruct (Extraction._extract_equipment _ _); simpl; [|discriminate].
  destruct (Extraction._extract_specialties _ _); simpl; [|discriminate].
  destruct (Extraction._detect_anomalies _ _ _); simpl; [|discriminate].
  now intros [= <-].
Qed.

Lemma extract_all_spec step_id facilities : forall i acc t s acc' t',
  Ledger._get_step step_id t = Some s ->
  extract_all json_loads extraction_agent step_id i facilities acc t
  = Ok (acc', t') ->
  exists new,
    acc' = acc ++ new
    /\ Forall2 (extracted_by json_loads extraction_agent) facilities new
    /\ length (Ledger.get_all_citations t')
       = (length (Ledger.get_all_citations t) + total_procedures new)%nat
    /\ step_numbers t' = step_numbers t
    /\ (exists s', Ledger._get_step step_id t' = Some s')
    /\ (reachable t -> reachable t').
Proof.
  induction facilities as [|facility rest IH]; intros i acc t s acc' t' Hs;
    simpl.
  - intros [= <- <-]. exists []. rewrite List.app_nil_r.
    split; [reflexivity|]. split; [constructor|].
    split; [unfold total_procedures; simpl; lia|].
    split; [reflexivity|]. split; [eauto | auto].
  - destruct (fst (Extraction.extract_from_facility json_loads
                     extraction_agent (raw_data facility)))
      as [ex|e] eqn:Eex; simpl; [|discriminate].
    destruct (cite_procedures_spec step_id facility i
                (Extraction.procedures ex) t s Hs)
      as (Hlen & Hnum & [s1 Hs1] & Hreach).
    intros Hrun. apply (IH _ _ _ _ _ _ Hs1) in Hrun
      as (new & -> & Hnew & Hlen' & Hnum' & Hget' & Hreach').
    eexists (_ :: new). split; [now rewrite <- List.app_assoc|].
    split; [|split; [|split; [|split]]].
    + constructor; [|exact Hnew]. split; [exact Eex|].
      split; [now apply extract_from_facility_id | reflexivity].
    + rewrite Hlen', Hlen. unfold total_procedures. simpl. lia.
    + now rewrite Hnum'.
    + exact Hget'.
    + auto.
Qed.

(** X23. On a state whose ledger was built by calls from a fresh instance,
    a successful [_extract_capabilities_node] extracts every record, in
    order, with the facility id of the record and its region, district and
    facility type merged back; the ledger gains exactly one step, numbered
    one more than the steps before, whose output holds the three counts,
    and exactly one citation per extracted procedure. *)
Theorem extraction_node_cites_every_procedure (state s' : AgentState) :
  reachable (citation_tracker state) ->
  _extract_capabilities_node timestamp json_loads extraction_agent state
  = Ok s' ->
  let t := citation_tracker state in
  let t' := citation_tracker s' in
  let n := Z.of_nat (length (Ledger.steps t)) + 1 in
  Forall2 (extracted_by json_loads extraction_agent) (raw_facilities_data state)
    (extracted_facilities s')
  /\ step_numbers t' = step_numbers t ++ [n]
  /\ length (Ledger.get_all_citations t')
     = (length (Ledger.get_all_citations t)
        + total_procedures (extracted_facilities s'))%nat
  /\ Ledger.output_data <$> Ledger._get_step n t'
     = Some [("extracted_count",
              PInt (Z.of_nat (length (extracted_facilities s'))));
             ("total_procedures",
              PInt (Z.of_nat (total_procedures (extracted_facilities s'))));
             ("total_equipment",
              PInt (Z.of_nat (total_equipment (extracted_facilities s'))))]
  /\ reachable t'.
Proof.
  intros Hreach. pose proof (reachable_well_numbered _ Hreach) as Hwf.
  unfold _extract_capabilities_node.
  set (name := "capability_extraction").
  set (description :=
         "Extract structured medical capabilities from unstructured facility text").
  set (input := [("facility_count",
                  PInt (Z.of_nat (length (raw_facilities_data state))))]).
  destruct (start_step_fresh name description input _ Hwf)
    as (Hn & Hget & Hnum & Hcit).
  destruct (start_step timestamp name description input
              (citation_tracker state)) as [t1 n] eqn:Estart.
  simpl in Hn, Hget, Hnum, Hcit.
  destruct (extract_all json_loads extraction_agent n 0
              (raw_facilities_data state) [] t1) as [[acc t2]|e] eqn:Eall;
    simpl; [|discriminate].
  intros [= <-]. simpl.
  destruct (extract_all_spec _ _ _ _ _ _ _ _ Hget Eall)
    as (new & -> & Hnew & Hlen & Hnum2 & [s2 Hs2] & Hreach2).
  simpl. rewrite <- Hn.
  split; [exact Hnew|]. split; [|split; [|split]].
  - now rewrite end_step_numbers, Hnum2.
  - now rewrite end_step_citations, Hlen, Hcit.
  - unfold Ledger.end_step. rewrite Hs2. unfold Ledger._get_step. simpl.
    erewrite get_step_update_same; [reflexivity | reflexivity | exact Hs2].
  - apply (reachable_call (Ledger.CallEnd n _ None)). apply Hreach2.
    replace t1 with (fst (Ledger.step_call
                            (Ledger.CallStart name description input
                               (timestamp
                                  (Ledger.current_step_number
                                     (citation_tracker state) + 1)))
                            (citation_tracker state))).
    + now apply reachable_call.
    + unfold start_step in Estart. simpl.
      now injection Estart as <- _.
Qed.

End WithAgent.

End NodeFacts.

Lemma understand_query_node_records_its_step_witness :
  exists s',
    Orchestrator._understand_query_node Scenario.clock
      (Orchestrator.initial_state Scenario.accra_query [Scenario.korle_bu])
    = Ok s'
    /\ step_numbers (Orchestrator.citation_tracker s') = [1].
Proof.
  destruct (understand_query_node_records_its_step Scenario.clock
              (Orchestrator.initial_state Scenario.accra_query
                 [Scenario.korle_bu])
              (ex_intro _ [] eq_refl))
    as (s' & i & e & step & H1 & _ & _ & _ & _ & _ & _ & _ & H2 & _).
  exists s'. split; [exact H1 | exact H2].
Defined.

Lemma extraction_node_cites_every_procedure_witness :
  exists s',
    Orchestrator._extract_capabilities_node Scenario.clock
      Scenario.json_loads_empty_array
      (Extraction.init Scenario.provider_down)
      (Orchestrator.initial_state Scenario.accra_query [Scenario.korle_bu])
    = Ok s'
    /\ length (Ledger.get_all_citations (Orchestrator.citation_tracker s'))
       = 3%nat.
Proof.
  destruct (Orchestrator._extract_capabilities_node Scenario.clock
              Scenario.json_loads_empty_array
              (Extraction.init Scenario.provider_down)
              (Orchestrator.initial_state Scenario.accra_query
                 [Scenario.korle_bu])) as [s'|e] eqn:E;
    [|vm_compute in E; discriminate].
  exists s'. split; [reflexivity|].
  destruct (extraction_node_cites_every_procedure Scenario.clock
              Scenario.json_loads_empty_array
              (Extraction.init Scenario.provider_down)
              (Orchestrator.initial_state Scenario.accra_query
                 [Scenario.korle_bu]) s'
              (ex_intro _ [] eq_refl) E) as (_ & _ & H & _).
  rewrite H. vm_compute in E. injection E as <-. reflexivity.
Defined.

(** ** The summary statistics *)
Section StatisticsFacts.
Import Parser Statistics.

Lemma risk_bands s :
  (if is_critical s then 1 else 0) + (if is_high s then 1 else 0)
  + (if is_moderate s then 1 else 0) + (if is_low s then 1 else 0) = 1.
Proof.
  unfold is_critical, is_high, is_moderate, is_low, Qltb.
  destruct (Qle_bool 75 s) eqn:E75, (Qle_bool 60 s) eqn:E60,
           (Qle_bool 40 s) eqn:E40; simpl; try reflexivity; exfalso;
    rewrite ?Qle_bool_iff in *;
    repeat match goal with
           | H : Qle_bool _ _ = false |- _ =>
               apply not_true_iff_false in H; rewrite Qle_bool_iff in H
           end; lra.
Qed.

Lemma count_risk_bands profiles :
  (count_risk is_critical profiles + count_risk is_high profiles
   + count_risk is_moderate profiles + count_risk is_low profiles)%nat
  = length profiles.
Proof.
  unfold count_risk. induction profiles as [|p r IH]; simpl; [reflexivity|].
  pose proof (risk_bands (desert_risk_score p)) as H.
  destruct (is_critical _), (is_high _), (is_moderate _), (is_low _);
    simpl in *; lia.
Qed.

Lemma region_update_count r p d :
  Forall (fun rs => (1 <= count (snd rs))%nat) d ->
  Forall (fun rs => (1 <= count (snd rs))%nat) (region_update r p d).
Proof.
  induction 1 as [|[r' st] rest H Hrest IH]; simpl.
  - constructor; [simpl; lia | constructor].
  - destruct (String.eqb r' r); constructor; simpl in *;
      [lia | exact Hrest | exact H | exact IH].
Qed.

Lemma accumulate_count profiles :
  Forall (fun rs => (1 <= count (snd rs))%nat) (accumulate profiles).
Proof.
  unfold accumulate.
  assert (H : forall d, Forall (fun rs => (1 <= count (snd rs))%nat) d ->
            Forall (fun rs => (1 <= count (snd rs))%nat)
              (List.fold_left (fun d p => region_update (region p) p d)
                 profiles d)).
  { induction profiles as [|p r IH]; intros d Hd; simpl; [exact Hd|].
    apply IH. now apply region_update_count. }
  apply H. constructor.
Qed.

Lemma traverse_finish d :
  Forall (fun rs => (1 <= count (snd rs))%nat) d ->
  traverse finish d
  = Ok (List.map (fun rs => (fst rs, averaged (snd rs))) d).
Proof.
  induction 1 as [|[r st] rest H _ IH]; simpl; [reflexivity|].
  simpl in H. unfold divide. destruct (count st) eqn:E; [lia|].
  simpl. rewrite IH. unfold averaged. now rewrite E.
Qed.

Lemma summary_inv profiles s :
  create_summary_statistics profiles = Ok s ->
  profiles <> []
  /\ regional_stats s
     = List.map (fun rs => (fst rs, averaged (snd rs))) (accumulate profiles)
  /\ top_gaps s
     = firstn 10
         (sorted_by_count (gap_counts (List.flat_map gaps profiles))).
Proof.
  unfold create_summary_statistics.
  rewrite (traverse_finish _ (accumulate_count profiles)).
  destruct profiles as [|p r]; [discriminate|].
  unfold divide. simpl length. cbn [mbind result_bind].
  intros [= <-]. split; [discriminate|]. split; reflexivity.
Qed.

(** X24. [create_summary_statistics] raises [ZeroDivisionError] exactly
    when it is given no profile. Otherwise the four risk bands partition
    the facilities: every facility is counted in exactly one of critical,
    high, moderate and low, so the four counts add up to the total; and,
    for whole-number scores, the overall desert risk is the double nearest
    to the average of the scores of all facilities. *)
Theorem summary_statistics_partition (profiles : list FacilityProfile) :
  (create_summary_statistics profiles
   = Raise (mkExn "ZeroDivisionError" "division by zero")
   <-> profiles = [])
  /\ (profiles <> [] ->
      exists s,
        create_summary_statistics profiles = Ok s
        /\ total_facilities s = length profiles
        /\ (critical s + high s + moderate s + low s)%nat
           = total_facilities s
        /\ (whole_risks profiles ->
            overall_desert_risk s
            = PyFloat.nearest (mean (List.map desert_risk_score profiles)))).
Proof.
  unfold create_summary_statistics.
  rewrite (traverse_finish _ (accumulate_count profiles)).
  cbn [mbind result_bind].
  destruct profiles as [|p r].
  - split; [split; reflexivity | congruence].
  - split; [split; discriminate|]. intros _.
    change (length (p :: r)) with (S (length r)). cbn [divide mbind result_bind].
    eexists. split; [reflexivity|].
    cbn [total_facilities critical high moderate low overall_desert_risk].
    split; [reflexivity|]. split; [apply (count_risk_bands (p :: r))|].
    intros _. apply (average_risk_mean (p :: r)).
Qed.

Lemma summary_statistics_partition_witness :
  exists s,
    create_summary_statistics Scenario.region_at = Ok s
    /\ (critical s + high s + moderate s + low s)%nat = 3%nat.
Proof.
  destruct (proj2 (summary_statistics_partition Scenario.region_at))
    as (s & H1 & H2 & H3 & _); [discriminate|].
  exists s. split; [exact H1|]. now rewrite H3, H2.
Defined.

Lemma stats_lookup_update r r' p d :
  stats_lookup r (region_update r' p d)
  = if String.eqb r' r
    then Some (add_profile p (default new_stats (stats_lookup r d)))
    else stats_lookup r d.
Proof.
  unfold stats_lookup. induction d as [|[k st] rest IH]; simpl.
  - destruct (String.eqb r' r); reflexivity.
  - destruct (String.eqb_spec k r') as [->|Hk]; simpl.
    + destruct (String.eqb r' r); reflexivity.
    + destruct (String.eqb_spec k r) as [->|Hr]; simpl.
      * destruct (String.eqb_spec r' r) as [->|]; [congruence|reflexivity].
      * exact IH.
Qed.

Lemma region_update_keys r p d :
  List.map fst (region_update r p d)
  = if existsb (String.eqb r) (List.map fst d)
    then List.map fst d
    else List.map fst d ++ [r].
Proof.
  induction d as [|[k st] rest IH]; simpl; [reflexivity|].
  rewrite (String.eqb_sym r k).
  destruct (String.eqb k r); simpl; [reflexivity|].
  rewrite IH. now destruct (existsb _ _).
Qed.

Lemma fold_keys_agree profiles : forall d1 d2,
  List.map fst d1 = List.map fst d2 ->
  List.map fst
    (List.fold_left (fun d p => region_update (region p) p d) profiles d1)
  = List.map fst
      (List.fold_left (fun d p => region_append (region p) p d) profiles d2).
Proof.
  induction profiles as [|p r IH]; intros d1 d2 H; simpl; [exact H|].
  apply IH. now rewrite region_update_keys, region_append_keys, H.
Qed.

Lemma fold_add_profile fs : forall st,
  List.fold_left (fun st p => add_profile p st) fs st
  = mkRegionStats (count st + length fs)
      (List.fold_left Qplus (List.map desert_risk_score fs)
         (avg_desert_risk st))
      (List.fold_left PyFloat.add (List.map capability_score fs)
         (avg_capability st))
      (total_gaps st + list_sum (List.map (fun f => length (gaps f)) fs)).
Proof.
  induction fs as [|p r IH]; intros st; simpl.
  - destruct st. simpl. f_equal; lia.
  - rewrite IH. simpl. f_equal; lia.
Qed.

Lemma fold_stats_lookup r profiles : forall d,
  stats_lookup r
    (List.fold_left (fun d p => region_update (region p) p d) profiles d)
  = match facilities_of r profiles with
    | [] => stats_lookup r d
    | fs => Some (List.fold_left (fun st p => add_profile p st) fs
                    (default new_stats (stats_lookup r d)))
    end.
Proof.
  induction profiles as [|p rest IH]; intros d; simpl; [reflexivity|].
  rewrite IH, stats_lookup_update. unfold facilities_of. simpl.
  fold (facilities_of r rest).
  destruct (String.eqb (region p) r); simpl.
  - now destruct (facilities_of r rest).
  - reflexivity.
Qed.

Lemma stats_lookup_map (f : RegionStats -> RegionStats) r d :
  stats_lookup r (List.map (fun rs => (fst rs, f (snd rs))) d)
  = f <$> stats_lookup r d.
Proof.
  unfold stats_lookup. induction d as [|[k st] rest IH]; simpl; [reflexivity|].
  destruct (String.eqb k r); simpl; [reflexivity | exact IH].
Qed.

(** X25. The regional statistics of [create_summary_statistics] agree with
    [identify_medical_deserts]: the regions are the same and in the same
    order, each once; the entry of a region holds the number of its
    facilities, the sum of their gap counts and the quotient by their
    number of the float sum of their capability scores, added in input
    order; and, for whole-number desert-risk scores, it holds the double
    nearest to their average, and a region is listed as a medical desert
    for a threshold exactly when that number reaches the threshold. *)
Theorem regional_statistics_agree_with_deserts
    (profiles : list FacilityProfile) (s : Summary) :
  create_summary_statistics profiles = Ok s ->
  List.map fst (regional_stats s) = List.map fst (group_by_region profiles)
  /\ List.NoDup (List.map fst (regional_stats s))
  /\ (forall r,
        facilities_of r profiles = [] ->
        stats_lookup r (regional_stats s) = None)
  /\ (forall r,
        let fs := facilities_of r profiles in
        fs <> [] ->
        exists st,
          stats_lookup r (regional_stats s) = Some st
          /\ count st = length fs
          /\ total_gaps st
             = list_sum (List.map (fun f => length (gaps f)) fs)
          /\ avg_capability st
             = PyFloat.truediv
                 (PyFloat.sum (List.map capability_score fs))
                 (Z.of_nat (length fs))
          /\ (whole_risks profiles ->
              avg_desert_risk st
              = PyFloat.nearest (mean (risks_of r profiles))))
  /\ (whole_risks profiles ->
      forall threshold r,
        (exists d, In d (identify_medical_deserts profiles threshold)
                   /\ DesertEntry.region d = r)
        <-> exists st, stats_lookup r (regional_stats s) = Some st
                       /\ (threshold <= avg_desert_risk st)%Q).
Proof.
  intros Hs. apply summary_inv in Hs as (_ & -> & _).
  assert (Hkeys : List.map fst
                    (List.map (fun rs => (fst rs, averaged (snd rs)))
                       (accumulate profiles))
                  = List.map fst (group_by_region profiles)).
  { rewrite List.map_map. simpl. apply (fold_keys_agree profiles [] []).
    reflexivity. }
  assert (Hlookup : forall r,
            stats_lookup r
              (List.map (fun rs => (fst rs, averaged (snd rs)))
                 (accumulate profiles))
            = match facilities_of r profiles with
              | [] => None
              | fs => Some (stats_of fs)
              end).
  { intros r. rewrite (stats_lookup_map averaged).
    unfold accumulate. rewrite fold_stats_lookup. simpl.
    destruct (facilities_of r profiles) as [|f fs]; [reflexivity|].
    rewrite fold_add_profile. reflexivity. }
  split; [exact Hkeys|]. split; [|split; [|split]].
  - rewrite Hkeys. apply (fold_region_nodup profiles []). constructor.
  - intros r E. now rewrite Hlookup, E.
  - intros r fs Hne. rewrite Hlookup. fold fs.
    exists (stats_of fs). split; [destruct fs; [congruence | reflexivity]|].
    repeat (split; [reflexivity|]). intros _. apply average_risk_mean.
  - intros _ threshold r. rewrite Hlookup. split.
    + intros (d & Hd & <-).
      apply identify_medical_deserts_in in Hd as (r & Hne & Hth & ->).
      simpl. destruct (facilities_of r profiles) as [|f fs] eqn:E;
        [congruence|].
      eexists. split; [reflexivity | exact Hth].
    + intros (st & Hst & Hth).
      destruct (facilities_of r profiles) as [|f fs] eqn:E; [discriminate|].
      injection Hst as <-. simpl in Hth.
      exists (entry_of r (f :: fs)). split; [|reflexivity].
      apply identify_medical_deserts_in. exists r. rewrite E.
      split; [discriminate|]. split; [exact Hth | reflexivity].
Qed.

Lemma regional_statistics_agree_with_deserts_witness :
  exists s,
    create_summary_statistics Scenario.region_at = Ok s
    /\ List.map fst (regional_stats s) = ["Northern"].
Proof.
  destruct (create_summary_statistics Scenario.region_at) as [s|e] eqn:E;
    [|vm_compute in E; discriminate].
  exists s. split; [reflexivity|].
  destruct (regional_statistics_agree_with_deserts _ _ E) as (H & _).
  rewrite H. reflexivity.
Defined.

Lemma gap_lookup_count g gap d :
  gap_lookup g (count_gap gap d)
  = if String.eqb gap g then Some (S (default 0%nat (gap_lookup g d)))
    else gap_lookup g d.
Proof.
  unfold gap_lookup. induction d as [|[k n] rest IH]; simpl.
  - destruct (String.eqb gap g); reflexivity.
  - destruct (String.eqb_spec k gap) as [->|Hk]; simpl.
    + destruct (String.eqb gap g); reflexivity.
    + destruct (String.eqb_spec k g) as [->|Hg]; simpl.
      * destruct (String.eqb_spec gap g) as [->|]; [congruence|reflexivity].
      * exact IH.
Qed.

Lemma count_gap_keys gap d :
  List.NoDup (List.map fst d) ->
  List.NoDup (List.map fst (count_gap gap d)).
Proof.
  induction d as [|[k n] rest IH]; simpl; intros H.
  - repeat constructor. intros [].
  - apply List.NoDup_cons_iff in H as [Hk Hrest].
    destruct (String.eqb_spec k gap) as [->|Hne]; simpl.
    + now constructor.
    + constructor; [|auto]. intros Hin. apply Hk.
      clear -Hin Hne. induction rest as [|[k' n'] r IH]; simpl in *.
      * destruct Hin as [E|[]]. congruence.
      * destruct (String.eqb k' gap); simpl in *; tauto.
Qed.

Lemma gap_counts_lookup all_gaps g : forall d,
  gap_lookup g (List.fold_left (fun d gap => count_gap gap d) all_gaps d)
  = match occurrences g all_gaps with
    | O => gap_lookup g d
    | S _ => Some (default 0%nat (gap_lookup g d)
                   + occurrences g all_gaps)%nat
    end.
Proof.
  unfold occurrences.
  induction all_gaps as [|gap rest IH]; intros d; simpl; [reflexivity|].
  rewrite IH, gap_lookup_count, (String.eqb_sym g gap).
  destruct (String.eqb gap g); simpl.
  - destruct (length (List.filter (String.eqb g) rest)); simpl;
      f_equal; lia.
  - reflexivity.
Qed.

Lemma gap_counts_nodup all_gaps : forall d,
  List.NoDup (List.map fst d) ->
  List.NoDup
    (List.map fst
       (List.fold_left (fun d gap => count_gap gap d) all_gaps d)).
Proof.
  induction all_gaps as [|gap rest IH]; intros d H; simpl; [exact H|].
  apply IH. now apply count_gap_keys.
Qed.

Lemma gap_lookup_in g n d :
  List.NoDup (List.map fst d) ->
  In (g, n) d <-> gap_lookup g d = Some n.
Proof.
  unfold gap_lookup. induction d as [|[k m] rest IH]; simpl; intros H.
  - split; [tauto | discriminate].
  - apply List.NoDup_cons_iff in H as [Hk Hrest].
    destruct (String.eqb_spec k g) as [->|Hne]; simpl.
    + split.
      * intros [[= ->]|Hin]; [reflexivity|].
        exfalso. apply Hk. apply List.in_map_iff. now exists (g, n).
      * intros [= ->]. now left.
    + rewrite <- (IH Hrest). split; [intros [[= E _]|Hin]|]; tauto.
Qed.

Lemma gap_counts_in all_gaps g n :
  In (g, n) (gap_counts all_gaps)
  <-> n = occurrences g all_gaps /\ (1 <= n)%nat.
Proof.
  unfold gap_counts.
  rewrite (gap_lookup_in g n _
             (gap_counts_nodup all_gaps [] (List.NoDup_nil _))).
  rewrite gap_counts_lookup. simpl.
  destruct (occurrences g all_gaps); simpl.
  - split; [discriminate | lia].
  - split; [intros [= <-]; lia | intros [-> _]; reflexivity].
Qed.

Lemma insert_count_perm x l : insert_count x l ≡ₚ x :: l.
Proof.
  induction l as [|y r IH]; simpl; [reflexivity|].
  destruct (snd y <=? snd x)%nat; [reflexivity|].
  rewrite IH. apply Permutation_swap.
Qed.

Lemma sorted_by_count_perm l : sorted_by_count l ≡ₚ l.
Proof.
  induction l as [|x r IH]; simpl; [reflexivity|].
  now rewrite insert_count_perm, IH.
Qed.

Lemma insert_count_sorted x l :
  by_count_desc l -> by_count_desc (insert_count x l).
Proof.
  unfold by_count_desc. induction 1 as [|y r Hr IH Hy]; simpl.
  - repeat constructor.
  - destruct (Nat.leb_spec (snd y) (snd x)).
    + constructor; [now constructor|].
      constructor; [assumption|].
      rewrite List.Forall_forall in *. intros z Hz.
      specialize (Hy z Hz). lia.
    + constructor; [exact IH|].
      rewrite (insert_count_perm x r). constructor; [lia | exact Hy].
Qed.

Lemma sorted_by_count_sorted l : by_count_desc (sorted_by_count l).
Proof.
  induction l as [|x r IH]; simpl; [constructor|].
  now apply insert_count_sorted.
Qed.

Lemma sorted_app_order (l1 l2 : list (string * nat)) :
  by_count_desc (l1 ++ l2) ->
  by_count_desc l1
  /\ forall a b, In a l1 -> In b l2 -> (snd b <= snd a)%nat.
Proof.
  unfold by_count_desc. induction l1 as [|x r IH]; simpl; intros H.
  - split; [constructor | tauto].
  - inversion H as [|? ? Hr Hx]; subst. destruct (IH Hr) as [IH1 IH2].
    rewrite List.Forall_forall in Hx. split.
    + constructor; [exact IH1|]. apply List.Forall_forall.
      intros z Hz. apply Hx. apply List.in_app_iff. now left.
    + intros a b [<-|Ha] Hb; [|auto].
      apply Hx. apply List.in_app_iff. now right.
Qed.

(** X26. The list [top_gaps] of [create_summary_statistics] has at most
    ten entries, names every gap at most once, and is in non-increasing
    order of count; the count of an entry is the number of times its gap
    occurs over all profiles, which is at least one; and a gap that occurs
    but is not listed is left out only because ten gaps are listed, none of
    which occurs less often. *)
Theorem top_gaps_are_the_most_frequent (profiles : list FacilityProfile)
    (s : Summary) :
  create_summary_statistics profiles = Ok s ->
  let all_gaps := List.flat_map gaps profiles in
  (length (top_gaps s) <= 10)%nat
  /\ List.NoDup (List.map fst (top_gaps s))
  /\ by_count_desc (top_gaps s)
  /\ Forall (fun gn => snd gn = occurrences (fst gn) all_gaps
                       /\ (1 <= snd gn)%nat) (top_gaps s)
  /\ (forall g, In g all_gaps -> ~ In g (List.map fst (top_gaps s)) ->
        length (top_gaps s) = 10%nat
        /\ Forall (fun gn => (occurrences g all_gaps <= snd gn)%nat)
             (top_gaps s)).
Proof.
  intros Hs all_gaps. apply summary_inv in Hs as (_ & _ & ->).
  fold all_gaps. set (sorted := sorted_by_count (gap_counts all_gaps)).
  assert (Hperm : sorted ≡ₚ gap_counts all_gaps)
    by apply sorted_by_count_perm.
  assert (Hnd : List.NoDup (List.map fst sorted)).
  { rewrite Hperm. apply (gap_counts_nodup all_gaps []). constructor. }
  assert (Hsplit : sorted = firstn 10 sorted ++ skipn 10 sorted)
    by (symmetry; apply List.firstn_skipn).
  assert (Hsorted : by_count_desc (firstn 10 sorted ++ skipn 10 sorted)).
  { rewrite <- Hsplit. apply sorted_by_count_sorted. }
  apply sorted_app_order in Hsorted as [Hfirst Horder].
  split; [apply List.firstn_le_length|].
  split; [|split; [exact Hfirst|split]].
  - rewrite Hsplit, List.map_app in Hnd.
    now apply List.NoDup_app_remove_r in Hnd.
  - apply List.Forall_forall. intros [g n] Hin. simpl.
    apply gap_counts_in. rewrite <- Hperm, Hsplit.
    apply List.in_app_iff. now left.
  - intros g Hg Hnot.
    assert (Hocc : (1 <= occurrences g all_gaps)%nat).
    { unfold occurrences. clear -Hg.
      induction all_gaps as [|x r IH]; simpl in *; [tauto|].
      destruct (String.eqb_spec g x); simpl; [lia|].
      destruct Hg as [->|Hg]; [congruence | auto]. }
    assert (Hin : In (g, occurrences g all_gaps) sorted).
    { rewrite Hperm. apply gap_counts_in. now split. }
    rewrite Hsplit in Hin. apply List.in_app_iff in Hin as [Hin|Hin].
    { exfalso. apply Hnot. apply List.in_map_iff.
      now exists (g, occurrences g all_gaps). }
    split.
    + apply List.firstn_length_le.
      destruct (Nat.le_gt_cases 10 (length sorted)) as [H|H]; [exact H|].
      rewrite List.skipn_all2 in Hin by lia. destruct Hin.
    + apply List.Forall_forall. intros a Ha.
      apply (Horder a (g, occurrences g all_gaps) Ha Hin).
Qed.

Lemma top_gaps_are_the_most_frequent_witness :
  exists s,
    create_summary_statistics
      [profile_with_gaps ["No ICU"; "No MRI"];
       profile_with_gaps ["No MRI"]] = Ok s
    /\ (length (top_gaps s) <= 10)%nat
    /\ by_count_desc (top_gaps s).
Proof.
  destruct (create_summary_statistics
              [profile_with_gaps ["No ICU"; "No MRI"];
               profile_with_gaps ["No MRI"]]) as [s|e] eqn:E;
    [|vm_compute in E; discriminate].
  exists s. split; [reflexivity|].
  destruct (top_gaps_are_the_most_frequent _ _ E) as (Hlen & _ & Hdesc & _).
  split; [exact Hlen | exact Hdesc].
Defined.

End StatisticsFacts.

(** ** The agent of the demo *)
Section DemoFacts.
Import SimpleParser SimpleAgent.

Variable format_0f : Q -> string.

Lemma simple_risk_bound p :
  (0 <= desert_risk_score (_compute_scores p) <= 60)%Q.
Proof.
  destruct (simple_parser_scores p) as (_ & H & _). cbv zeta in H.
  rewrite H.
  set (c := capability_score (_compute_scores p)).
  change 0%Q with (inject_Z 0). change 60%Q with (inject_Z 60).
  rewrite <- !Zle_Qle.
  destruct (risk_base_cases c) as [E|[E|E]]; rewrite E; lia.
Qed.

Lemma region_append_groups (P : FacilityProfile -> Prop) r p d :
  P p ->
  Forall (fun rf => snd rf <> [] /\ Forall P (snd rf)) d ->
  Forall (fun rf => snd rf <> [] /\ Forall P (snd rf))
    (SimpleAgent.region_append r p d).
Proof.
  intros Hp. induction 1 as [|[r' ps] rest [Hne Hps] Hrest IH]; simpl.
  - constructor; [|constructor]. simpl. split; [discriminate|].
    now constructor.
  - destruct (String.eqb r' r); constructor; simpl in *; auto.
    split; [now destruct ps|].
    apply List.Forall_app. split; [exact Hps | now constructor].
Qed.

Lemma groups_nonempty (P : FacilityProfile -> Prop) profiles :
  Forall P profiles ->
  Forall (fun rf => snd rf <> [] /\ Forall P (snd rf))
    (SimpleAgent.group_by_region profiles).
Proof.
  unfold SimpleAgent.group_by_region.
  assert (H : forall d,
            Forall (fun rf => snd rf <> [] /\ Forall P (snd rf)) d ->
            Forall P profiles ->
            Forall (fun rf => snd rf <> [] /\ Forall P (snd rf))
              (List.fold_left
                 (fun d p => SimpleAgent.region_append (region p) p d)
                 profiles d)).
  { induction profiles as [|p r IH]; intros d Hd Hall; simpl; [exact Hd|].
    inversion Hall; subst. apply IH; [|assumption].
    now apply region_append_groups. }
  intros Hall. apply H; [constructor | exact Hall].
Qed.

Lemma insert_by_size_perm x l : insert_by_size x l ≡ₚ x :: l.
Proof.
  induction l as [|y r IH]; simpl; [reflexivity|].
  destruct (_ <=? _)%nat; [reflexivity|].
  rewrite IH. apply Permutation_swap.
Qed.

Lemma sorted_by_size_perm l : sorted_by_size l ≡ₚ l.
Proof.
  induction l as [|x r IH]; simpl; [reflexivity|].
  now rewrite insert_by_size_perm, IH.
Qed.

Lemma recommend_medium rf :
  snd rf <> [] ->
  Forall (fun p => 0 <= desert_risk_score p <= 60)%Q (snd rf) ->
  exists rec, recommend format_0f rf = Ok rec /\ priority rec = "MEDIUM"
              /\ rec_region rec = fst rf.
Proof.
  destruct rf as [r fs]. simpl. intros Hne Hall. unfold recommend.
  destruct fs as [|f fs']; [congruence|].
  set (l := f :: fs') in *. unfold Statistics.divide.
  change (length l) with (S (length fs')). cbn [mbind result_bind].
  set (avg := PyFloat.truediv (Parser.Qsum (List.map desert_risk_score l))
                (Z.of_nat (S (length fs')))).
  assert (Havg : (avg <= 60)%Q).
  { assert (H60 : PyFloat.nearest 60 = 60%Q) by (vm_compute; reflexivity).
    pose proof (truediv_bounds 0 60 (List.map desert_risk_score l) eq_refl
                  H60) as Hb.
    rewrite List.length_map in Hb.
    apply Hb; [discriminate | now apply List.Forall_map]. }
  eexists. split; [reflexivity|]. cbn [priority rec_region fst].
  split; [|reflexivity].
  destruct (Qle_bool 70 avg) eqn:E; [|reflexivity].
  apply Qle_bool_iff in E. exfalso. lra.
Qed.

Lemma traverse_recommend l :
  Forall (fun rf => snd rf <> []
                    /\ Forall (fun p => 0 <= desert_risk_score p <= 60)%Q
                         (snd rf)) l ->
  exists recs,
    traverse (recommend format_0f) l = Ok recs
    /\ Forall (fun rec => priority rec = "MEDIUM") recs
    /\ List.map rec_region recs = List.map fst l.
Proof.
  induction 1 as [|rf rest [Hne Hall] _ (recs & IH & Hrecs & Hregions)];
    simpl.
  - exists []. repeat split. constructor.
  - destruct (recommend_medium rf Hne Hall) as (rec & -> & Hp & Hr).
    rewrite IH. simpl. exists (rec :: recs).
    split; [reflexivity|]. split; [now constructor|].
    simpl. now rewrite Hr, Hregions.
Qed.

(** X27. In the demo, a profile scored by [SimpleDocumentParser] has a
    desert-risk score of at most 60, so [SimpleHealthcareAgent.analyze]
    never raises on such profiles and never gives a recommendation the
    priority [HIGH], which needs an average of 70: every recommendation is
    [MEDIUM]. There is at most one recommendation per profile, and none
    unless the query is classified as a medical-desert query. *)
Theorem demo_agent_never_recommends_high_priority
    (parsed : list FacilityProfile) (query : string) :
  let profiles := List.map _compute_scores parsed in
  Forall (fun p => 0 <= desert_risk_score p <= 60)%Q profiles
  /\ exists a,
       analyze format_0f profiles query = Ok a
       /\ Forall (fun rec => priority rec = "MEDIUM") (recommendations a)
       /\ (length (recommendations a) <= length parsed)%nat
       /\ (classify (PyStr.lower query) <> "medical_desert" ->
           recommendations a = []).
Proof.
  intros profiles.
  assert (Hall : Forall (fun p => 0 <= desert_risk_score p <= 60)%Q profiles).
  { unfold profiles. apply List.Forall_map. apply List.Forall_forall.
    intros p _. apply simple_risk_bound. }
  split; [exact Hall|]. unfold analyze.
  destruct (String.eqb_spec (classify (PyStr.lower query)) "medical_desert")
    as [E|E].
  - set (high_risk := List.filter _ profiles).
    assert (Hhigh : Forall (fun p => 0 <= desert_risk_score p <= 60)%Q
                      high_risk).
    { apply List.Forall_forall. intros p [Hp _]%List.filter_In.
      rewrite List.Forall_forall in Hall. auto. }
    pose proof (groups_nonempty _ _ Hhigh) as Hgroups.
    rewrite <- (sorted_by_size_perm _) in Hgroups.
    destruct (traverse_recommend _ Hgroups) as (recs & -> & Hrecs & Hreg).
    simpl. eexists. split; [reflexivity|]. simpl.
    split; [exact Hrecs|]. split; [|congruence].
    rewrite <- (List.length_map rec_region), Hreg, List.length_map.
    rewrite (sorted_by_size_perm _).
    assert (Hlen : forall l d,
              (length (List.fold_left
                         (fun d p => SimpleAgent.region_append (region p) p d)
                         l d) <= length d + length l)%nat).
    { induction l as [|p r IH]; intros d; simpl; [lia|].
      specialize (IH (SimpleAgent.region_append (region p) p d)).
      assert (length (SimpleAgent.region_append (region p) p d)
              <= S (length d))%nat; [|lia].
      clear. induction d as [|[r' ps] rest IHd]; simpl; [lia|].
      destruct (String.eqb r' (region p)); simpl; lia. }
    specialize (Hlen high_risk []). simpl in Hlen.
    unfold SimpleAgent.group_by_region.
    pose proof (List.filter_length_le
                  (fun p => Qle_bool 60 (desert_risk_score p)) profiles).
    fold high_risk in H. unfold profiles in H.
    rewrite List.length_map in H. lia.
  - destruct (String.eqb _ "staffing"); eexists;
      (split; [reflexivity|]); simpl;
      (split; [constructor|]); (split; [lia | reflexivity]).
Qed.

End DemoFacts.

(** Two regions of the demo with one high-risk facility each. *)
Example demo_recommendations_are_medium :
  exists a,
    SimpleAgent.analyze Scenario.format_whole
      [demo_profile "Northern"; demo_profile "Volta"]
      "Which regions are medical deserts?" = Ok a
    /\ List.map SimpleAgent.priority (SimpleAgent.recommendations a)
       = ["MEDIUM"; "MEDIUM"].
Proof.
  eexists. split; vm_compute; reflexivity.
Qed.

(** ** Equipment and the desert-risk score *)
Section EquipmentFacts.
Import Parser.

Lemma Qltb_antitone a b c : (a <= b)%Q -> Qltb b c = true -> Qltb a c = true.
Proof.
  intros Hab Hb. apply Qltb_lt in Hb. apply Qltb_lt. lra.
Qed.

Lemma risk_base_antitone a b : (a <= b)%Q -> risk_base b <= risk_base a.
Proof.
  intros Hab. unfold risk_base.
  destruct (Qltb b 30) eqn:B30.
  - now rewrite (Qltb_antitone a b 30 Hab B30).
  - destruct (Qltb b 50) eqn:B50.
    + rewrite (Qltb_antitone a b 50 Hab B50). destruct (Qltb a 30); lia.
    + destruct (Qltb a 30), (Qltb a 50); lia.
Qed.

Lemma py_min_monotone c a b : (a <= b)%Q -> (py_min c a <= py_min c b)%Q.
Proof.
  intros Hab. rewrite !py_min_Qmin.
  apply Q.min_le_compat_l. exact Hab.
Qed.

Lemma capability_score_grows item p :
  (compute_capability_score p
   <= compute_capability_score (with_equipment item p))%Q.
Proof.
  unfold compute_capability_score, with_equipment.
  cbn [set_lists specialties equipment procedures facility_type].
  rewrite List.length_app, type_weights_lookup.
  apply py_min_monotone. apply mul_le; [apply weight_nonneg|].
  cbn [length]. lia.
Qed.

Lemma missing_penalty_shrinks item eq :
  missing_critical_penalty (eq ++ [item]) <= missing_critical_penalty eq.
Proof.
  unfold missing_critical_penalty.
  assert (H : forall l,
            (length (List.filter
                       (fun i => negb (present_in (eq ++ [item]) i)) l)
             <= length (List.filter (fun i => negb (present_in eq i)) l))%nat).
  { induction l as [|i r IH]; simpl; [lia|].
    assert (E : present_in (eq ++ [item]) i
                = present_in eq i || present_in [item] i)
      by apply existsb_app.
    rewrite E.
    destruct (present_in eq i), (present_in [item] i); simpl; lia. }
  specialize (H ["CT scanner"; "MRI"; "ICU"; "operating theater"]). lia.
Qed.

(** X28. Listing one more item of equipment never raises the desert-risk
    score of [_compute_scores] and never lowers the capability score,
    whatever the item is. *)
Theorem more_equipment_never_raises_the_risk (item : string)
    (p : FacilityProfile) :
  (capability_score (_compute_scores p)
   <= capability_score (_compute_scores (with_equipment item p)))%Q
  /\ (desert_risk_score (_compute_scores (with_equipment item p))
      <= desert_risk_score (_compute_scores p))%Q.
Proof.
  split; [rewrite !capability_score_stored; apply capability_score_grows|].
  rewrite !desert_risk_stored. rewrite <- Zle_Qle.
  pose proof (risk_base_antitone _ _ (capability_score_grows item p)) as Hb.
  pose proof (missing_penalty_shrinks item (equipment p)) as Hm.
  change (gaps (with_equipment item p)) with (gaps p).
  change (equipment (with_equipment item p)) with (equipment p ++ [item]).
  lia.
Qed.

End EquipmentFacts.

(** ** The anomalies of a facility *)
Section AnomalyFacts.
Import Extraction.

Lemma lower_names l pn :
  traverse (fun p => py_lower (name p)) l = Ok pn ->
  List.map Some pn = List.map name_key l.
Proof.
  revert pn. induction l as [|c r IH]; simpl; intros pn.
  - now intros [= <-].
  - destruct (py_lower (name c)) as [k|e] eqn:E; simpl; [|discriminate].
    destruct (traverse _ r) as [ks|e]; simpl; [|discriminate].
    intros [= <-]. simpl. rewrite (IH ks eq_refl).
    apply py_lower_key in E. now rewrite E.
Qed.

Lemma mem_keys key l pn :
  List.map Some pn = List.map name_key l ->
  PyStr.mem key pn = true <-> In (Some key) (List.map name_key l).
Proof.
  intros <-. unfold PyStr.mem. rewrite List.existsb_exists. split.
  - intros (x & Hx & E). apply String.eqb_eq in E. subst x.
    now apply List.in_map.
  - intros [x [[= ->] Hx]]%List.in_map_iff. exists key.
    split; [exact Hx | apply String.eqb_refl].
Qed.

Lemma any_cardio_false l :
  Forall (fun s => exists n, name s = PStr n
                             /\ PyStr.contains "cardio" (PyStr.lower n)
                                = false) l ->
  any_cardio l = Ok false.
Proof.
  induction 1 as [|s r (n & Hn & Hc) _ IH]; simpl; [reflexivity|].
  rewrite Hn. simpl. now rewrite Hc.
Qed.

Lemma filter_none {A : Type} (f : A -> bool) l :
  Forall (fun x => f x = false) l -> List.filter f l = [].
Proof.
  induction 1 as [|x r Hx _ IH]; simpl; [reflexivity|]. now rewrite Hx.
Qed.

(** X29. [_detect_anomalies] reports at most four anomalies. It reports
    none for a facility that does not list cardiac surgery and whose
    equipment is neither broken nor merely claimed. For a facility that
    lists cardiac surgery and no specialty whose name contains [cardio], the
    last anomaly is the missing cardiology specialty. *)
Theorem anomalies_need_a_cause
    (procedures equipment specialties : list ExtractedCapability)
    (anomalies : list string) :
  _detect_anomalies procedures equipment specialties = Ok anomalies ->
  (length anomalies <= 4)%nat
  /\ (~ In (Some "cardiac surgery") (List.map name_key procedures) ->
      Forall (fun e => has_status "broken" e = false
                       /\ has_status "claimed" e = false) equipment ->
      anomalies = [])
  /\ (In (Some "cardiac surgery") (List.map name_key procedures) ->
      Forall (fun s => exists n, name s = PStr n
                                 /\ PyStr.contains "cardio" (PyStr.lower n)
                                    = false) specialties ->
      List.last anomalies ""
      = "Claims cardiac surgery but no cardiology specialty listed").
Proof.
  unfold _detect_anomalies.
  destruct (traverse (fun p => py_lower (name p)) procedures)
    as [pn|e] eqn:Ep; cbn [mbind result_bind]; [|discriminate].
  destruct (traverse (fun e => py_lower (name e)) equipment)
    as [en|e] eqn:Ee; cbn [mbind result_bind]; [|discriminate].
  pose proof (mem_keys "cardiac surgery" _ _ (lower_names _ _ Ep)) as Hmem.
  assert (Hquiet : Forall (fun e => has_status "broken" e = false
                                    /\ has_status "claimed" e = false)
                     equipment ->
                   List.map name (List.filter (has_status "broken") equipment)
                   = []
                   /\ List.map name
                        (List.filter (has_status "claimed") equipment) = []).
  { intros H. rewrite !filter_none; [now split | |];
      (eapply List.Forall_impl; [|exact H]); cbv beta; tauto. }
  destruct (PyStr.mem "cardiac surgery" pn) eqn:Em.
  - match goal with
    | |- context [Ok (?x ++ ["Non-functional equipment: " +:+ _])] =>
        set (first := x)
    end.
    assert (Hlen1 : (length first <= 1)%nat).
    { unfold first.
      destruct (List.filter
                  (fun r : string => negb (existsb (PyStr.contains r) en))
                  ["ct scanner"; "icu"]); simpl; lia. }
    destruct (List.map name (List.filter (has_status "broken") equipment))
      as [|b bs] eqn:Eb;
      [|destruct (join_names (b :: bs)) as [bnames|e];
        cbn [mbind result_bind]; [|discriminate]];
      (destruct (List.map name
                   (List.filter (has_status "claimed") equipment))
         as [|c cs] eqn:Ec;
       [|destruct (join_names (c :: cs)) as [cnames|e];
         cbn [mbind result_bind]; [|discriminate]]);
      cbn [mbind result_bind];
      (destruct (any_cardio specialties) as [[|]|e] eqn:Ea;
       cbn [mbind result_bind]; [| |discriminate]);
      intros [= <-];
      (split; [rewrite ?List.length_app; simpl; lia|]);
      (split; [intros Hnot; exfalso; apply Hnot, Hmem; reflexivity|]);
      intros _ Hs; rewrite (any_cardio_false _ Hs) in Ea;
      try discriminate Ea; apply List.last_last.
  - destruct (List.map name (List.filter (has_status "broken") equipment))
      as [|b bs] eqn:Eb;
      [|destruct (join_names (b :: bs)) as [bnames|e];
        cbn [mbind result_bind]; [|discriminate]];
      (destruct (List.map name
                   (List.filter (has_status "claimed") equipment))
         as [|c cs] eqn:Ec;
       [|destruct (join_names (c :: cs)) as [cnames|e];
         cbn [mbind result_bind]; [|discriminate]]);
      cbn [mbind result_bind]; intros [= <-];
      (split; [rewrite ?List.length_app; simpl; lia|]);
      (split; [|intros Hin; apply Hmem in Hin; discriminate]);
      intros _ Hall; destruct (Hquiet Hall); try discriminate; reflexivity.
Qed.

End AnomalyFacts.

Lemma anomalies_need_a_cause_witness :
  exists anomalies,
    Extraction._detect_anomalies [cardiac_claim] [] [] = Ok anomalies
    /\ List.last anomalies ""
       = "Claims cardiac surgery but no cardiology specialty listed".
Proof.
  destruct (Extraction._detect_anomalies [cardiac_claim] [] [])
    as [anomalies|e] eqn:E; [|vm_compute in E; discriminate].
  exists anomalies. split; [reflexivity|].
  apply (proj2 (proj2 (anomalies_need_a_cause _ _ _ _ E))).
  - left. reflexivity.
  - constructor.
Defined.

(** ** Critical equipment reported as broken *)
Section BrokenFacts.
Import Regex Parser.

Lemma run_lit {A : Type} s : forall rest pos cp (k : @cont A),
  run false (RLit s) (s +:+ rest) pos cp k = k rest (pos + String.length s)%nat cp.
Proof.
  induction s as [|c r IH]; intros rest pos cp k.
  - simpl. now rewrite Nat.add_0_r.
  - destruct r as [|c' r'].
    + simpl. rewrite Ascii.eqb_refl. f_equal. lia.
    + change (RLit (String c (String c' r')))
        with (RSeq (RChr (CChar c)) (RLit (String c' r'))).
      change (String c (String c' r') +:+ rest)
        with (String c (String c' r' +:+ rest)).
      cbn [run match_char]. rewrite Ascii.eqb_refl.
      rewrite IH. f_equal. simpl. lia.
Qed.

Lemma star_lazy_reaches {A : Type} c mid :
  forall rest pos cp (k : @cont A),
    forallb (match_char false c) (list_ascii_of_string mid) = true ->
    (exists a, k rest (pos + String.length mid)%nat cp = Some a) ->
    exists a, star_lazy false c (mid +:+ rest) pos cp k = Some a.
Proof.
  induction mid as [|x m IH]; intros rest pos cp k Hall [a Ha].
  - simpl in *. rewrite Nat.add_0_r in Ha.
    destruct rest; simpl; rewrite Ha; eauto.
  - simpl in Hall. apply andb_prop in Hall as [Hx Hm].
    change (String x m +:+ rest) with (String x (m +:+ rest)).
    cbn [star_lazy].
    destruct (k (String x (m +:+ rest)) pos cp); [eauto|].
    rewrite Hx. apply IH; [exact Hm|].
    exists a. rewrite <- Ha. f_equal. simpl. lia.
Qed.

Lemma search_from_reaches ic r pre : forall suffix pos,
  (forall pos', exists m, match_at ic r suffix pos' = Some m) ->
  exists m, search_from ic r (pre +:+ suffix) pos = Some m.
Proof.
  induction pre as [|c pre' IH]; intros suffix pos H.
  - simpl. destruct (H pos) as [m Hm].
    destruct suffix; simpl; rewrite Hm; eauto.
  - change (String c pre' +:+ suffix) with (String c (pre' +:+ suffix)).
    cbn [search_from].
    destruct (match_at ic r (String c (pre' +:+ suffix)) pos); [eauto|].
    now apply IH.
Qed.

Lemma startswith_append s rest : PyStr.startswith s (s +:+ rest) = true.
Proof.
  induction s as [|c r IH]; simpl; [reflexivity|].
  now rewrite Ascii.eqb_refl.
Qed.

Lemma contains_middle pre s rest :
  PyStr.contains s (pre +:+ s +:+ rest) = true.
Proof.
  induction pre as [|c pre' IH].
  - simpl. destruct (s +:+ rest) eqn:E; simpl;
      rewrite <- E, startswith_append; reflexivity.
  - change (String c pre' +:+ s +:+ rest)
      with (String c (pre' +:+ s +:+ rest)).
    cbn [PyStr.contains]. rewrite IH. apply orb_true_r.
Qed.

(** Text in which [broke] follows the item on the same line matches
    [item.*?broke]. *)
Lemma broke_pattern_found item pre mid post :
  on_one_line mid = true ->
  found (search false (RSeqs [RLit item; RStar false CAny; RLit "broke"])
           (pre +:+ item +:+ mid +:+ "broke" +:+ post)) = true.
Proof.
  intros Hmid.
  destruct (search_from_reaches false
              (RSeqs [RLit item; RStar false CAny; RLit "broke"]) pre
              (item +:+ mid +:+ "broke" +:+ post) 0%nat) as [m Hm].
  - intros pos. unfold match_at.
    change (RSeqs [RLit item; RStar false CAny; RLit "broke"])
      with (RSeq (RLit item) (RSeq (RStar false CAny) (RLit "broke"))).
    cbn [run]. rewrite run_lit.
    destruct (star_lazy_reaches CAny mid ("broke" +:+ post)
                (pos + String.length item)%nat []
                (fun s' pos' cp' =>
                   run false (RLit "broke") s' pos' cp'
                     (fun _ pos'' cp'' =>
                        Some (mkMatch pos pos''
                                (String.substring 0 (pos'' - pos)
                                   (item +:+ mid +:+ "broke" +:+ post))
                                cp''))) Hmid) as [a Ha].
    + rewrite (run_lit "broke"). eauto.
    + eauto.
  - unfold search. now rewrite Hm.
Qed.

(** X30. [_detect_gaps] reports a critical item as broken whenever the
    lower-cased text of the four columns mentions the item, does not
    contain [no] followed by the item, and has the word [broke] anywhere
    after the item on the same line: what broke need not be that item. So
    a facility that lists an ICU and whose notes say that the MRI broke
    down gets the gap [ICU broken/awaiting repair]. *)
Theorem broke_flags_every_item_before_it (row : FacilityRow)
    (p : FacilityProfile) (item pre mid post : string) :
  extract_capabilities row = Ok p ->
  In item critical_equipment ->
  PyStr.lower (combined_text row)
  = pre +:+ PyStr.lower item +:+ mid +:+ "broke" +:+ post ->
  on_one_line mid = true ->
  search false (RSeq (RLit "no ") (RLit (PyStr.lower item)))
    (PyStr.lower (combined_text row)) = None ->
  In (item +:+ " broken/awaiting repair") (gaps p).
Proof.
  intros Hp Hitem Htext Hmid Hno.
  apply extract_capabilities_inv in Hp as (sh & _ & ->). simpl.
  apply List.in_app_iff. right. unfold critical_gaps_of.
  apply List.in_flat_map. exists item. split; [exact Hitem|].
  cbv beta zeta. rewrite Hno. cbn [found]. rewrite Htext.
  rewrite contains_middle, broke_pattern_found by exact Hmid.
  now left.
Qed.

End BrokenFacts.

Lemma broke_flags_every_item_before_it_witness :
  exists p,
    Parser.extract_capabilities Scenario.noted_row = Ok p
    /\ In "ICU broken/awaiting repair" (Parser.gaps p).
Proof.
  destruct (Parser.extract_capabilities Scenario.noted_row) as [p|e] eqn:E;
    [|vm_compute in E; discriminate].
  exists p. split; [reflexivity|].
  apply (broke_flags_every_item_before_it Scenario.noted_row p "ICU"
           "cardiology, general surgery ct scanner, "
           "  we are short on neurosurgeons and our mri "
           " down last month" E).
  - simpl. tauto.
  - vm_compute. reflexivity.
  - vm_compute. reflexivity.
  - vm_compute. reflexivity.
Defined.
